(** * Helios trading micro-service: the trade analytics engine

    A shallow embedding of [app/utils/helpers.py],
    [app/services/pattern_analyzer.py] and
    [app/services/behavior_analyzer.py], with the pandas / numpy
    operations they call (pandas 2.x), and the properties of the
    analytics engine stated over it.

    Numbers.  The columns are float64.  Their values are modelled by exact
    rationals extended with the IEEE special values (+inf, -inf, NaN):
    division by zero, empty means and comparisons with NaN behave as in
    numpy, rounding to 53 bits is not modelled.  The only irrational
    operation, the square root behind [std] and [np.sqrt], is taken in the
    real numbers.  Where a property turns on the rounding itself, the
    float64 evaluation is given beside the exact one (module [F64]). *)

From Stdlib Require Import ZArith QArith Qround Qabs Reals Qreals Lra Lqa Lia Psatz.
From Stdlib Require Import List String Ascii Bool Sorted Permutation DecimalString.
From Stdlib Require PrimFloat.
Import ListNotations.

Local Open Scope string_scope.
Local Open Scope list_scope.
Local Open Scope Z_scope.
Local Open Scope Q_scope.

(* ===================================================================== *)
(** * Extended numbers *)
(* ===================================================================== *)

Inductive ext (A : Type) : Type :=
| Fin (a : A)
| PInf
| NInf
| NaN.

Arguments Fin {A} a.
Arguments PInf {A}.
Arguments NInf {A}.
Arguments NaN {A}.

(** A float64 value, rounding left out. *)
Definition xnum : Type := ext Q.

Module X.

Definition isna {A} (x : ext A) : bool :=
  match x with NaN => true | _ => false end.

Definition isfinite {A} (x : ext A) : bool :=
  match x with Fin _ => true | _ => false end.

(** The infinity of a given sign; the sign of zero stands for 0/0. *)
Definition inf_of (c : comparison) : xnum :=
  match c with Gt => PInf | Lt => NInf | Eq => NaN end.

Definition sgn (x : xnum) : option comparison :=
  match x with
  | Fin q => Some (q ?= 0)
  | PInf => Some Gt
  | NInf => Some Lt
  | NaN => None
  end.

Definition sgn_mul (a b : comparison) : comparison :=
  match a, b with
  | Eq, _ | _, Eq => Eq
  | Gt, Gt | Lt, Lt => Gt
  | _, _ => Lt
  end.

Definition opp (x : xnum) : xnum :=
  match x with
  | Fin q => Fin (- q)
  | PInf => NInf
  | NInf => PInf
  | NaN => NaN
  end.

Definition abs (x : xnum) : xnum :=
  match x with
  | Fin q => Fin (Qabs q)
  | PInf | NInf => PInf
  | NaN => NaN
  end.

Definition add (x y : xnum) : xnum :=
  match x, y with
  | NaN, _ | _, NaN => NaN
  | Fin a, Fin b => Fin (a + b)
  | PInf, NInf | NInf, PInf => NaN
  | PInf, _ | _, PInf => PInf
  | NInf, _ | _, NInf => NInf
  end.

Definition sub (x y : xnum) : xnum := add x (opp y).

Definition mul (x y : xnum) : xnum :=
  match x, y with
  | Fin a, Fin b => Fin (a * b)
  | _, _ =>
      match sgn x, sgn y with
      | Some a, Some b => inf_of (sgn_mul a b)
      | _, _ => NaN
      end
  end.

(** True division of float64: x/0 is a signed infinity, 0/0 is NaN, and
    nothing is raised.  A zero divisor counts as +0. *)
Definition div (x y : xnum) : xnum :=
  match x, y with
  | NaN, _ | _, NaN => NaN
  | Fin a, Fin b => if Qeq_bool b 0 then inf_of (a ?= 0) else Fin (a / b)
  | Fin _, _ => Fin 0
  | _, Fin b =>
      match sgn x with
      | Some a => inf_of (sgn_mul a (if Qle_bool 0 b then Gt else Lt))
      | None => NaN
      end
  | _, _ => NaN
  end.

(** Ordering; [None] when either side is NaN. *)
Definition cmp (x y : xnum) : option comparison :=
  match x, y with
  | NaN, _ | _, NaN => None
  | Fin a, Fin b => Some (a ?= b)
  | PInf, PInf | NInf, NInf => Some Eq
  | PInf, _ | _, NInf => Some Gt
  | _, _ => Some Lt
  end.

Definition ltb (x y : xnum) : bool :=
  match cmp x y with Some Lt => true | _ => false end.
Definition gtb (x y : xnum) : bool :=
  match cmp x y with Some Gt => true | _ => false end.
Definition eqb (x y : xnum) : bool :=
  match cmp x y with Some Eq => true | _ => false end.
Definition leb (x y : xnum) : bool :=
  match cmp x y with Some Lt | Some Eq => true | _ => false end.

(** The order numpy sorts by: NaN goes last. *)
Definition sort_leb (x y : xnum) : bool :=
  match x, y with
  | _, NaN => true
  | NaN, _ => false
  | _, _ => leb x y
  end.

(** Same value, the way [unique] and hashing see it (NaN equals NaN). *)
Definition same (x y : xnum) : bool :=
  match x, y with
  | NaN, NaN => true
  | _, _ => eqb x y
  end.

Definition of_nat (n : nat) : xnum := Fin (inject_Z (Z.of_nat n)).
Definition of_Z (z : Z) : xnum := Fin (inject_Z z).

End X.

(* ===================================================================== *)
(** * Python: exceptions *)
(* ===================================================================== *)

Inductive exn : Type :=
| KeyError (key : string)
| ValueError (msg : string).

Inductive result (A : Type) : Type :=
| Ok (a : A)
| Raise (e : exn).

Arguments Ok {A} a.
Arguments Raise {A} e.

Definition bind {A B} (m : result A) (k : A -> result B) : result B :=
  match m with
  | Ok a => k a
  | Raise e => Raise e
  end.

Notation "x <- m ;; k" := (bind m (fun x => k))
  (at level 61, m at next level, right associativity).

(** The insight methods index into lists as well: besides the exceptions
    of the analyses they can raise [IndexError]. *)
Inductive raised : Type :=
| Raised (e : exn)
| IndexError (msg : string).

Inductive outcome (A : Type) : Type :=
| Done (a : A)
| Failed (e : raised).

Arguments Done {A} a.
Arguments Failed {A} e.

Definition lift {A} (m : result A) : outcome A :=
  match m with
  | Ok a => Done a
  | Raise e => Failed (Raised e)
  end.

Definition obind {A B} (m : outcome A) (k : A -> outcome B) : outcome B :=
  match m with
  | Done a => k a
  | Failed e => Failed e
  end.

Notation "x <~ m ;; k" := (obind m (fun x => k))
  (at level 61, m at next level, right associativity).

(* ===================================================================== *)
(** * Python: builtins used by the analyzers *)
(* ===================================================================== *)

Module Py.

(** A [dict] with string keys: insertion ordered, assignment to a key that
    is present overwrites the value in place. *)
Definition dict (V : Type) : Type := list (string * V).

Fixpoint get {V} (d : dict V) (k : string) : option V :=
  match d with
  | [] => None
  | (k', v) :: d' => if String.eqb k k' then Some v else get d' k
  end.

Fixpoint set {V} (d : dict V) (k : string) (v : V) : dict V :=
  match d with
  | [] => [(k, v)]
  | (k', v') :: d' =>
      if String.eqb k k' then (k, v) :: d' else (k', v') :: set d' k v
  end.

Definition keys {V} (d : dict V) : list string := map fst d.

Definition contains {V} (d : dict V) (k : string) : bool :=
  match get d k with Some _ => true | None => false end.

(** [sorted(xs, key=...)]: stable, by [<] on the keys. *)
Fixpoint insert_sorted {A} (lt : A -> A -> bool) (x : A) (l : list A)
  : list A :=
  match l with
  | [] => [x]
  | y :: l' => if lt x y then x :: y :: l' else y :: insert_sorted lt x l'
  end.

Definition sorted {A} (lt : A -> A -> bool) (l : list A) : list A :=
  fold_left (fun acc x => insert_sorted lt x acc) l [].

(** [max(xs, key=...)]: the first element with the greatest key. *)
Fixpoint max_from {A} (key : A -> xnum) (best : A) (l : list A) : A :=
  match l with
  | [] => best
  | x :: l' =>
      max_from key (if X.gtb (key x) (key best) then x else best) l'
  end.

Definition max {A} (key : A -> xnum) (l : list A) : result A :=
  match l with
  | [] => Raise (ValueError "max() arg is an empty sequence")
  | x :: l' => Ok (max_from key x l')
  end.

(** [sep.join(xs)] *)
Fixpoint join (sep : string) (l : list string) : string :=
  match l with
  | [] => ""
  | [x] => x
  | x :: l' => x ++ sep ++ join sep l'
  end.

(** [s.split(sep)] for a one-character separator. *)
Fixpoint split (sep : ascii) (s : string) : list string :=
  match s with
  | EmptyString => [EmptyString]
  | String c s' =>
      if Ascii.eqb c sep then EmptyString :: split sep s'
      else match split sep s' with
           | [] => [String c EmptyString]
           | h :: t => String c h :: t
           end
  end.

(** Round half to even, the rounding of [np.round] and of the format
    specifications. *)
Definition rint (q : Q) : Z :=
  let f := Qfloor q in
  match Qcompare (q - inject_Z f) (1 # 2) with
  | Lt => f
  | Gt => (f + 1)%Z
  | Eq => if Z.even f then f else (f + 1)%Z
  end.

Definition pow10 (d : nat) : Z := (10 ^ Z.of_nat d)%Z.

Definition digits (n : Z) : string :=
  NilZero.string_of_uint (N.to_uint (Z.to_N n)).

Fixpoint zfill_aux (missing : nat) (s : string) : string :=
  match missing with
  | O => s
  | S k => String "0" (zfill_aux k s)
  end.

Definition zfill (width : nat) (s : string) : string :=
  zfill_aux (width - String.length s) s.

(** [f"{x:.<d>f}"] *)
Definition format_f (d : nat) (x : xnum) : string :=
  match x with
  | NaN => "nan"
  | PInf => "inf"
  | NInf => "-inf"
  | Fin q =>
      let scaled := rint (Qabs q * inject_Z (pow10 d)) in
      (if Qlt_le_dec q 0 then "-" else "")
        ++ digits (scaled / pow10 d)
        ++ match d with
           | O => ""
           | _ => "." ++ zfill d (digits (scaled mod pow10 d))
           end
  end.

(** [f"{x:.<d>%}"] *)
Definition format_pct (d : nat) (x : xnum) : string :=
  format_f d (X.mul x (Fin 100)) ++ "%".

Definition parse_uint (s : string) : option Z :=
  match NilEmpty.uint_of_string s with
  | Some u => Some (Z.of_N (N.of_uint u))
  | None => None
  end.

(** [float(s)] on the spellings [format_f] produces: an optional sign,
    then [inf], [nan], or digits with an optional fraction.  Anything
    else, the empty string included, raises [ValueError]. *)
Definition float_unsigned (s : string) : option xnum :=
  if String.eqb s "inf" then Some PInf
  else if String.eqb s "nan" then Some NaN
  else
    match split "." s with
    | [i] =>
        if String.eqb i "" then None
        else match parse_uint i with
             | Some n => Some (Fin (inject_Z n))
             | None => None
             end
    | [i; f] =>
        if String.eqb i "" && String.eqb f "" then None
        else match parse_uint i, parse_uint f with
             | Some n, Some m =>
                 Some (Fin (inject_Z n
                            + inject_Z m / inject_Z (pow10 (String.length f))))
             | _, _ => None
             end
    | _ => None
    end.

Definition float (s : string) : result xnum :=
  let err := Raise (ValueError "could not convert string to float") in
  match s with
  | String "-" s' =>
      match float_unsigned s' with
      | Some x => Ok (X.opp x)
      | None => err
      end
  | String "+" s' =>
      match float_unsigned s' with Some x => Ok x | None => err end
  | _ => match float_unsigned s with Some x => Ok x | None => err end
  end.

(** [str(n)] of an integer. *)
Definition str_int (n : Z) : string :=
  if (n <? 0)%Z then "-" ++ digits (- n) else digits n.

(** [f"{x}"] of an integer count held in a numpy scalar: the integer, or
    [nan] when the reduction had no value. *)
Definition str_count (x : xnum) : string :=
  match x with
  | Fin q => str_int (Qfloor q)
  | PInf => "inf"
  | NInf => "-inf"
  | NaN => "nan"
  end.

(** [xs[0]] and [xs[-1]]. *)
Definition first {A} (l : list A) : outcome A :=
  match l with
  | [] => Failed (IndexError "list index out of range")
  | x :: _ => Done x
  end.

Definition last {A} (l : list A) : outcome A :=
  match l with
  | [] => Failed (IndexError "list index out of range")
  | x :: l' => Done (List.last l' x)
  end.

End Py.

(* ===================================================================== *)
(** * The data model *)
(* ===================================================================== *)

(** One element of the request body, after schema validation
    ([app/models/trade.py]).  [date] is the instant its ISO string
    denotes, in nanoseconds since the epoch (UTC); the schema accepts any
    year from 1 to 9999, so the instant need not fit what [pd.to_datetime]
    can hold.  All dates of a request are written in one format. *)
Record Trade : Type := {
  accountId : Z;
  pair : string;
  direction : string;
  status : string;
  strategy : option string;
  date : Z;
  accountBalance : Q;
  entryPrice : Q;
  size : Q;
  stopLoss : Q;
  target : Q;
  exitPrice : Q;
  netPNL : Q;
  accountChange : Q
}.

(** A row of [trades_df]: the trade and the three derived columns. *)
Record Row : Type := {
  trade :> Trade;
  risk : xnum;
  reward : xnum;
  rr_ratio : xnum
}.

Definition DataFrame : Type := list Row.

(** [pd.Timedelta(minutes=n)] in nanoseconds. *)
Definition Timedelta_minutes (n : Z) : Z := (n * 60 * 1000000000)%Z.

(* ===================================================================== *)
(** * Real-valued results *)
(* ===================================================================== *)

(** A float64 value that went through a square root. *)
Definition xreal : Type := ext R.

Module XR.

Definition of_xnum (x : xnum) : xreal :=
  match x with
  | Fin q => Fin (Q2R q)
  | PInf => PInf
  | NInf => NInf
  | NaN => NaN
  end.

(** [np.sqrt]: NaN on a negative argument. *)
Definition sqrt (x : xnum) : xreal :=
  match x with
  | Fin q => if Qlt_le_dec q 0 then NaN else Fin (R_sqrt.sqrt (Q2R q))
  | PInf => PInf
  | NInf => NaN
  | NaN => NaN
  end.

Definition inf_of_sign (a : R) : xreal :=
  if Rlt_dec 0 a then PInf else if Rlt_dec a 0 then NInf else NaN.

Definition div (x y : xreal) : xreal :=
  match x, y with
  | NaN, _ | _, NaN => NaN
  | Fin a, Fin b => if Req_dec_T b 0 then inf_of_sign a else Fin (a / b)%R
  | Fin _, _ => Fin 0%R
  | PInf, Fin b => if Rlt_dec b 0 then NInf else PInf
  | NInf, Fin b => if Rlt_dec b 0 then PInf else NInf
  | _, _ => NaN
  end.

Definition mul (x y : xreal) : xreal :=
  match x, y with
  | NaN, _ | _, NaN => NaN
  | Fin a, Fin b => Fin (a * b)%R
  | Fin a, PInf | PInf, Fin a => inf_of_sign a
  | Fin a, NInf | NInf, Fin a => inf_of_sign (- a)
  | PInf, PInf | NInf, NInf => PInf
  | PInf, NInf | NInf, PInf => NInf
  end.

(** [x > c] and [x < c] against a finite constant; False on NaN. *)
Definition gtb (x : xreal) (c : R) : bool :=
  match x with
  | Fin a => if Rlt_dec c a then true else false
  | PInf => true
  | NInf | NaN => false
  end.

Definition ltb (x : xreal) (c : R) : bool :=
  match x with
  | Fin a => if Rlt_dec a c then true else false
  | NInf => true
  | PInf | NaN => false
  end.

(** [np.round] to [d] decimals. *)
Definition rint (r : R) : Z :=
  let f := Int_part r in
  if Rlt_dec (r - IZR f) (1 / 2) then f
  else if Rlt_dec (1 / 2) (r - IZR f) then (f + 1)%Z
  else if Z.even f then f else (f + 1)%Z.

Definition round (d : nat) (x : xreal) : xreal :=
  match x with
  | Fin r => Fin (IZR (rint (r * IZR (Py.pow10 d))) / IZR (Py.pow10 d))%R
  | _ => x
  end.

Definition add (x y : xreal) : xreal :=
  match x, y with
  | NaN, _ | _, NaN => NaN
  | Fin a, Fin b => Fin (a + b)%R
  | PInf, NInf | NInf, PInf => NaN
  | PInf, _ | _, PInf => PInf
  | NInf, _ | _, NInf => NInf
  end.

(** [x > y] between two values; False when either is NaN. *)
Definition gt (x y : xreal) : bool :=
  match x, y with
  | NaN, _ | _, NaN => false
  | Fin a, Fin b => if Rlt_dec b a then true else false
  | PInf, PInf | NInf, _ | Fin _, PInf => false
  | PInf, _ | Fin _, NInf => true
  end.

(** [f"{x:.<d>f}"] *)
Definition format_f (d : nat) (x : xreal) : string :=
  match x with
  | NaN => "nan"
  | PInf => "inf"
  | NInf => "-inf"
  | Fin r =>
      let scaled := rint (Rabs r * IZR (Py.pow10 d)) in
      (if Rlt_dec r 0 then "-" else "")
        ++ Py.digits (scaled / Py.pow10 d)
        ++ match d with
           | O => ""
           | _ => "." ++ Py.zfill d (Py.digits (scaled mod Py.pow10 d))
           end
  end.

End XR.

(* ===================================================================== *)
(** * pandas and numpy *)
(* ===================================================================== *)

Module Pd.

(** ** Reductions of a float Series (skipna) *)

Definition dropna (s : list xnum) : list xnum :=
  filter (fun x => negb (X.isna x)) s.

Definition sum (s : list xnum) : xnum :=
  fold_right X.add (Fin 0) (dropna s).

Definition count (s : list xnum) : nat := List.length (dropna s).

(** [Series.mean]: NaN when no value is left. *)
Definition mean (s : list xnum) : xnum :=
  match count s with
  | O => NaN
  | n => X.div (sum s) (X.of_nat n)
  end.

(** A boolean Series counts as 0/1. *)
Definition of_bool (b : bool) : xnum := if b then Fin 1 else Fin 0.

Definition mean_bool (s : list bool) : xnum := mean (map of_bool s).

(** [Series.var] with [ddof=1]: NaN unless two values are present. *)
Definition var (s : list xnum) : xnum :=
  let n := count s in
  if (n <=? 1)%nat then NaN
  else
    let avg := X.div (sum s) (X.of_nat n) in
    let sqr := map (fun x => let d := X.sub avg x in X.mul d d) (dropna s) in
    X.div (sum sqr) (X.of_nat (n - 1)).

(** [Series.std] is the square root of [Series.var]. *)
Definition std (s : list xnum) : xreal := XR.sqrt (var s).

(** [Series.max] *)
Definition max (s : list xnum) : xnum :=
  match dropna s with
  | [] => NaN
  | x :: l => fold_left (fun m y => if X.gtb y m then y else m) l x
  end.

(** [Series.cummax] *)
Fixpoint cummax_from (m : xnum) (s : list xnum) : list xnum :=
  match s with
  | [] => []
  | x :: s' =>
      if X.isna x then NaN :: cummax_from m s'
      else let m' := if X.isna m || X.gtb x m then x else m in
           m' :: cummax_from m' s'
  end.

Definition cummax (s : list xnum) : list xnum := cummax_from NaN s.

(** [Series.cumsum] of an integer Series. *)
Fixpoint cumsum_from (acc : Z) (s : list Z) : list Z :=
  match s with
  | [] => []
  | x :: s' => (acc + x)%Z :: cumsum_from (acc + x)%Z s'
  end.

Definition cumsum (s : list Z) : list Z := cumsum_from 0%Z s.

(** [Series.shift(-1)]: every value replaced by the next one, the last by
    a missing value. *)
Definition shift_m1 {A} (s : list A) : list (option A) :=
  match s with
  | [] => []
  | _ :: s' => map Some s' ++ [None]
  end.

(** [DataFrame.round(d)] on a float cell. *)
Definition round (d : nat) (x : xnum) : xnum :=
  match x with
  | Fin q =>
      Fin (inject_Z (Py.rint (q * inject_Z (Py.pow10 d)))
           / inject_Z (Py.pow10 d))
  | _ => x
  end.

(** ** Quantiles *)

(** [np.sort]: ascending, NaN last. *)
Fixpoint insert_value (x : xnum) (l : list xnum) : list xnum :=
  match l with
  | [] => [x]
  | y :: l' => if X.sort_leb x y then x :: y :: l' else y :: insert_value x l'
  end.

Definition sort_values (l : list xnum) : list xnum :=
  fold_right insert_value [] l.

(** numpy's [_lerp]. *)
Definition lerp (a b : xnum) (t : Q) : xnum :=
  let diff_b_a := X.sub b a in
  if Qle_bool (1 # 2) t then X.sub b (X.mul diff_b_a (Fin (1 - t)))
  else X.add a (X.mul diff_b_a (Fin t)).

(** [np.percentile(arr, 100 * p, method='linear')] on a sorted array: the
    virtual index is [p * (n - 1)]; at or above the last index both
    neighbours are the last element. *)
Definition percentile (arr : list xnum) (p : Q) : xnum :=
  match arr with
  | [] => NaN
  | _ =>
      let n := Z.of_nat (List.length arr) in
      let virtual_index := p * inject_Z (n - 1) in
      if Qle_bool (inject_Z (n - 1)) virtual_index then
        let a := last arr NaN in
        lerp a a (virtual_index + 1)
      else
        let previous := Qfloor virtual_index in
        lerp (nth (Z.to_nat previous) arr NaN)
             (nth (Z.to_nat (previous + 1)) arr NaN)
             (virtual_index - inject_Z previous)
  end.

(** [Series.quantile(qs)] *)
Definition quantile (s : list xnum) (qs : list Q) : list xnum :=
  let arr := sort_values (dropna s) in
  map (percentile arr) qs.

(** [np.linspace(0, 1, q + 1)] *)
Definition linspace01 (q : nat) : list Q :=
  map (fun i => inject_Z (Z.of_nat i) / inject_Z (Z.of_nat q)) (seq 0 (q + 1)).

(** ** [pd.qcut] *)

Inductive duplicates : Type := dup_raise | dup_drop.

(** A categorical Series: a code per row (missing for a value outside
    every bin) and the categories in order. *)
Record Categorical (C : Type) : Type := {
  codes : list (option nat);
  categories : list C
}.
Arguments codes {C} c.
Arguments categories {C} c.

(** [pd.Interval], closed on the right. *)
Record Interval : Type := { left : xnum; right : xnum }.

(** [algos.unique]: first occurrences, in order. *)
Fixpoint unique_from (seen l : list xnum) : list xnum :=
  match l with
  | [] => []
  | x :: l' =>
      if existsb (X.same x) seen then unique_from seen l'
      else x :: unique_from (x :: seen) l'
  end.

Definition unique (l : list xnum) : list xnum := unique_from [] l.

(** [bins.searchsorted(v, side='left')] *)
Definition searchsorted_left (bins : list xnum) (v : xnum) : nat :=
  List.length (filter (fun b => negb (X.sort_leb v b)) bins).

(** [labels=[...]]: as many labels as bins, all different. *)
Fixpoint has_duplicates (l : list string) : bool :=
  match l with
  | [] => false
  | x :: l' => existsb (String.eqb x) l' || has_duplicates l'
  end.

Definition use_labels (labels : list string) (bins : list xnum)
  : result (list string) :=
  if has_duplicates labels then
    Raise (ValueError "labels must be unique if ordered=True; pass ordered=False for duplicate labels")
  else if negb (List.length labels =? List.length bins - 1)%nat then
    Raise (ValueError "Bin labels must be one fewer than the number of bin edges")
  else Ok labels.

(** [labels=None]: the intervals between the bin edges, rounded to
    [precision] digits ([_round_frac], [_infer_precision],
    [_format_labels], [IntervalIndex.from_breaks]). *)
Fixpoint leading_zeros (fuel : nat) (f : Q) : nat :=
  match fuel with
  | O => O
  | S k => if Qle_bool 1 (f * 10) then O else S (leading_zeros k (f * 10))
  end.

Definition round_frac (precision : nat) (x : xnum) : xnum :=
  match x with
  | Fin q =>
      if Qeq_bool q 0 then x
      else
        let whole := Z.quot (Qnum q) (Z.pos (Qden q)) in
        let frac := Qabs (q - inject_Z whole) in
        let digits :=
          if (whole =? 0)%Z
          then (leading_zeros (Pos.size_nat (Qden frac)) frac + precision)%nat
          else precision in
        round digits x
  | _ => x
  end.

Definition infer_precision (base_precision : nat) (bins : list xnum) : nat :=
  match find (fun precision =>
                (List.length (unique (map (round_frac precision) bins))
                 =? List.length bins)%nat)
             (seq base_precision (20 - base_precision)) with
  | Some precision => precision
  | None => base_precision
  end.

Fixpoint from_breaks (breaks : list xnum) : result (list Interval) :=
  match breaks with
  | l :: ((r :: _) as rest) =>
      if xorb (X.isna l) (X.isna r) then
        Raise (ValueError "missing values must be missing in the same location both left and right sides")
      else if X.gtb l r then
        Raise (ValueError "left side of interval must be <= right side")
      else
        tl <- from_breaks rest ;;
        Ok ({| left := l; right := r |} :: tl)
  | _ => Ok []
  end.

Definition format_labels (bins : list xnum) : result (list Interval) :=
  let precision := infer_precision 3 bins in
  let breaks := map (round_frac precision) bins in
  let breaks :=
    match breaks with
    | [] => []
    | b0 :: rest =>
        X.sub b0 (Fin (1 / inject_Z (Py.pow10 precision))) :: rest
    end in
  labels <- from_breaks breaks ;;
  (* the intervals become the categories of a Categorical *)
  if existsb (fun i => X.isna (left i)) labels
  then Raise (ValueError "Categorical categories cannot be null")
  else Ok labels.

(** [_bins_to_cuts] with [right=True], [include_lowest=True]. *)
Definition bins_to_cuts {C} (x bins : list xnum)
    (labels : list xnum -> result (list C)) (dup : duplicates)
  : result (Categorical C) :=
  let unique_bins := unique bins in
  bins <- (if (List.length unique_bins <? List.length bins)%nat
              && negb (List.length bins =? 2)%nat
           then match dup with
                | dup_raise => Raise (ValueError "Bin edges must be unique")
                | dup_drop => Ok unique_bins
                end
           else Ok bins) ;;
  let ids :=
    map (fun v => if X.eqb v (hd NaN bins) then 1%nat
                  else searchsorted_left bins v) x in
  let na_mask v id :=
    X.isna v || (id =? List.length bins)%nat || (id =? 0)%nat in
  labels <- labels bins ;;
  Ok {| codes := map (fun vi => if na_mask (fst vi) (snd vi) then None
                                else Some (snd vi - 1)%nat)
                     (combine x ids);
        categories := labels |}.

Definition qcut {C} (x : list xnum) (q : nat)
    (labels : list xnum -> result (list C)) (dup : duplicates)
  : result (Categorical C) :=
  let quantiles := linspace01 q in
  let bins := quantile x quantiles in
  bins_to_cuts x bins labels dup.

(** ** [pd.to_datetime] *)

(** [pd.Timestamp.min] and [pd.Timestamp.max]: the instants a nanosecond
    timestamp can hold, 1677-09-21 to 2262-04-11. *)
Definition Timestamp_min : Z := (- (2 ^ 63 - 1))%Z.
Definition Timestamp_max : Z := (2 ^ 63 - 1)%Z.

Definition in_bounds (t : Z) : bool :=
  (Timestamp_min <=? t)%Z && (t <=? Timestamp_max)%Z.

(** An instant outside that range raises [OutOfBoundsDatetime], which is a
    [ValueError]. *)
Definition to_datetime (dates : list Z) : result (list Z) :=
  if forallb in_bounds dates then Ok dates
  else Raise (ValueError "Out of bounds nanosecond timestamp").

(** ** [groupby] *)

Definition rows_with_code {A} (codes : list (option nat)) (rows : list A)
    (i : nat) : list A :=
  map snd
      (filter (fun cr => match fst cr with
                         | Some j => (j =? i)%nat
                         | None => false
                         end)
              (combine codes rows)).

(** Grouping by a categorical: one group per category, in category
    order; [observed=True] leaves out the categories no row falls in. *)
Definition groupby_categorical {C A} (observed : bool) (c : Categorical C)
    (rows : list A) : list (C * list A) :=
  let groups :=
    map (fun ic => (snd ic, rows_with_code (codes c) rows (fst ic)))
        (combine (seq 0 (List.length (categories c))) (categories c)) in
  if observed
  then filter (fun g => match snd g with [] => false | _ => true end) groups
  else groups.

(** In pandas 2.x [groupby] has [observed=False] unless told otherwise. *)
Definition observed_default : bool := false.

(** Grouping by key columns: one group per key present, keys ascending. *)
Definition groupby_keys {K A} (eqb ltb : K -> K -> bool) (key : A -> K)
    (rows : list A) : list (K * list A) :=
  let keys := fold_left (fun acc k => if existsb (eqb k) acc then acc
                                      else acc ++ [k])
                        (map key rows) [] in
  map (fun k => (k, filter (fun r => eqb (key r) k) rows))
      (Py.sorted ltb keys).

(** ** Reductions on Series that may hold infinities *)

(** [nanops.nanvar] with [ddof=1]: the squared deviations from the mean are
    summed as they are, so an infinite value, whose deviation is
    [inf - inf], makes the variance NaN. *)
Definition nanvar (s : list xnum) : xnum :=
  let n := count s in
  if (n <=? 1)%nat then NaN
  else
    let avg := X.div (sum s) (X.of_nat n) in
    let sqr := map (fun x => let d := X.sub avg x in X.mul d d) (dropna s) in
    X.div (fold_right X.add (Fin 0) sqr) (X.of_nat (n - 1)).

Definition nanstd (s : list xnum) : xreal := XR.sqrt (nanvar s).

(** ** [value_counts] and [groupby(...).size()] *)

(** The distinct values of a Series, in order of first appearance. *)
Definition distinct (s : list Z) : list Z :=
  fold_left (fun acc k => if existsb (Z.eqb k) acc then acc else acc ++ [k])
            s [].

Definition occurrences (k : Z) (s : list Z) : Z :=
  Z.of_nat (List.length (filter (Z.eqb k) s)).

(** [Series.value_counts().to_dict()]: value -> number of occurrences, most
    frequent first. *)
Definition value_counts (s : list Z) : list (Z * Z) :=
  Py.sorted (fun a b : Z * Z => (snd b <? snd a)%Z)
            (map (fun k => (k, occurrences k s)) (distinct s)).

(** [groupby(key).size()]: the number of rows of each group, keys
    ascending. *)
Definition groupby_size (keys : list Z) : list Z :=
  map (fun g : Z * list Z => Z.of_nat (List.length (snd g)))
      (groupby_keys Z.eqb Z.ltb (fun k => k) keys).

End Pd.

(* ===================================================================== *)
(** * app/utils/helpers.py *)
(* ===================================================================== *)

Module Helpers.

(** The three column assignments of [calculate_trade_metrics], row by row. *)
Definition derive (t : Trade) : Row :=
  let risk := X.abs (X.sub (Fin (entryPrice t)) (Fin (stopLoss t))) in
  let reward := X.abs (X.sub (Fin (target t)) (Fin (entryPrice t))) in
  {| trade := t; risk := risk; reward := reward;
     rr_ratio := X.div reward risk |}.

(** [df.sort_values('date')]: ascending.  Among rows with equal dates
    pandas' default quicksort promises no order (it keeps the input order
    up to 16 rows); the rows are taken in input order here, and nothing
    below depends on the order among equal dates. *)
Fixpoint insert_by_date (r : Row) (l : DataFrame) : DataFrame :=
  match l with
  | [] => [r]
  | x :: l' =>
      if (date r <=? date x)%Z then r :: x :: l'
      else x :: insert_by_date r l'
  end.

Fixpoint sort_values_date (l : DataFrame) : DataFrame :=
  match l with
  | [] => []
  | r :: l' => insert_by_date r (sort_values_date l')
  end.

(** [pd.DataFrame([])] has no column, so [df['date']] raises; and
    [pd.to_datetime] raises on a date it cannot hold. *)
Definition calculate_trade_metrics (trades : list Trade) : result DataFrame :=
  match trades with
  | [] => Raise (KeyError "date")
  | _ =>
      _ <- Pd.to_datetime (map (fun t : Trade => date t) trades) ;;
      Ok (sort_values_date (map derive trades))
  end.

End Helpers.

(* ===================================================================== *)
(** * app/services/pattern_analyzer.py *)
(* ===================================================================== *)

(** The shapes of the nested dictionaries the analyses return. *)
Module MeanStd.
Record t : Type := { mean : xnum; std : xreal }.
End MeanStd.

Module SizeImpact.
Record t : Type := {
  win_rate : xnum;
  netPNL : MeanStd.t;
  accountChange : MeanStd.t
}.
End SizeImpact.

Module DirectionBias.
Record t : Type := {
  win_rate : xnum;
  avg_netPNL : xnum;
  avg_accountChange : xnum
}.
End DirectionBias.

Module RiskReward.
Record t : Type := {
  win_rate : xnum;
  avg_netPNL : xnum
}.
End RiskReward.

(** [df[col]] for the float columns, and the aggregation
    [lambda x: (x == 'win').mean()] of the [status] column. *)
Definition column (f : Trade -> Q) (df : DataFrame) : list xnum :=
  map (fun r : Row => Fin (f r)) df.

Definition win_mean (rows : DataFrame) : xnum :=
  Pd.mean_bool (map (fun r : Row => String.eqb (status r) "win") rows).

Module PatternAnalyzer.

(** The constructor accepts one trade or a list of trades. *)
Inductive trades_arg : Type :=
| One (t : Trade)
| Many (l : list Trade).

Definition init (trades : trades_arg) : result DataFrame :=
  let trades_list := match trades with One t => [t] | Many l => l end in
  Helpers.calculate_trade_metrics trades_list.

Definition size_labels : list string :=
  ["Small"; "Medium"; "Large"; "Very Large"].

(** The analysis stores the buckets in a new column [size_quartile] and
    groups by it at once; no other method reads that column, so the
    buckets are passed on directly. *)
Definition analyze_position_size_impact (trades_df : DataFrame)
  : result (Py.dict SizeImpact.t) :=
  let len := List.length trades_df in
  size_groups <-
    (if (len <? 4)%nat then
       Pd.qcut (column size trades_df) (Nat.min len 4)
               (Pd.use_labels (firstn len size_labels)) Pd.dup_drop
     else
       Pd.qcut (column size trades_df) 4
               (Pd.use_labels size_labels) Pd.dup_raise) ;;
  let size_analysis :=
    map (fun g : string * DataFrame =>
           (fst g,
            {| SizeImpact.win_rate := Pd.round 4 (win_mean (snd g));
               SizeImpact.netPNL :=
                 {| MeanStd.mean := Pd.round 4 (Pd.mean (column netPNL (snd g)));
                    MeanStd.std := XR.round 4 (Pd.std (column netPNL (snd g))) |};
               SizeImpact.accountChange :=
                 {| MeanStd.mean :=
                      Pd.round 4 (Pd.mean (column accountChange (snd g)));
                    MeanStd.std :=
                      XR.round 4 (Pd.std (column accountChange (snd g))) |}
            |}))
        (Pd.groupby_categorical true size_groups trades_df) in
  Ok (fold_left (fun result g => Py.set result (fst g) (snd g))
                size_analysis []).

Definition key2_eqb (a b : string * string) : bool :=
  String.eqb (fst a) (fst b) && String.eqb (snd a) (snd b).

Definition key2_ltb (a b : string * string) : bool :=
  match String.compare (fst a) (fst b) with
  | Lt => true
  | Gt => false
  | Eq => String.ltb (snd a) (snd b)
  end.

Definition analyze_pair_direction_bias (trades_df : DataFrame)
  : Py.dict (Py.dict DirectionBias.t) :=
  let direction_analysis :=
    map (fun g : (string * string) * DataFrame =>
           (fst g,
            {| DirectionBias.win_rate := Pd.round 4 (win_mean (snd g));
               DirectionBias.avg_netPNL :=
                 Pd.round 4 (Pd.mean (column netPNL (snd g)));
               DirectionBias.avg_accountChange :=
                 Pd.round 4 (Pd.mean (column accountChange (snd g))) |}))
        (Pd.groupby_keys key2_eqb key2_ltb
                         (fun r : Row => (pair r, direction r)) trades_df) in
  fold_left
    (fun result g =>
       let '((pair, direction), row) := g in
       let result :=
         if Py.contains result pair then result else Py.set result pair [] in
       match Py.get result pair with
       | Some inner => Py.set result pair (Py.set inner direction row)
       | None => result
       end)
    direction_analysis [].

Definition analyze_risk_reward_patterns (trades_df : DataFrame)
  : result (Py.dict RiskReward.t) :=
  let len := List.length trades_df in
  let rr := map rr_ratio trades_df in
  rr_groups <-
    (if (len <? 4)%nat then
       Pd.qcut rr (Nat.min len 4) Pd.format_labels Pd.dup_drop
     else
       Pd.qcut rr 4 Pd.format_labels Pd.dup_raise) ;;
  let rr_analysis :=
    map (fun g : Pd.Interval * DataFrame =>
           (fst g,
            {| RiskReward.win_rate := Pd.round 4 (win_mean (snd g));
               RiskReward.avg_netPNL :=
                 Pd.round 4 (Pd.mean (column netPNL (snd g))) |}))
        (Pd.groupby_categorical Pd.observed_default rr_groups trades_df) in
  Ok (fold_left
        (fun result g =>
           let rr_range := fst g in
           let key := (Py.format_f 2 (Pd.left rr_range) ++ "-"
                       ++ Py.format_f 2 (Pd.right rr_range))%string in
           Py.set result key (snd g))
        rr_analysis []).

(** [analysis[x]['win_rate']] for a key [x] of [analysis]. *)
Definition size_win_rate (analysis : Py.dict SizeImpact.t) (x : string)
  : xnum :=
  match Py.get analysis x with
  | Some v => SizeImpact.win_rate v
  | None => NaN
  end.

Definition rr_win_rate (analysis : Py.dict RiskReward.t) (x : string)
  : xnum :=
  match Py.get analysis x with
  | Some v => RiskReward.win_rate v
  | None => NaN
  end.

(** [sorted(keys, key=lambda x: float(x.split('-')[0]))]: the keys are
    computed first, and [float] may raise. *)
Fixpoint left_edges (keys : list string) : result (list (xnum * string)) :=
  match keys with
  | [] => Ok []
  | x :: keys' =>
      k <- Py.float (hd "" (Py.split "-" x)) ;;
      rest <- left_edges keys' ;;
      Ok ((k, x) :: rest)
  end.

Definition sorted_by_left_edge (keys : list string) : result (list string) :=
  keyed <- left_edges keys ;;
  Ok (map snd (Py.sorted (fun a b => X.ltb (fst a) (fst b)) keyed)).

(** The three f-strings of the digest. *)
Definition pair_direction_line (best_pairs : list string) : string :=
  "Pair Direction: " ++ Py.join " and " (firstn 2 best_pairs)
  ++ " show 100% win rates.".

Definition position_size_line (best_size : string) (win_rate : xnum) : string :=
  "Position Size: " ++ best_size ++ " positions have higher win rates ("
  ++ Py.format_pct 2 win_rate ++ ") and profitability.".

Definition risk_reward_line (best_rr : string) (win_rate : xnum) : string :=
  "Risk-Reward: Higher R:R ratios (" ++ best_rr
  ++ ") yield better win rates (" ++ Py.format_pct 2 win_rate
  ++ ") and profitability.".

(** The loop that collects the pair/direction combinations whose win rate
    is exactly 1.0. *)
Definition best_pairs_of (direction_analysis : Py.dict (Py.dict DirectionBias.t))
  : list string :=
  flat_map
    (fun pd : string * Py.dict DirectionBias.t =>
       let '(pair, directions) := pd in
       flat_map
         (fun direction =>
            match Py.get directions direction with
            | Some m =>
                if X.eqb (DirectionBias.win_rate m) (Fin 1)
                then [(pair ++ " " ++ direction)%string] else []
            | None => []
            end)
         ["long"; "short"])
    direction_analysis.

Definition get_key_trading_insights (trades_df : DataFrame)
  : result (list string) :=
  let insights := [] in
  (* Pair Direction Insight *)
  let direction_analysis := analyze_pair_direction_bias trades_df in
  let best_pairs := best_pairs_of direction_analysis in
  let insights :=
    match best_pairs with
    | [] => insights
    | _ => insights ++ [pair_direction_line best_pairs]
    end in
  (* Position Size Insight *)
  size_analysis <- analyze_position_size_impact trades_df ;;
  let size_categories := Py.sorted String.ltb (Py.keys size_analysis) in
  best_size <- Py.max (size_win_rate size_analysis) size_categories ;;
  let insights :=
    insights ++
    [position_size_line best_size (size_win_rate size_analysis best_size)] in
  (* Risk-Reward Insight *)
  rr_analysis <- analyze_risk_reward_patterns trades_df ;;
  rr_categories <- sorted_by_left_edge (Py.keys rr_analysis) ;;
  best_rr <- Py.max (rr_win_rate rr_analysis) rr_categories ;;
  let insights :=
    insights ++
    [risk_reward_line best_rr (rr_win_rate rr_analysis best_rr)] in
  Ok insights.

(** The comparison both bucket insights make between the last and the
    first category: [hi] of the last, [lo] of the first. *)
Definition compare_ends (hi lo : xnum) (higher lower : string) : list string :=
  if X.gtb hi lo then [higher]
  else if X.gtb lo hi then [lower]
  else [].

Definition size_mean_pnl (analysis : Py.dict SizeImpact.t) (x : string) : xnum :=
  match Py.get analysis x with
  | Some v => MeanStd.mean (SizeImpact.netPNL v)
  | None => NaN
  end.

Definition get_position_size_insights (trades_df : DataFrame)
  : outcome (list string) :=
  analysis <~ lift (analyze_position_size_impact trades_df) ;;
  let insights := [] in
  let size_categories := Py.sorted String.ltb (Py.keys analysis) in
  let win_rates := map (size_win_rate analysis) size_categories in
  wr_last <~ Py.last win_rates ;;
  wr_first <~ Py.first win_rates ;;
  cat_last <~ Py.last size_categories ;;
  cat_first <~ Py.first size_categories ;;
  let insights :=
    insights ++
    compare_ends wr_last wr_first
      ("Larger position sizes tend to have higher win rates, with "
       ++ cat_last ++ " positions having a " ++ Py.format_pct 2 wr_last
       ++ " win rate compared to " ++ Py.format_pct 2 wr_first ++ " for "
       ++ cat_first ++ " positions.")%string
      ("Smaller position sizes tend to have higher win rates, with "
       ++ cat_first ++ " positions having a " ++ Py.format_pct 2 wr_first
       ++ " win rate compared to " ++ Py.format_pct 2 wr_last ++ " for "
       ++ cat_last ++ " positions.")%string in
  let avg_pnl := map (size_mean_pnl analysis) size_categories in
  pnl_last <~ Py.last avg_pnl ;;
  pnl_first <~ Py.first avg_pnl ;;
  let insights :=
    insights ++
    compare_ends pnl_last pnl_first
      ("Larger positions tend to be more profitable, with an average PNL of "
       ++ Py.format_f 2 pnl_last ++ " for " ++ cat_last
       ++ " positions compared to " ++ Py.format_f 2 pnl_first ++ " for "
       ++ cat_first ++ " positions.")%string
      ("Smaller positions tend to be more profitable, with an average PNL of "
       ++ Py.format_f 2 pnl_first ++ " for " ++ cat_first
       ++ " positions compared to " ++ Py.format_f 2 pnl_last ++ " for "
       ++ cat_last ++ " positions.")%string in
  Done insights.

(** The line, if any, that [get_pair_direction_insights] writes for one
    pair. *)
Definition pair_direction_insight (pair : string)
    (directions : Py.dict DirectionBias.t) : list string :=
  match Py.get directions "long", Py.get directions "short" with
  | Some long, Some short =>
      let long_win_rate := DirectionBias.win_rate long in
      let short_win_rate := DirectionBias.win_rate short in
      if X.gtb (X.abs (X.sub long_win_rate short_win_rate)) (Fin (1 # 10)) then
        if X.gtb long_win_rate short_win_rate then
          [("For " ++ pair
            ++ ", long trades have a significantly higher win rate ("
            ++ Py.format_pct 2 long_win_rate ++ ") compared to short trades ("
            ++ Py.format_pct 2 short_win_rate ++ ").")%string]
        else
          [("For " ++ pair
            ++ ", short trades have a significantly higher win rate ("
            ++ Py.format_pct 2 short_win_rate ++ ") compared to long trades ("
            ++ Py.format_pct 2 long_win_rate ++ ").")%string]
      else []
  | Some long, None =>
      [("For " ++ pair ++ ", only long trades were found with a win rate of "
        ++ Py.format_pct 2 (DirectionBias.win_rate long) ++ ".")%string]
  | None, Some short =>
      [("For " ++ pair ++ ", only short trades were found with a win rate of "
        ++ Py.format_pct 2 (DirectionBias.win_rate short) ++ ".")%string]
  | None, None => []
  end.

Definition get_pair_direction_insights (trades_df : DataFrame) : list string :=
  let analysis := analyze_pair_direction_bias trades_df in
  let insights :=
    flat_map (fun pd : string * Py.dict DirectionBias.t =>
                pair_direction_insight (fst pd) (snd pd))
             analysis in
  match insights with
  | [] => ["No significant directional bias was found for any currency pair."]
  | _ => insights
  end.

Definition rr_mean_pnl (analysis : Py.dict RiskReward.t) (x : string) : xnum :=
  match Py.get analysis x with
  | Some v => RiskReward.avg_netPNL v
  | None => NaN
  end.

Definition get_risk_reward_insights (trades_df : DataFrame)
  : outcome (list string) :=
  analysis <~ lift (analyze_risk_reward_patterns trades_df) ;;
  let insights := [] in
  rr_categories <~ lift (sorted_by_left_edge (Py.keys analysis)) ;;
  let win_rates := map (rr_win_rate analysis) rr_categories in
  wr_last <~ Py.last win_rates ;;
  wr_first <~ Py.first win_rates ;;
  cat_last <~ Py.last rr_categories ;;
  cat_first <~ Py.first rr_categories ;;
  let insights :=
    insights ++
    compare_ends wr_last wr_first
      ("Trades with higher risk-reward ratios tend to have better win rates, with "
       ++ cat_last ++ " R:R trades having a " ++ Py.format_pct 2 wr_last
       ++ " win rate compared to " ++ Py.format_pct 2 wr_first ++ " for "
       ++ cat_first ++ " R:R trades.")%string
      ("Trades with lower risk-reward ratios tend to have better win rates, with "
       ++ cat_first ++ " R:R trades having a " ++ Py.format_pct 2 wr_first
       ++ " win rate compared to " ++ Py.format_pct 2 wr_last ++ " for "
       ++ cat_last ++ " R:R trades.")%string in
  let avg_pnl := map (rr_mean_pnl analysis) rr_categories in
  pnl_last <~ Py.last avg_pnl ;;
  pnl_first <~ Py.first avg_pnl ;;
  let insights :=
    insights ++
    compare_ends pnl_last pnl_first
      ("Trades with higher risk-reward ratios tend to be more profitable, with an average PNL of "
       ++ Py.format_f 2 pnl_last ++ " for " ++ cat_last
       ++ " R:R trades compared to " ++ Py.format_f 2 pnl_first ++ " for "
       ++ cat_first ++ " R:R trades.")%string
      ("Trades with lower risk-reward ratios tend to be more profitable, with an average PNL of "
       ++ Py.format_f 2 pnl_first ++ " for " ++ cat_first
       ++ " R:R trades compared to " ++ Py.format_f 2 pnl_last ++ " for "
       ++ cat_last ++ " R:R trades.")%string in
  Done insights.

(** The dictionary of [get_all_insights], its three entries in order. *)
Record AllInsights : Type := {
  position_size_insights : list string;
  pair_direction_insights : list string;
  risk_reward_insights : list string
}.

Definition get_all_insights (trades_df : DataFrame) : outcome AllInsights :=
  position <~ get_position_size_insights trades_df ;;
  let direction := get_pair_direction_insights trades_df in
  risk_reward <~ get_risk_reward_insights trades_df ;;
  Done {| position_size_insights := position;
          pair_direction_insights := direction;
          risk_reward_insights := risk_reward |}.

End PatternAnalyzer.

(* ===================================================================== *)
(** * app/services/behavior_analyzer.py *)
(* ===================================================================== *)

Module RevengeTrading.
Record t : Type := {
  quick_trades_after_losses : nat;
  quick_trades_after_losses_success_rate : xnum;
  avg_pnl_after_quick_trade : xnum
}.
End RevengeTrading.

Module Overtrading.
Record t : Type := {
  avg_trades_per_day : xnum;
  max_trades_per_day : xnum;
  days_with_excessive_trading : nat;
  trading_frequency_distribution : list (Z * Z)
}.
End Overtrading.

Module RiskConsistency.
Record t : Type := {
  position_size_consistency : xreal;
  stop_loss_consistency : xreal;
  risk_per_trade_consistency : xreal
}.
End RiskConsistency.

Inductive risk_level : Type := Low | Moderate | High.

Definition risk_level_str (l : risk_level) : string :=
  match l with Low => "Low" | Moderate => "Moderate" | High => "High" end.

Module BehaviorAnalyzer.

Definition init (trades : list Trade) : result DataFrame :=
  Helpers.calculate_trade_metrics trades.

(** [df['date'].shift(-1) - df['date']]; the last entry is [NaT]. *)
Definition time_to_next_trade (trades_df : DataFrame) : list (option Z) :=
  map (fun nd : option Z * Z =>
         match fst nd with
         | Some next => Some (next - snd nd)%Z
         | None => None
         end)
      (combine (Pd.shift_m1 (map (fun r : Row => date r) trades_df))
               (map (fun r : Row => date r) trades_df)).

(** The boolean mask of [detect_revenge_trading]; a comparison with
    [NaT] is False. *)
Definition quick_after_loss (row : Row * option Z) : bool :=
  String.eqb (status (fst row)) "loss"
  && match snd row with
     | Some gap => (gap <? Timedelta_minutes 30)%Z
     | None => false
     end.

(** The gaps are stored in a new column [time_to_next_trade], read by the
    mask alone. *)
Definition detect_revenge_trading (trades_df : DataFrame) : RevengeTrading.t :=
  let quick_trades_after_loss :=
    map fst (filter quick_after_loss
                    (combine trades_df (time_to_next_trade trades_df))) in
  {| RevengeTrading.quick_trades_after_losses :=
       List.length quick_trades_after_loss;
     RevengeTrading.quick_trades_after_losses_success_rate :=
       Pd.mean_bool
         (map (fun s : option string =>
                 match s with
                 | Some s => String.eqb s "win"
                 | None => false
                 end)
              (Pd.shift_m1 (map (fun r : Row => status r)
                                quick_trades_after_loss)));
     RevengeTrading.avg_pnl_after_quick_trade :=
       Pd.mean
         (map (fun v : option Q =>
                 match v with Some q => Fin q | None => NaN end)
              (Pd.shift_m1 (map (fun r : Row => netPNL r)
                                quick_trades_after_loss))) |}.

(** [values.groupby(keys).sum()] for integer keys: one sum per key
    present, keys ascending. *)
Definition groupby_sum (keys values : list Z) : list Z :=
  map (fun g : Z * list (Z * Z) =>
         fold_right Z.add 0%Z (map snd (snd g)))
      (Pd.groupby_keys Z.eqb Z.ltb fst (combine keys values)).

Definition calculate_loss_recovery_rate (trades_df : DataFrame) : xnum :=
  let loss_streaks :=
    groupby_sum
      (Pd.cumsum (map (fun r : Row =>
                         if String.eqb (status r) "win" then 1%Z else 0%Z)
                      trades_df))
      (map (fun r : Row =>
              if negb (String.eqb (status r) "win") then 1%Z else 0%Z)
           trades_df) in
  Pd.mean (map X.of_Z (filter (fun n => (0 <? n)%Z) loss_streaks)).

(** [(returns.mean() / returns.std()) * np.sqrt(252)], computed without
    rounding; [F64.calculate_sharpe_ratio] is its float64 evaluation. *)
Definition calculate_sharpe_ratio (trades_df : DataFrame) : xreal :=
  let returns := column accountChange trades_df in
  XR.mul (XR.div (XR.of_xnum (Pd.mean returns)) (Pd.std returns))
         (Fin (sqrt 252)).

(** [(balance.cummax() - balance).max() / balance.iloc[0]] *)
Definition max_drawdown (trades_df : DataFrame) : xnum :=
  let balance := column accountBalance trades_df in
  X.div (Pd.max (map (fun cb => X.sub (fst cb) (snd cb))
                     (combine (Pd.cummax balance) balance)))
        (hd NaN balance).

Definition determine_risk_level (trades_df : DataFrame) : risk_level :=
  let sharpe_ratio := calculate_sharpe_ratio trades_df in
  let max_drawdown := max_drawdown trades_df in
  if XR.gtb sharpe_ratio (15 / 10)%R && X.ltb max_drawdown (Fin (1 # 10))
  then Low
  else if XR.gtb sharpe_ratio (5 / 10)%R && X.ltb max_drawdown (Fin (2 # 10))
  then Moderate
  else High.

(** [date.dt.date]: the calendar day of a timestamp, as days since the
    epoch. *)
Definition calendar_day (t : Z) : Z := (t / (86400 * 1000000000))%Z.

Definition trades_per_day (trades_df : DataFrame) : list Z :=
  Pd.groupby_size (map (fun r : Row => calendar_day (date r)) trades_df).

(** The mean is the exact quotient here; float64 rounds it. *)
Definition detect_overtrading (trades_df : DataFrame) : Overtrading.t :=
  let trades_per_day := trades_per_day trades_df in
  let counts := map X.of_Z trades_per_day in
  let threshold := XR.add (XR.of_xnum (Pd.mean counts)) (Pd.nanstd counts) in
  {| Overtrading.avg_trades_per_day := Pd.mean counts;
     Overtrading.max_trades_per_day := Pd.max counts;
     Overtrading.days_with_excessive_trading :=
       List.length
         (filter (fun c => XR.gt (XR.of_xnum c) threshold) counts);
     Overtrading.trading_frequency_distribution :=
       Pd.value_counts trades_per_day |}.

Definition analyze_risk_management_consistency (trades_df : DataFrame)
  : RiskConsistency.t :=
  {| RiskConsistency.position_size_consistency :=
       XR.div (Pd.nanstd (column size trades_df))
              (XR.of_xnum (Pd.mean (column size trades_df)));
     RiskConsistency.stop_loss_consistency :=
       Pd.nanstd
         (map (fun r : Row =>
                 X.div (X.abs (X.sub (Fin (stopLoss r)) (Fin (entryPrice r))))
                       (Fin (entryPrice r)))
              trades_df);
     RiskConsistency.risk_per_trade_consistency :=
       Pd.nanstd
         (map (fun r : Row =>
                 X.div (X.abs (Fin (netPNL r))) (Fin (accountBalance r)))
              trades_df) |}.

Definition get_behavior_insights (trades_df : DataFrame) : list string :=
  let insights := [] in
  (* Overtrading insights *)
  let overtrading := detect_overtrading trades_df in
  let avg_trades := Overtrading.avg_trades_per_day overtrading in
  let max_trades := Overtrading.max_trades_per_day overtrading in
  let excessive_days := Overtrading.days_with_excessive_trading overtrading in
  let insights :=
    insights ++
    [("On average, you make " ++ Py.format_f 2 avg_trades
      ++ " trades per day, with a maximum of " ++ Py.str_count max_trades
      ++ " trades in a single day.")%string] in
  let insights :=
    if (0 <? excessive_days)%nat then
      insights ++
      [("There were " ++ Py.str_int (Z.of_nat excessive_days)
        ++ " days with excessive trading, which might indicate overtrading tendencies.")%string]
    else insights in
  (* Revenge trading insights *)
  let revenge := detect_revenge_trading trades_df in
  let quick_losses := RevengeTrading.quick_trades_after_losses revenge in
  let success_rate :=
    RevengeTrading.quick_trades_after_losses_success_rate revenge in
  let avg_pnl := RevengeTrading.avg_pnl_after_quick_trade revenge in
  let insights :=
    if (0 <? quick_losses)%nat then
      insights ++
      [("You made " ++ Py.str_int (Z.of_nat quick_losses)
        ++ " quick trades after losses, which could be signs of revenge trading.")%string;
       ("The success rate of these quick trades is "
        ++ Py.format_pct 2 success_rate ++ ", with an average PNL of "
        ++ Py.format_f 2 avg_pnl ++ ".")%string]
    else insights in
  (* Risk management consistency insights *)
  let risk := analyze_risk_management_consistency trades_df in
  let position_consistency := RiskConsistency.position_size_consistency risk in
  let stop_loss_consistency := RiskConsistency.stop_loss_consistency risk in
  let risk_per_trade := RiskConsistency.risk_per_trade_consistency risk in
  let insights :=
    if XR.gtb position_consistency (5 / 10)%R then
      insights ++
      ["Your position sizes vary considerably, which might indicate inconsistent risk management."]
    else
      insights ++
      ["Your position sizes are relatively consistent, showing good risk management practices."] in
  let insights :=
    if XR.ltb stop_loss_consistency (1 / 100)%R then
      insights ++
      ["Your stop loss placements are very consistent, which is a positive risk management practice."]
    else if XR.gtb stop_loss_consistency (5 / 100)%R then
      insights ++
      ["Your stop loss placements vary significantly, which could lead to inconsistent risk exposure."]
    else insights in
  let insights :=
    if XR.ltb risk_per_trade (1 / 100)%R then
      insights ++
      ["Your risk per trade is very consistent, indicating disciplined risk management."]
    else if XR.gtb risk_per_trade (5 / 100)%R then
      insights ++
      ["Your risk per trade varies considerably, which might lead to inconsistent overall risk exposure."]
    else insights in
  insights.

(** [risk_level.lower()] *)
Definition risk_level_lower (l : risk_level) : string :=
  match l with Low => "low" | Moderate => "moderate" | High => "high" end.

Definition get_key_insights (trades_df : DataFrame) : string :=
  let total_trades := List.length trades_df in
  let win_rate := win_mean trades_df in
  let total_pnl := Pd.sum (column netPNL trades_df) in
  let sharpe_ratio := calculate_sharpe_ratio trades_df in
  let risk_level := determine_risk_level trades_df in
  "Over " ++ Py.str_int (Z.of_nat total_trades)
  ++ " trades, you achieved a " ++ Py.format_pct 2 win_rate
  ++ " win rate with a total PNL of " ++ Py.format_f 2 total_pnl
  ++ ". Your trading strategy shows a Sharpe ratio of "
  ++ XR.format_f 2 sharpe_ratio ++ ", indicating a "
  ++ risk_level_lower risk_level ++ " risk level.".

End BehaviorAnalyzer.

(* ===================================================================== *)
(** * float64 *)
(* ===================================================================== *)

(** The reductions behind [calculate_sharpe_ratio] on binary64 floats, each
    operation rounded as IEEE 754 rounds it, for the properties that turn
    on rounding.  [sum], [mean] and [std] follow pandas' own [nanops]
    (not the optional bottleneck routines) and numpy's summation. *)
Module F64.

Import PrimFloat.PrimFloatNotations.

Definition float : Type := PrimFloat.float.

(** The float64 of an integer: exact below 2^53. *)
Fixpoint of_pos (p : positive) : float :=
  match p with
  | xH => PrimFloat.one
  | xO p' => (PrimFloat.two * of_pos p')%float
  | xI p' => (PrimFloat.two * of_pos p' + PrimFloat.one)%float
  end.

Definition of_Z (z : Z) : float :=
  match z with
  | Z0 => PrimFloat.zero
  | Zpos p => of_pos p
  | Zneg p => (- of_pos p)%float
  end.

Definition of_nat (n : nat) : float := of_Z (Z.of_nat n).

(** The float64 a JSON number is parsed to: the nearest to the decimal, got
    here by one correctly rounded division, which is that nearest float64
    when numerator and denominator are below 2^53 (decimals of up to 15
    digits). *)
Definition of_Q (q : Q) : float :=
  (of_Z (Qnum q) / of_pos (Qden q))%float.

(** ** [np.add.reduce] on a contiguous float64 array *)

Definition add_all (acc : float) (a : list float) : float :=
  fold_left PrimFloat.add a acc.

(** The eight running sums of a block of 128 values at most:
    [r[j] += a[i + j]] while eight values are left. *)
Fixpoint add_blocks (fuel : nat) (r a : list float)
  : list float * list float :=
  match fuel with
  | O => (r, a)
  | S fuel' =>
      if (8 <=? List.length a)%nat then
        add_blocks fuel'
                   (map (fun xy : float * float => (fst xy + snd xy)%float)
                        (combine r (firstn 8 a)))
                   (skipn 8 a)
      else (r, a)
  end.

(** numpy's pairwise summation: a plain loop below 8 values, eight running
    sums up to 128 values, two halves above. *)
Fixpoint pairwise_sum (fuel : nat) (a : list float) : float :=
  let n := List.length a in
  if (n <? 8)%nat then add_all PrimFloat.zero a
  else if (n <=? 128)%nat then
    let '(r, rest) := add_blocks n (firstn 8 a) (skipn 8 a) in
    let r' i := nth i r PrimFloat.zero in
    let res := (((r' 0%nat + r' 1%nat) + (r' 2%nat + r' 3%nat))
                + ((r' 4%nat + r' 5%nat) + (r' 6%nat + r' 7%nat)))%float in
    add_all res rest
  else
    match fuel with
    | O => PrimFloat.nan
    | S fuel' =>
        let n2 := (n / 2)%nat in
        let n2 := (n2 - n2 mod 8)%nat in
        (pairwise_sum fuel' (firstn n2 a)
         + pairwise_sum fuel' (skipn n2 a))%float
    end.

Definition sum (a : list float) : float :=
  (PrimFloat.zero + pairwise_sum (List.length a) a)%float.

(** ** [Series.mean] and [Series.std] of a float64 Series ([nanops]) *)

Definition notna (x : float) : bool := negb (PrimFloat.is_nan x).

(** Missing values count as 0 in the sums and are left out of the count. *)
Definition fill0 (values : list float) : list float :=
  map (fun x => if notna x then x else PrimFloat.zero) values.

Definition count (values : list float) : nat :=
  List.length (filter notna values).

Definition mean (values : list float) : float :=
  match count values with
  | O => PrimFloat.nan
  | n => (sum (fill0 values) / of_nat n)%float
  end.

(** [nanvar] with [ddof=1], then [np.sqrt]. *)
Definition var (values : list float) : float :=
  let n := count values in
  if (n <=? 1)%nat then PrimFloat.nan
  else
    let avg := (sum (fill0 values) / of_nat n)%float in
    let sqr :=
      map (fun x => if notna x
                    then ((avg - x) * (avg - x))%float
                    else PrimFloat.zero) values in
    (sum sqr / of_nat (n - 1))%float.

Definition std (values : list float) : float := PrimFloat.sqrt (var values).

(** ** [BehaviorAnalyzer.calculate_sharpe_ratio] in float64 *)

Definition calculate_sharpe_ratio (trades_df : DataFrame) : float :=
  let returns := map (fun r : Row => of_Q (accountChange r)) trades_df in
  ((mean returns / std returns) * PrimFloat.sqrt (of_Z 252))%float.

End F64.

(* ===================================================================== *)
(** * Sample data *)
(* ===================================================================== *)

(** Days since 1970-01-01 of a civil date, and the timestamp of a UTC time. *)
Definition days_from_civil (y m d : Z) : Z :=
  let y := if (m <=? 2)%Z then (y - 1)%Z else y in
  let era := (y / 400)%Z in
  let yoe := (y - era * 400)%Z in
  let mp := ((m + 9) mod 12)%Z in
  let doy := ((153 * mp + 2) / 5 + d - 1)%Z in
  let doe := (yoe * 365 + yoe / 4 - yoe / 100 + doy)%Z in
  (era * 146097 + doe - 719468)%Z.

Definition timestamp (y m d hh mm : Z) : Z :=
  ((days_from_civil y m d * 1440 + hh * 60 + mm) * 60 * 1000000000)%Z.

(** [tests/test_data/sample_trades.json] *)
Definition sample_trades : list Trade :=
  [ {| accountId := 1; pair := "EUR/AUD"; direction := "short";
       status := "loss"; strategy := Some "none";
       date := timestamp 2024 1 30 14 15;
       accountBalance := 13545 # 10; entryPrice := 16234 # 10000;
       size := 15 # 100; stopLoss := 1627 # 1000; target := 1618 # 1000;
       exitPrice := 16265 # 10000; netPNL := - (465 # 10);
       accountChange := - (343 # 100) |};
    {| accountId := 1; pair := "AUD/USD"; direction := "short";
       status := "loss"; strategy := Some "none";
       date := timestamp 2023 12 30 13 30;
       accountBalance := 1076; entryPrice := 6789 # 10000;
       size := 3 # 10; stopLoss := 681 # 1000; target := 675 # 1000;
       exitPrice := 6805 # 10000; netPNL := - 48;
       accountChange := - (446 # 100) |};
    {| accountId := 1; pair := "USD/JPY"; direction := "long";
       status := "win"; strategy := Some "none";
       date := timestamp 2023 12 27 8 15;
       accountBalance := 1001; entryPrice := 13145 # 100;
       size := 15 # 100; stopLoss := 1312 # 10; target := 132;
       exitPrice := 13195 # 100; netPNL := 75;
       accountChange := 749 # 100 |} ].

(** A trade that risks 1 to gain [rr]: entry 100, stop 99, target 100 + rr. *)
Definition trade_at (t : Z) (st : string) (sz rr pnl : Q) : Trade :=
  {| accountId := 1; pair := "EUR/USD"; direction := "long";
     status := st; strategy := None; date := t;
     accountBalance := 1000; entryPrice := 100; size := sz;
     stopLoss := 99; target := 100 + rr; exitPrice := 100;
     netPNL := pnl; accountChange := pnl / 10 |}.

Definition T0 : Z := timestamp 2024 1 2 9 0.

(** A trade whose stop loss and target both sit on the entry price. *)
Definition flat_trade : Trade :=
  {| accountId := 1; pair := "EUR/USD"; direction := "long";
     status := "loss"; strategy := None; date := T0;
     accountBalance := 1000; entryPrice := 100; size := 1;
     stopLoss := 100; target := 100; exitPrice := 100;
     netPNL := 0; accountChange := 0 |}.

(** A loss at [T0], a winning trade ten minutes later, a third trade two
    hours after the first. *)
Definition revenge_trades : list Trade :=
  [ trade_at T0 "loss" 1 2 (- 10);
    trade_at (T0 + Timedelta_minutes 10) "win" 1 2 50;
    trade_at (T0 + Timedelta_minutes 120) "loss" 1 2 (- 5) ].


(** One losing trade, one winning trade. *)
Definition one_loss : Trade := trade_at T0 "loss" 1 2 (- 10).
Definition one_win : Trade := trade_at T0 "win" 1 2 10.

(** Four trades with distinct sizes and reward/risk ratios 1, 2, 2, 3. *)
Definition four_trades : list Trade :=
  [ trade_at T0 "win" 1 1 10;
    trade_at (T0 + Timedelta_minutes 60) "loss" 2 2 (- 10);
    trade_at (T0 + Timedelta_minutes 120) "win" 3 2 10;
    trade_at (T0 + Timedelta_minutes 180) "loss" 4 3 (- 10) ].

(** Four trades of the same size. *)
Definition same_size_trades : list Trade :=
  [ trade_at T0 "win" 1 1 10;
    trade_at (T0 + Timedelta_minutes 60) "loss" 1 2 (- 10);
    trade_at (T0 + Timedelta_minutes 120) "win" 1 4 10;
    trade_at (T0 + Timedelta_minutes 180) "loss" 1 3 (- 10) ].

(** The two losing trades of the sample file. *)
Definition losing_trades : list Trade := firstn 2 sample_trades.

(** A trade whose stop loss sits on the entry price. *)
Definition zero_risk_trade : Trade :=
  {| accountId := 1; pair := "EUR/USD"; direction := "long";
     status := "win"; strategy := None; date := T0;
     accountBalance := 1000; entryPrice := 100; size := 1;
     stopLoss := 100; target := 101; exitPrice := 101;
     netPNL := 10; accountChange := 1 |}.

(* ===================================================================== *)
(** * Reference definitions following the specification *)
(* ===================================================================== *)

(** What the specification asks [detect_revenge_trading] to report beside
    the count: statistics of the trade that immediately follows each
    flagged trade in the full date-sorted table. *)
Module RevengeSpec.

Definition flagged (trades_df : DataFrame) : list bool :=
  map BehaviorAnalyzer.quick_after_loss
      (combine trades_df (BehaviorAnalyzer.time_to_next_trade trades_df)).

Definition next_after_flagged (trades_df : DataFrame) : DataFrame :=
  flat_map (fun fr : bool * option Row =>
              match fr with
              | (true, Some next) => [next]
              | _ => []
              end)
           (combine (flagged trades_df) (Pd.shift_m1 trades_df)).

Definition success_rate_of_next (trades_df : DataFrame) : xnum :=
  win_mean (next_after_flagged trades_df).

Definition avg_pnl_of_next (trades_df : DataFrame) : xnum :=
  Pd.mean (column netPNL (next_after_flagged trades_df)).

End RevengeSpec.

(** The two comparisons of the risk rule, read on extended values: NaN is
    neither above nor below anything. *)
Definition sharpe_above (sharpe : xreal) (c : R) : Prop :=
  match sharpe with
  | Fin a => (c < a)%R
  | PInf => True
  | NInf | NaN => False
  end.

Definition drawdown_below (drawdown : xnum) (c : Q) : Prop :=
  match drawdown with
  | Fin q => q < c
  | NInf => True
  | PInf | NaN => False
  end.


(** Date order of two rows. *)
Definition date_le (a b : Row) : Prop := (date a <= date b)%Z.

(** Every date of the input is one [pd.to_datetime] can hold. *)
Definition dates_in_bounds (trades : list Trade) : Prop :=
  forall t : Trade,
    In t trades -> (Pd.Timestamp_min <= date t <= Pd.Timestamp_max)%Z.

(* ===================================================================== *)
(** * Auxiliary definitions of the statements *)
(* ===================================================================== *)

Definition Zsum (l : list Z) : Z := fold_right Z.add 0%Z l.

(** Sums of rationals, and a boolean read as 0/1. *)
Definition Qsum (l : list Q) : Q := fold_right Qplus 0 l.

Definition Qof_bool (b : bool) : Q := if b then 1 else 0.

Definition is_win (r : Row) : bool := String.eqb (status r) "win".

(** A squared deviation from the mean. *)
Definition sq_dev (avg q : Q) : Q := (avg + - q) * (avg + - q).

(** The Sharpe ratio of a table with at least two rows, in closed form:
    [m] the mean and [v] the variance of accountChange. *)
Definition sharpe_of (m v : Q) : xreal :=
  XR.mul (XR.div (Fin (Q2R m)) (Fin (sqrt (Q2R v)))) (Fin (sqrt 252)).




(** A win rate that is a fraction between 0 and 1. *)
Definition unit_win_rate (x : xnum) : Prop :=
  exists q, x = Fin q /\ 0 <= q <= 1.

(** The invariant of the loop that fills the nested dictionary of
    [analyze_pair_direction_bias]. *)
Definition direction_rates_ok (d : Py.dict (Py.dict DirectionBias.t)) : Prop :=
  forall pair directions direction m,
    Py.get d pair = Some directions ->
    Py.get directions direction = Some m ->
    unit_win_rate (DirectionBias.win_rate m).

(* ===================================================================== *)
(** * app/routes: convert_to_native *)
(* ===================================================================== *)

Module Routes.

(** A numpy scalar, by the kind [isinstance] sees: [np.integer],
    [np.floating], [np.bool_], or any other [np.generic] ([np.str_],
    [np.complex128], [np.datetime64], ...), which is carried as its
    [repr]. *)
Inductive np_scalar : Type :=
| np_int (n : Z)
| np_float (x : xnum)
| np_bool (b : bool)
| np_other (repr : string).

(** An [ndarray] of numpy scalars, of any dimension: a scalar (dimension
    0) or a sequence of sub-arrays.  Arrays of dtype [object] are left
    out. *)
#[warnings="-register-all"] Inductive ndarray : Type :=
| nd_scalar (s : np_scalar)
| nd_array (rows : list ndarray).

(** The values the analyses hand to [jsonify]: numpy scalars and arrays,
    Python scalars, any other Python object (carried as its [repr]), and
    dicts, lists and tuples of them. *)
#[warnings="-register-all"] Inductive pyobj : Type :=
| np_generic (s : np_scalar)
| np_ndarray (a : ndarray)
| py_int (n : Z)
| py_float (x : xnum)
| py_bool (b : bool)
| py_str (s : string)
| py_none
| py_other (repr : string)
| py_dict (items : list (pyobj * pyobj))
| py_list (items : list pyobj)
| py_tuple (items : list pyobj).

(** [s.item()]: the Python scalar of a numpy scalar. *)
Definition item (s : np_scalar) : pyobj :=
  match s with
  | np_int n => py_int n
  | np_float x => py_float x
  | np_bool b => py_bool b
  | np_other repr => py_other repr
  end.

(** [ndarray.tolist()]: nested lists of Python scalars. *)
Fixpoint tolist (a : ndarray) : pyobj :=
  match a with
  | nd_scalar s => item s
  | nd_array rows => py_list (map tolist rows)
  end.

Fixpoint convert_to_native (obj : pyobj) : pyobj :=
  match obj with
  | np_generic (np_int n) => py_int n
  | np_generic (np_float x) => py_float x
  | np_ndarray a => tolist a
  | py_dict items =>
      py_dict (map (fun kv : pyobj * pyobj =>
                      let '(key, value) := kv in
                      (key, convert_to_native value)) items)
  | py_list items => py_list (map convert_to_native items)
  | _ => obj
  end.

(** A numpy scalar or array somewhere inside, dict keys and tuple items
    included. *)
Fixpoint has_numpy (obj : pyobj) : bool :=
  match obj with
  | np_generic _ | np_ndarray _ => true
  | py_dict items =>
      existsb (fun kv : pyobj * pyobj =>
                 let '(key, value) := kv in has_numpy key || has_numpy value)
              items
  | py_list items | py_tuple items => existsb has_numpy items
  | _ => false
  end.

(** What [convert_to_native] passes over: a numpy scalar that is neither
    an [np.integer] nor an [np.floating], and any numpy value in a dict
    key or inside a tuple. *)
Fixpoint passed_over (obj : pyobj) : bool :=
  match obj with
  | np_generic (np_bool _) | np_generic (np_other _) => true
  | py_dict items =>
      existsb (fun kv : pyobj * pyobj =>
                 let '(key, value) := kv in has_numpy key || passed_over value)
              items
  | py_list items => existsb passed_over items
  | py_tuple items => existsb has_numpy items
  | _ => false
  end.

End Routes.

(** [analysis[pair][direction]], when both keys are present. *)
Definition get2 {V} (d : Py.dict (Py.dict V)) (pair direction : string)
  : option V :=
  match Py.get d pair with
  | Some inner => Py.get inner direction
  | None => None
  end.

(** The aggregated row of one pair/direction group. *)
Definition direction_row (rows : DataFrame) : DirectionBias.t :=
  {| DirectionBias.win_rate := Pd.round 4 (win_mean rows);
     DirectionBias.avg_netPNL := Pd.round 4 (Pd.mean (column netPNL rows));
     DirectionBias.avg_accountChange :=
       Pd.round 4 (Pd.mean (column accountChange rows)) |}.

(** The gaps between the running maximum and the balance. *)
Definition drawdown_gaps (m : xnum) (bs : list Q) : list xnum :=
  map (fun cb : xnum * xnum => X.sub (fst cb) (snd cb))
      (combine (Pd.cummax_from m (map Fin bs)) (map Fin bs)).

(** A finite value equal to [c]. *)
Definition finite_eq (c : Q) (x : xnum) : Prop := exists q, x = Fin q /\ q == c.

(** A finite value that is not negative, and a finite zero. *)
Definition finite_nonneg (x : xnum) : Prop := exists q, x = Fin q /\ 0 <= q.

Definition finite_zero (x : xnum) : Prop := exists q, x = Fin q /\ q == 0.

(** Rational arithmetic stays folded during simplification. *)
#[local] Arguments Qplus : simpl never.
#[local] Arguments Qminus : simpl never.
#[local] Arguments Qmult : simpl never.
#[local] Arguments Qdiv : simpl never.
#[local] Arguments Qopp : simpl never.
#[local] Arguments Qinv : simpl never.
#[local] Arguments Qabs : simpl never.
#[local] Arguments Qcompare : simpl never.
#[local] Arguments Qeq_bool : simpl never.
#[local] Arguments Qle_bool : simpl never.
#[local] Arguments inject_Z : simpl never.
#[local] Arguments Q2R : simpl never.

(* ===================================================================== *)
(** * Metrics deriver: row count and date order *)
(* ===================================================================== *)

Section SortValues.

Import Helpers.

Lemma insert_by_date_perm (r : Row) (l : DataFrame) :
  Permutation (r :: l) (insert_by_date r l).
Proof.
  induction l as [|x l IH]; cbn.
  - apply Permutation_refl.
  - destruct (date r <=? date x)%Z.
    + apply Permutation_refl.
    + eapply perm_trans; [apply perm_swap|].
      now apply perm_skip.
Qed.

Lemma sort_values_date_perm (l : DataFrame) :
  Permutation l (sort_values_date l).
Proof.
  induction l as [|r l IH]; cbn.
  - constructor.
  - eapply perm_trans; [apply perm_skip, IH|apply insert_by_date_perm].
Qed.

Lemma insert_by_date_sorted (r : Row) (l : DataFrame) :
  StronglySorted date_le l -> StronglySorted date_le (insert_by_date r l).
Proof.
  induction 1 as [|x l Hl IH Hx]; cbn.
  - repeat constructor.
  - destruct (Z.leb_spec (date r) (date x)) as [Hle|Hgt].
    + constructor; [now constructor|].
      constructor; [exact Hle|].
      eapply Forall_impl; [|exact Hx].
      intros y Hy. unfold date_le in *. lia.
    + constructor; [exact IH|].
      eapply Permutation_Forall; [apply insert_by_date_perm|].
      constructor; [unfold date_le; lia|exact Hx].
Qed.

Lemma sort_values_date_sorted (l : DataFrame) :
  StronglySorted date_le (sort_values_date l).
Proof.
  induction l as [|r l IH]; cbn.
  - constructor.
  - now apply insert_by_date_sorted.
Qed.

End SortValues.

Lemma Ok_inj {A} (a b : A) : Ok a = Ok b -> a = b.
Proof. now intros [= ->]. Qed.

Lemma to_datetime_ok (trades : list Trade) :
  dates_in_bounds trades ->
  Pd.to_datetime (map (fun t : Trade => date t) trades)
  = Ok (map (fun t : Trade => date t) trades).
Proof.
  intros Hb. unfold Pd.to_datetime.
  assert (H : forallb Pd.in_bounds (map (fun t : Trade => date t) trades)
              = true).
  { apply forallb_forall. intros d Hd. apply in_map_iff in Hd.
    destruct Hd as (t & <- & Ht). specialize (Hb t Ht).
    unfold Pd.in_bounds. apply andb_true_iff.
    split; apply Z.leb_le; lia. }
  now rewrite H.
Qed.

Lemma calculate_trade_metrics_ok (trades : list Trade) :
  trades <> [] -> dates_in_bounds trades ->
  Helpers.calculate_trade_metrics trades
  = Ok (Helpers.sort_values_date (map Helpers.derive trades)).
Proof.
  intros Hne Hb. unfold Helpers.calculate_trade_metrics.
  destruct trades as [|t ts] eqn:E; [congruence|]. rewrite <- E in *.
  now rewrite (to_datetime_ok trades Hb).
Qed.

(** A table that was returned is the sorted derived rows of a non-empty
    input. *)
Lemma calculate_trade_metrics_inv (trades : list Trade) (df : DataFrame) :
  Helpers.calculate_trade_metrics trades = Ok df ->
  trades <> []
  /\ df = Helpers.sort_values_date (map Helpers.derive trades).
Proof.
  unfold Helpers.calculate_trade_metrics.
  destruct trades as [|t ts] eqn:E; [discriminate|]. rewrite <- E.
  destruct (Pd.to_datetime _) as [ds|e]; [|discriminate].
  cbn [bind]. intros H. apply Ok_inj in H.
  split; [rewrite E; discriminate|now symmetry].
Qed.

(** C1.  For every non-empty sequence of trade records whose dates
    [pd.to_datetime] can hold, [calculate_trade_metrics] returns a table
    with one row per record (the derived rows, reordered: none dropped,
    none added) that is sorted non-decreasing by date.  (The empty
    sequence makes [df['date']] raise, a date outside the nanosecond range
    makes [pd.to_datetime] raise.) *)
Theorem calculate_trade_metrics_rows_sorted (trades : list Trade) :
  trades <> [] -> dates_in_bounds trades ->
  exists df,
    Helpers.calculate_trade_metrics trades = Ok df
    /\ List.length df = List.length trades
    /\ Permutation (map Helpers.derive trades) df
    /\ StronglySorted date_le df.
Proof.
  intros Hne Hb.
  exists (Helpers.sort_values_date (map Helpers.derive trades)).
  split; [now apply calculate_trade_metrics_ok|].
  pose proof (sort_values_date_perm (map Helpers.derive trades)) as HP.
  split; [|split].
  - rewrite <- (Permutation_length HP). apply length_map.
  - exact HP.
  - apply sort_values_date_sorted.
Qed.

Lemma calculate_trade_metrics_rows_sorted_witness :
  exists df,
    Helpers.calculate_trade_metrics sample_trades = Ok df
    /\ List.length df = List.length sample_trades
    /\ Permutation (map Helpers.derive sample_trades) df
    /\ StronglySorted date_le df.
Proof.
  apply (calculate_trade_metrics_rows_sorted sample_trades).
  - unfold sample_trades. discriminate.
  - intros t [<-|[<-|[<-|[]]]]; vm_compute; split; discriminate.
Defined.

(* ===================================================================== *)
(** * Metrics deriver: the reward/risk ratio at zero risk *)
(* ===================================================================== *)

Lemma derive_rr_ratio_zero_risk (t : Trade) :
  X.eqb (risk (Helpers.derive t)) (Fin 0) = true ->
  rr_ratio (Helpers.derive t) = PInf \/ rr_ratio (Helpers.derive t) = NaN.
Proof.
  unfold Helpers.derive; cbn.
  unfold X.eqb; cbn.
  destruct (Qcompare_spec (Qabs (entryPrice t + - stopLoss t)) 0) as [He|Hl|Hg];
    try discriminate.
  intros _.
  assert (Hb : Qeq_bool (Qabs (entryPrice t + - stopLoss t)) 0 = true)
    by now apply Qeq_bool_iff.
  rewrite Hb.
  pose proof (Qabs_nonneg (target t + - entryPrice t)) as Hnn.
  destruct (Qcompare_spec (Qabs (target t + - entryPrice t)) 0) as [H0|Hlt|Hgt];
    cbn; auto.
  exfalso. apply (Qlt_not_le _ _ Hlt Hnn).
Qed.

(** C2.  Whatever the input (non-empty, with dates [pd.to_datetime] can
    hold), derivation does not raise, and every row whose risk
    |entryPrice - stopLoss| is zero gets a rr_ratio that is the explicit
    sentinel: positive infinity or NaN. *)
Theorem rr_ratio_zero_risk_is_sentinel (trades : list Trade) :
  trades <> [] -> dates_in_bounds trades ->
  exists df,
    Helpers.calculate_trade_metrics trades = Ok df
    /\ forall r : Row,
         In r df -> X.eqb (risk r) (Fin 0) = true ->
         rr_ratio r = PInf \/ rr_ratio r = NaN.
Proof.
  intros Hne Hb.
  exists (Helpers.sort_values_date (map Helpers.derive trades)).
  split; [now apply calculate_trade_metrics_ok|].
  intros r Hin Hrisk.
  apply (Permutation_in _ (Permutation_sym (sort_values_date_perm _))) in Hin.
  apply in_map_iff in Hin. destruct Hin as (t & <- & _).
  now apply derive_rr_ratio_zero_risk.
Qed.

Lemma rr_ratio_zero_risk_is_sentinel_witness :
  exists df,
    Helpers.calculate_trade_metrics [zero_risk_trade; one_loss] = Ok df
    /\ forall r : Row,
         In r df -> X.eqb (risk r) (Fin 0) = true ->
         rr_ratio r = PInf \/ rr_ratio r = NaN.
Proof.
  apply (rr_ratio_zero_risk_is_sentinel [zero_risk_trade; one_loss]).
  - discriminate.
  - intros t [<-|[<-|[]]]; vm_compute; split; discriminate.
Defined.

(** The two sentinels: infinity when the reward is positive, NaN when the
    target sits on the entry price too. *)
Example rr_ratio_zero_risk_positive_reward :
  rr_ratio (Helpers.derive zero_risk_trade) = PInf.
Proof. reflexivity. Qed.

Example rr_ratio_zero_risk_zero_reward :
  rr_ratio (Helpers.derive flat_trade) = NaN.
Proof. reflexivity. Qed.

(* ===================================================================== *)
(** * Reductions of finite Series *)
(* ===================================================================== *)


Lemma dropna_finite (l : list Q) : Pd.dropna (map Fin l) = map Fin l.
Proof.
  induction l as [|q l IH]; cbn; [reflexivity|now f_equal].
Qed.

Lemma sum_finite (l : list Q) : Pd.sum (map Fin l) = Fin (Qsum l).
Proof.
  unfold Pd.sum. rewrite dropna_finite.
  induction l as [|q l IH]; cbn; [reflexivity|].
  now rewrite IH.
Qed.

Lemma count_finite (l : list Q) : Pd.count (map Fin l) = List.length l.
Proof.
  unfold Pd.count. rewrite dropna_finite. apply length_map.
Qed.

Lemma inject_nat_pos (n : nat) : 0 < inject_Z (Z.of_nat (S n)).
Proof.
  unfold Qlt, inject_Z. cbn. lia.
Qed.

Lemma Qeq_bool_S (n : nat) : Qeq_bool (inject_Z (Z.of_nat (S n))) 0 = false.
Proof.
  destruct (Qeq_bool _ _) eqn:E; [|reflexivity].
  apply Qeq_bool_eq in E.
  pose proof (inject_nat_pos n) as H. rewrite E in H.
  now apply Qlt_irrefl in H.
Qed.

(** The mean of a Series without missing values. *)
Lemma mean_finite (l : list Q) :
  Pd.mean (map Fin l)
  = match l with
    | [] => NaN
    | _ => Fin (Qsum l / inject_Z (Z.of_nat (List.length l)))
    end.
Proof.
  unfold Pd.mean. rewrite count_finite, sum_finite.
  destruct l as [|q l]; [reflexivity|].
  cbn [List.length]. unfold X.of_nat, X.div.
  now rewrite Qeq_bool_S.
Qed.


Lemma map_of_bool (bs : list bool) :
  map Pd.of_bool bs = map Fin (map Qof_bool bs).
Proof.
  rewrite map_map. apply map_ext. now intros [].
Qed.

Lemma mean_bool_finite (bs : list bool) :
  Pd.mean_bool bs
  = match bs with
    | [] => NaN
    | _ => Fin (Qsum (map Qof_bool bs) / inject_Z (Z.of_nat (List.length bs)))
    end.
Proof.
  unfold Pd.mean_bool. rewrite map_of_bool, mean_finite, length_map.
  now destruct bs.
Qed.

Lemma Qsum_all_false (bs : list bool) :
  (forall b, In b bs -> b = false) -> Qsum (map Qof_bool bs) == 0.
Proof.
  induction bs as [|b bs IH]; intros H; cbn; [reflexivity|].
  rewrite (H b (or_introl eq_refl)), IH; [reflexivity|].
  intros b' Hb'. apply H. now right.
Qed.

(* ===================================================================== *)
(** * Behavior analyzer: revenge trading *)
(* ===================================================================== *)



Lemma ltb_true (a b : Z) : (a < b)%Z -> (a <? b)%Z = true.
Proof. apply Z.ltb_lt. Qed.





Lemma quick_rows_are_losses (trades_df : DataFrame) (r : Row) :
  In r (map fst (filter BehaviorAnalyzer.quick_after_loss
                        (combine trades_df
                           (BehaviorAnalyzer.time_to_next_trade trades_df)))) ->
  status r = "loss".
Proof.
  intros Hin. apply in_map_iff in Hin. destruct Hin as ([r' gap] & <- & Hin).
  apply filter_In in Hin. destruct Hin as [_ Hq].
  unfold BehaviorAnalyzer.quick_after_loss in Hq.
  apply andb_true_iff in Hq. destruct Hq as [Hs _].
  now apply String.eqb_eq in Hs.
Qed.

Lemma shift_m1_In {A} (l : list A) (x : A) :
  In (Some x) (Pd.shift_m1 l) -> In x l.
Proof.
  destruct l as [|a l]; cbn; [tauto|].
  intros Hin. apply in_app_or in Hin. destruct Hin as [Hin|[Hin|[]]].
  - apply in_map_iff in Hin. destruct Hin as (y & [= ->] & Hy). now right.
  - discriminate.
Qed.

(** X1.  Every row that [detect_revenge_trading] keeps is a loss, so the
    status it finds one row further down the kept rows is never a win: the
    reported success rate is zero as soon as one trade is flagged (and NaN
    when none is). *)
Theorem revenge_success_rate_never_positive (trades_df : DataFrame) :
  let rate := RevengeTrading.quick_trades_after_losses_success_rate
                (BehaviorAnalyzer.detect_revenge_trading trades_df) in
  rate = NaN \/ exists q, rate = Fin q /\ q == 0.
Proof.
  cbn. rewrite mean_bool_finite.
  match goal with |- context [map ?f (Pd.shift_m1 ?l)] =>
    set (bs := map f (Pd.shift_m1 l)); assert (Hbs : forall b, In b bs -> b = false)
  end.
  { intros b Hb. apply in_map_iff in Hb. destruct Hb as ([s|] & <- & Hs); [|reflexivity].
    apply shift_m1_In in Hs. apply in_map_iff in Hs. destruct Hs as (r & <- & Hr).
    now rewrite (quick_rows_are_losses _ _ Hr). }
  destruct bs as [|b bs]; [now left|right].
  eexists. split; [reflexivity|].
  rewrite (Qsum_all_false _ Hbs). reflexivity.
Qed.

(** C4.  On [revenge_trades] the trade at T0 is the one flagged trade and
    the trade that follows it in the table is a win with netPNL 50; yet
    the reported success rate is 0 and the reported mean netPNL is NaN:
    the shift is taken inside the flagged rows, not in the full table. *)
Theorem revenge_trading_reports_no_next_trade :
  exists df,
    BehaviorAnalyzer.init revenge_trades = Ok df
    /\ RevengeTrading.quick_trades_after_losses
         (BehaviorAnalyzer.detect_revenge_trading df) = 1%nat
    /\ RevengeTrading.quick_trades_after_losses_success_rate
         (BehaviorAnalyzer.detect_revenge_trading df) = Fin 0
    /\ RevengeTrading.avg_pnl_after_quick_trade
         (BehaviorAnalyzer.detect_revenge_trading df) = NaN
    /\ RevengeSpec.success_rate_of_next df = Fin 1
    /\ RevengeSpec.avg_pnl_of_next df = Fin 50.
Proof.
  eexists. split; [reflexivity|].
  repeat split; vm_compute; reflexivity.
Qed.

(* ===================================================================== *)
(** * Behavior analyzer: loss recovery rate *)
(* ===================================================================== *)

Section GroupByConstantKey.

Context {K A : Type} (eqb ltb : K -> K -> bool) (key : A -> K) (k : K).
Hypothesis eqb_refl : eqb k k = true.

Lemma dedupe_constant (ks : list K) :
  (forall x, In x ks -> x = k) ->
  fold_left (fun acc x => if existsb (eqb x) acc then acc else acc ++ [x])
            ks [k] = [k].
Proof.
  induction ks as [|x ks IH]; intros H; cbn; [reflexivity|].
  rewrite (H x (or_introl eq_refl)), eqb_refl. cbn.
  apply IH. intros y Hy. apply H. now right.
Qed.

Lemma filter_constant (rows : list A) :
  (forall r, In r rows -> key r = k) ->
  filter (fun r => eqb (key r) k) rows = rows.
Proof.
  induction rows as [|x rows IH]; intros H; cbn; [reflexivity|].
  rewrite (H x (or_introl eq_refl)), eqb_refl. f_equal.
  apply IH. intros y Hy. apply H. now right.
Qed.

(** When every row has the key [k] there is one group, holding every row. *)
Lemma groupby_keys_constant (rows : list A) :
  rows <> [] ->
  (forall r, In r rows -> key r = k) ->
  Pd.groupby_keys eqb ltb key rows = [(k, rows)].
Proof.
  intros Hne Hk. unfold Pd.groupby_keys.
  assert (Hkeys :
            fold_left (fun acc x => if existsb (eqb x) acc then acc
                                    else acc ++ [x])
                      (map key rows) [] = [k]).
  { destruct rows as [|r rows]; [congruence|].
    cbn [map fold_left existsb app].
    rewrite (Hk r (or_introl eq_refl)).
    apply dedupe_constant.
    intros x Hx. apply in_map_iff in Hx. destruct Hx as (y & <- & Hy).
    apply Hk. now right. }
  rewrite Hkeys. cbn [Py.sorted fold_left Py.insert_sorted map].
  now rewrite (filter_constant rows Hk).
Qed.

End GroupByConstantKey.


Lemma cumsum_zeros (acc : Z) (l : list Z) :
  (forall x, In x l -> x = 0%Z) ->
  forall y, In y (Pd.cumsum_from acc l) -> y = acc.
Proof.
  revert acc. induction l as [|x l IH]; intros acc H y Hy; cbn in *; [tauto|].
  rewrite (H x (or_introl eq_refl)), Z.add_0_r in Hy.
  destruct Hy as [<-|Hy]; [reflexivity|].
  apply (IH acc); auto.
Qed.

Lemma cumsum_from_length (acc : Z) (l : list Z) :
  List.length (Pd.cumsum_from acc l) = List.length l.
Proof.
  revert acc. induction l as [|x l IH]; intros acc; cbn; [reflexivity|].
  now rewrite IH.
Qed.

Lemma sum_snd_combine_ones (ks vs : list Z) :
  List.length ks = List.length vs ->
  (forall v, In v vs -> v = 1%Z) ->
  fold_right Z.add 0%Z (map snd (combine ks vs)) = Z.of_nat (List.length vs).
Proof.
  revert vs. induction ks as [|k ks IH]; intros [|v vs] Hlen Hv;
    try discriminate; [reflexivity|].
  cbn [combine map fold_right List.length snd].
  rewrite (Hv v (or_introl eq_refl)), IH.
  - rewrite Nat2Z.inj_succ. lia.
  - now injection Hlen.
  - intros w Hw. apply Hv. now right.
Qed.

(** C5 (as the code has it).  On a non-empty table with no 'win' the whole
    table is one run of losses: the result is the number of rows, a finite
    value, and nothing is raised. *)
Theorem loss_recovery_rate_without_wins (trades_df : DataFrame) :
  trades_df <> [] ->
  (forall r : Row, In r trades_df -> status r <> "win") ->
  exists q,
    BehaviorAnalyzer.calculate_loss_recovery_rate trades_df = Fin q
    /\ q == inject_Z (Z.of_nat (List.length trades_df)).
Proof.
  intros Hne Hnowin.
  unfold BehaviorAnalyzer.calculate_loss_recovery_rate,
    BehaviorAnalyzer.groupby_sum.
  set (wins := map (fun r : Row => if String.eqb (status r) "win"
                                   then 1%Z else 0%Z) trades_df).
  set (losses := map (fun r : Row => if negb (String.eqb (status r) "win")
                                     then 1%Z else 0%Z) trades_df).
  assert (Hw : forall x, In x wins -> x = 0%Z).
  { intros x Hx. apply in_map_iff in Hx. destruct Hx as (r & <- & Hr).
    destruct (String.eqb_spec (status r) "win") as [E|_]; [|reflexivity].
    now elim (Hnowin r Hr). }
  assert (Hl : forall x, In x losses -> x = 1%Z).
  { intros x Hx. apply in_map_iff in Hx. destruct Hx as (r & <- & Hr).
    destruct (String.eqb_spec (status r) "win") as [E|_]; [|reflexivity].
    now elim (Hnowin r Hr). }
  assert (Hlen : List.length (Pd.cumsum wins) = List.length losses).
  { unfold Pd.cumsum. rewrite cumsum_from_length.
    unfold wins, losses. now rewrite !length_map. }
  rewrite (groupby_keys_constant Z.eqb Z.ltb fst 0%Z (Z.eqb_refl 0)).
  - cbn [map snd]. rewrite (sum_snd_combine_ones _ _ Hlen Hl).
    unfold losses. rewrite length_map.
    destruct trades_df as [|r df]; [congruence|].
    cbn [filter List.length].
    rewrite ltb_true by lia. cbn [map].
    change [X.of_Z (Z.of_nat (S (List.length df)))]
      with (map (@Fin Q) [inject_Z (Z.of_nat (S (List.length df)))]).
    rewrite mean_finite. eexists. split; [reflexivity|].
    cbn [Qsum fold_right List.length]. change (inject_Z (Z.of_nat 1)) with 1.
    field.
  - destruct trades_df as [|r df]; [congruence|]. discriminate.
  - intros [k v] Hin. apply in_combine_l in Hin. cbn.
    now apply (cumsum_zeros 0 wins Hw).
Qed.

Lemma loss_recovery_rate_without_wins_witness :
  exists q,
    BehaviorAnalyzer.calculate_loss_recovery_rate
      (Helpers.sort_values_date (map Helpers.derive losing_trades)) = Fin q
    /\ q == inject_Z
              (Z.of_nat
                 (List.length
                    (Helpers.sort_values_date (map Helpers.derive losing_trades)))).
Proof.
  apply (loss_recovery_rate_without_wins
           (Helpers.sort_values_date (map Helpers.derive losing_trades))).
  - discriminate.
  - intros r [<-|[<-|[]]]; discriminate.
Defined.

(** C5 as stated fails: two losses and no win give the finite value 2,
    not an undefined marker. *)
Lemma loss_recovery_rate_no_wins_is_finite :
  exists df,
    BehaviorAnalyzer.init losing_trades = Ok df
    /\ existsb is_win df = false
    /\ BehaviorAnalyzer.calculate_loss_recovery_rate df = Fin 2
    /\ X.isna (BehaviorAnalyzer.calculate_loss_recovery_rate df) = false.
Proof.
  eexists. split; [reflexivity|].
  repeat split; vm_compute; reflexivity.
Qed.

(* ===================================================================== *)
(** * Behavior analyzer: risk level *)
(* ===================================================================== *)

Lemma XR_gtb_spec (x : xreal) (c : R) : XR.gtb x c = true <-> sharpe_above x c.
Proof.
  destruct x as [a| | |]; cbn; try tauto; try (split; [discriminate|tauto]).
  destruct (Rlt_dec c a); split; auto; discriminate.
Qed.

Lemma X_ltb_spec (x : xnum) (c : Q) :
  X.ltb x (Fin c) = true <-> drawdown_below x c.
Proof.
  destruct x as [q| | |]; unfold X.ltb; cbn;
    try tauto; try (split; [discriminate|tauto]).
  rewrite Qlt_alt. destruct (q ?= c); split; congruence.
Qed.

(** C6.  The risk level is Low exactly when Sharpe > 1.5 and drawdown < 0.10;
    failing that, Moderate exactly when Sharpe > 0.5 and drawdown < 0.20;
    High otherwise.  Both comparisons are strict, so a Sharpe ratio of
    exactly 1.5 or a drawdown of exactly 0.10 is not Low.  The drawdown is
    the largest gap between the running maximum of accountBalance and
    accountBalance, over the first accountBalance of the table. *)
Theorem determine_risk_level_rule (trades_df : DataFrame) :
  let sharpe := BehaviorAnalyzer.calculate_sharpe_ratio trades_df in
  let drawdown := BehaviorAnalyzer.max_drawdown trades_df in
  let balance := column accountBalance trades_df in
  let low := sharpe_above sharpe (15 / 10) /\ drawdown_below drawdown (1 # 10) in
  let moderate :=
    sharpe_above sharpe (5 / 10) /\ drawdown_below drawdown (2 # 10) in
  (BehaviorAnalyzer.determine_risk_level trades_df = Low <-> low)
  /\ (BehaviorAnalyzer.determine_risk_level trades_df = Moderate
      <-> ~ low /\ moderate)
  /\ (BehaviorAnalyzer.determine_risk_level trades_df = High
      <-> ~ low /\ ~ moderate)
  /\ (sharpe = Fin (15 / 10)%R ->
      BehaviorAnalyzer.determine_risk_level trades_df <> Low)
  /\ (forall q, drawdown = Fin q -> q == 1 # 10 ->
      BehaviorAnalyzer.determine_risk_level trades_df <> Low)
  /\ drawdown
     = X.div (Pd.max (map (fun cb => X.sub (fst cb) (snd cb))
                          (combine (Pd.cummax balance) balance)))
             (hd NaN balance).
Proof.
  cbv zeta. unfold BehaviorAnalyzer.determine_risk_level.
  set (sharpe := BehaviorAnalyzer.calculate_sharpe_ratio trades_df).
  set (drawdown := BehaviorAnalyzer.max_drawdown trades_df).
  pose proof (XR_gtb_spec sharpe (15 / 10)) as HS1.
  pose proof (XR_gtb_spec sharpe (5 / 10)) as HS2.
  pose proof (X_ltb_spec drawdown (1 # 10)) as HD1.
  pose proof (X_ltb_spec drawdown (2 # 10)) as HD2.
  assert (Hlow : XR.gtb sharpe (15 / 10) && X.ltb drawdown (Fin (1 # 10)) = true
                 <-> sharpe_above sharpe (15 / 10)
                     /\ drawdown_below drawdown (1 # 10))
    by (rewrite andb_true_iff; tauto).
  assert (Hmod : XR.gtb sharpe (5 / 10) && X.ltb drawdown (Fin (2 # 10)) = true
                 <-> sharpe_above sharpe (5 / 10)
                     /\ drawdown_below drawdown (2 # 10))
    by (rewrite andb_true_iff; tauto).
  assert (Hdef : drawdown
                 = X.div (Pd.max (map (fun cb => X.sub (fst cb) (snd cb))
                                      (combine
                                         (Pd.cummax
                                            (column accountBalance trades_df))
                                         (column accountBalance trades_df))))
                         (hd NaN (column accountBalance trades_df)))
    by reflexivity.
  assert (Hs15 : sharpe = Fin (15 / 10)%R -> ~ sharpe_above sharpe (15 / 10)).
  { intros ->. cbn. lra. }
  assert (Hd10 : forall q, drawdown = Fin q -> q == 1 # 10 ->
                           ~ drawdown_below drawdown (1 # 10)).
  { intros q -> Hq. cbn. rewrite Hq. apply Qlt_irrefl. }
  clearbody sharpe drawdown.
  destruct (XR.gtb sharpe (15 / 10) && X.ltb drawdown (Fin (1 # 10)));
    [|destruct (XR.gtb sharpe (5 / 10) && X.ltb drawdown (Fin (2 # 10)))].
  - assert (L : sharpe_above sharpe (15 / 10)
                /\ drawdown_below drawdown (1 # 10)) by now apply Hlow.
    split; [tauto|]. split; [split; [discriminate|tauto]|].
    split; [split; [discriminate|tauto]|].
    split; [intros Hs; apply Hs15 in Hs; tauto|].
    split; [intros q Hq Hq'; apply (Hd10 q Hq) in Hq'; tauto|exact Hdef].
  - assert (NL : ~ (sharpe_above sharpe (15 / 10)
                    /\ drawdown_below drawdown (1 # 10)))
      by (intros H; apply Hlow in H; discriminate).
    assert (M : sharpe_above sharpe (5 / 10)
                /\ drawdown_below drawdown (2 # 10)) by now apply Hmod.
    split; [split; [discriminate|tauto]|]. split; [tauto|].
    split; [split; [discriminate|tauto]|].
    split; [discriminate|]. split; [discriminate|exact Hdef].
  - assert (NL : ~ (sharpe_above sharpe (15 / 10)
                    /\ drawdown_below drawdown (1 # 10)))
      by (intros H; apply Hlow in H; discriminate).
    assert (NM : ~ (sharpe_above sharpe (5 / 10)
                    /\ drawdown_below drawdown (2 # 10)))
      by (intros H; apply Hmod in H; discriminate).
    split; [split; [discriminate|tauto]|].
    split; [split; [discriminate|tauto]|]. split; [tauto|].
    split; [discriminate|]. split; [discriminate|exact Hdef].
Qed.

(* ===================================================================== *)
(** * Behavior analyzer: Sharpe ratio *)
(* ===================================================================== *)


Lemma Qeq_bool_pos (q : Q) : 0 < q -> Qeq_bool q 0 = false.
Proof.
  intros H. destruct (Qeq_bool q 0) eqn:E; [|reflexivity].
  apply Qeq_bool_eq in E. rewrite E in H. now apply Qlt_irrefl in H.
Qed.

(** The variance of a Series of at least two finite values. *)
Lemma var_finite (l : list Q) :
  (2 <= List.length l)%nat ->
  Pd.var (map Fin l)
  = Fin (Qsum (map (sq_dev (Qsum l / inject_Z (Z.of_nat (List.length l)))) l)
         / inject_Z (Z.of_nat (List.length l - 1))).
Proof.
  intros Hlen. unfold Pd.var.
  rewrite count_finite, sum_finite, dropna_finite.
  destruct l as [|a [|b l]]; cbn [List.length] in *; try lia.
  replace (S (S (List.length l)) <=? 1)%nat with false by reflexivity.
  unfold X.of_nat at 1. unfold X.div at 2. rewrite Qeq_bool_S.
  rewrite map_map.
  rewrite (map_ext _ (fun q => Fin (sq_dev
              (Qsum (a :: b :: l) / inject_Z (Z.of_nat (S (S (List.length l))))) q)))
    by reflexivity.
  rewrite <- (map_map (sq_dev _) Fin), sum_finite.
  replace (S (S (List.length l)) - 1)%nat with (S (List.length l)) by lia.
  unfold X.of_nat, X.div. now rewrite Qeq_bool_S.
Qed.



Lemma Qsquare_nonneg (x : Q) : 0 <= x * x.
Proof.
  destruct (Qlt_le_dec x 0) as [H|H].
  - setoid_replace (x * x) with ((- x) * (- x)) by ring.
    apply Qmult_le_0_compat; lra.
  - now apply Qmult_le_0_compat.
Qed.

Lemma Qsum_sq_dev_nonneg (a : Q) (l : list Q) : 0 <= Qsum (map (sq_dev a) l).
Proof.
  unfold Qsum. induction l as [|q l IH]; cbn [map fold_right];
    [apply Qle_refl|].
  unfold sq_dev at 1.
  pose proof (Qsquare_nonneg (a + - q)) as Hsq.
  lra.
Qed.

Lemma var_value_nonneg (a : Q) (l : list Q) (n : nat) :
  0 <= Qsum (map (sq_dev a) l) / inject_Z (Z.of_nat (S n)).
Proof.
  apply Qle_shift_div_l; [apply inject_nat_pos|].
  rewrite Qmult_0_l. apply Qsum_sq_dev_nonneg.
Qed.



Lemma sharpe_closed_form (trades_df : DataFrame) :
  let l := map (fun r : Row => accountChange r) trades_df in
  let n := List.length l in
  BehaviorAnalyzer.calculate_sharpe_ratio trades_df
  = if (n <=? 1)%nat then NaN
    else sharpe_of (Qsum l / inject_Z (Z.of_nat n))
                   (Qsum (map (sq_dev (Qsum l / inject_Z (Z.of_nat n))) l)
                    / inject_Z (Z.of_nat (n - 1))).
Proof.
  cbv zeta. unfold BehaviorAnalyzer.calculate_sharpe_ratio, column.
  rewrite <- (map_map (fun r : Row => accountChange r) Fin).
  destruct (map (fun r : Row => accountChange r) trades_df) as [|a [|b l]].
  - reflexivity.
  - reflexivity.
  - replace (List.length (a :: b :: l) <=? 1)%nat with false by reflexivity.
    rewrite mean_finite. unfold Pd.std.
    rewrite var_finite by (cbn; lia).
    unfold XR.sqrt.
    replace (List.length (a :: b :: l) - 1)%nat with (S (List.length l))
      by (cbn; lia).
    destruct (Qlt_le_dec _ 0) as [Hneg|_]; [|reflexivity].
    exfalso. apply (Qlt_not_le _ _ Hneg). apply var_value_nonneg.
Qed.









Module SharpeFloat64.

Import PrimFloat.
#[local] Set Warnings "-inexact-float".


End SharpeFloat64.




(* ===================================================================== *)
(** * Pattern analyzer: quantile buckets *)
(* ===================================================================== *)

(** C3.  The bucketing does fail.  On the repository's own sample file
    (three trades, sizes 0.15, 0.3, 0.15) the duplicate quantile edge is
    dropped, two buckets are left for three labels, and [pd.qcut] raises;
    on four trades of equal size the duplicate edges are not dropped at
    all and [pd.qcut] raises. *)
Theorem position_size_impact_raises_on_duplicate_edges :
  (exists df,
      PatternAnalyzer.init (PatternAnalyzer.Many sample_trades) = Ok df
      /\ PatternAnalyzer.analyze_position_size_impact df
         = Raise (ValueError
                    "Bin labels must be one fewer than the number of bin edges"))
  /\ (exists df,
         PatternAnalyzer.init (PatternAnalyzer.Many same_size_trades) = Ok df
         /\ PatternAnalyzer.analyze_position_size_impact df
            = Raise (ValueError "Bin edges must be unique")).
Proof.
  split; eexists; (split; [reflexivity|vm_compute; reflexivity]).
Qed.

(** C10.  On [four_trades] the quantile edges of rr_ratio are 1, 1.75, 2,
    2.25, 3; no trade falls in (2, 2.25], and the analysis reports that
    bucket with a NaN win rate. *)
Theorem risk_reward_empty_bucket_win_rate :
  exists df rr_analysis m,
    PatternAnalyzer.init (PatternAnalyzer.Many four_trades) = Ok df
    /\ PatternAnalyzer.analyze_risk_reward_patterns df = Ok rr_analysis
    /\ Py.keys rr_analysis = ["1.00-1.75"; "1.75-2.00"; "2.00-2.25"; "2.25-3.00"]
    /\ Py.get rr_analysis "2.00-2.25" = Some m
    /\ RiskReward.win_rate m = NaN.
Proof.
  do 3 eexists. split; [reflexivity|].
  split; [vm_compute; reflexivity|].
  split; [reflexivity|]. split; reflexivity.
Qed.

(* ===================================================================== *)
(** * Pattern analyzer: the key insights digest *)
(* ===================================================================== *)

Lemma gtb_Fin (a b : Q) : X.gtb (Fin a) (Fin b) = true <-> b < a.
Proof.
  unfold X.gtb; cbn. split; intros H.
  - apply (proj2 (Qgt_alt a b)). destruct (a ?= b); congruence.
  - now rewrite (proj1 (Qgt_alt a b) H).
Qed.

(** A key that does not beat the current best does not beat a better one. *)
Lemma gtb_not_beaten (x y b : xnum) :
  X.gtb y b = true -> X.gtb x b = false -> X.gtb x y = false.
Proof.
  destruct x as [p| | |], y as [q| | |], b as [r| | |];
    try reflexivity; try discriminate.
  intros Hy Hx. apply gtb_Fin in Hy.
  destruct (X.gtb (Fin p) (Fin q)) eqn:E; [|reflexivity].
  apply gtb_Fin in E.
  assert (H : r < p) by (eapply Qlt_trans; eassumption).
  apply gtb_Fin in H. congruence.
Qed.

Lemma gtb_irrefl (x : xnum) : X.gtb x x = false.
Proof.
  destruct x as [p| | |]; try reflexivity.
  destruct (X.gtb (Fin p) (Fin p)) eqn:E; [|reflexivity].
  apply gtb_Fin in E. now apply Qlt_irrefl in E.
Qed.

(** [max] returns an element of the sequence that no element beats. *)
Lemma max_from_spec {A} (key : A -> xnum) (l : list A) (best : A) :
  let b := Py.max_from key best l in
  (b = best \/ In b l)
  /\ (forall x, (X.gtb (key x) (key best) = false \/ In x l) ->
                X.gtb (key x) (key b) = false).
Proof.
  revert best. induction l as [|y l IH]; intros best; cbn.
  - split; [now left|]. intros x [H|[]]. exact H.
  - destruct (IH (if X.gtb (key y) (key best) then y else best)) as [Hin Hmax].
    split.
    + destruct Hin as [->|Hin]; [|now right; right].
      destruct (X.gtb (key y) (key best)); [right; now left|now left].
    + intros x Hx. apply Hmax.
      destruct (X.gtb (key y) (key best)) eqn:E.
      * destruct Hx as [Hx|[<-|Hx]].
        -- left. eapply gtb_not_beaten; eassumption.
        -- left. apply gtb_irrefl.
        -- now right.
      * destruct Hx as [Hx|[<-|Hx]].
        -- now left.
        -- now left.
        -- now right.
Qed.

Lemma max_spec {A} (key : A -> xnum) (l : list A) (b : A) :
  Py.max key l = Ok b ->
  In b l /\ forall x, In x l -> X.gtb (key x) (key b) = false.
Proof.
  destruct l as [|a l]; [discriminate|]. cbn. intros [= <-].
  destruct (max_from_spec key l a) as [Hin Hmax]. split.
  - destruct Hin as [->|Hin]; [now left|now right].
  - intros x [<-|Hx]; apply Hmax; [left; apply gtb_irrefl|now right].
Qed.

Lemma insert_sorted_In {A} (lt : A -> A -> bool) (x y : A) (l : list A) :
  In x (Py.insert_sorted lt y l) <-> x = y \/ In x l.
Proof.
  induction l as [|z l IH]; cbn; [intuition congruence|].
  destruct (lt y z); cbn; [intuition congruence|].
  rewrite IH. intuition congruence.
Qed.

Lemma sorted_In {A} (lt : A -> A -> bool) (l : list A) (x : A) :
  In x (Py.sorted lt l) <-> In x l.
Proof.
  unfold Py.sorted.
  assert (H : forall acc,
             In x (fold_left (fun acc y => Py.insert_sorted lt y acc) l acc)
             <-> In x acc \/ In x l).
  { induction l as [|y l IH]; intros acc; cbn; [tauto|].
    rewrite IH, insert_sorted_In. intuition congruence. }
  rewrite H. cbn. tauto.
Qed.

Lemma left_edges_keys (keys : list string) (keyed : list (xnum * string)) :
  PatternAnalyzer.left_edges keys = Ok keyed -> map snd keyed = keys.
Proof.
  revert keyed. induction keys as [|x keys IH]; intros keyed; cbn.
  - now intros [= <-].
  - destruct (Py.float _) as [k|e]; [|discriminate]. cbn.
    destruct (PatternAnalyzer.left_edges keys) as [rest|e]; [|discriminate].
    cbn. intros [= <-]. cbn. f_equal. now apply IH.
Qed.

Lemma sorted_by_left_edge_In (keys sorted : list string) (x : string) :
  PatternAnalyzer.sorted_by_left_edge keys = Ok sorted ->
  (In x sorted <-> In x keys).
Proof.
  unfold PatternAnalyzer.sorted_by_left_edge.
  destruct (PatternAnalyzer.left_edges keys) as [keyed|e] eqn:E; [|discriminate].
  cbn. intros [= <-]. rewrite <- (left_edges_keys _ _ E), !in_map_iff.
  split; intros (kx & <- & H); exists kx; (split; [reflexivity|]).
  - now apply sorted_In in H.
  - now apply sorted_In.
Qed.

(** The combinations the digest names: a pair and one of the directions
    'long', 'short' whose reported win rate equals 1.0. *)
Lemma best_pairs_of_In (analysis : Py.dict (Py.dict DirectionBias.t))
    (s : string) :
  In s (PatternAnalyzer.best_pairs_of analysis)
  <-> exists pair directions direction m,
        In (pair, directions) analysis
        /\ In direction ["long"; "short"]
        /\ Py.get directions direction = Some m
        /\ X.eqb (DirectionBias.win_rate m) (Fin 1) = true
        /\ s = (pair ++ " " ++ direction)%string.
Proof.
  unfold PatternAnalyzer.best_pairs_of. rewrite in_flat_map. split.
  - intros ([pair directions] & Hin & Hs). apply in_flat_map in Hs.
    destruct Hs as (direction & Hdir & Hs).
    destruct (Py.get directions direction) as [m|] eqn:G; [|destruct Hs].
    destruct (X.eqb (DirectionBias.win_rate m) (Fin 1)) eqn:E; [|destruct Hs].
    destruct Hs as [<-|[]].
    exists pair, directions, direction, m. auto.
  - intros (pair & directions & direction & m & Hin & Hdir & G & E & ->).
    exists (pair, directions). split; [exact Hin|].
    apply in_flat_map. exists direction. split; [exact Hdir|].
    rewrite G, E. now left.
Qed.

(** C9 (as the code has it).  When [get_key_trading_insights] returns, the
    digest is: one line for the pair/direction combinations whose win rate
    is exactly 1.0, only if there is such a combination; one line naming a
    size bucket whose win rate no size bucket exceeds; one line naming a
    rr_ratio bucket whose win rate no rr_ratio bucket exceeds.  So it has
    three lines or two. *)
Theorem key_trading_insights_digest (trades_df : DataFrame) (lines : list string) :
  PatternAnalyzer.get_key_trading_insights trades_df = Ok lines ->
  let direction_analysis :=
    PatternAnalyzer.analyze_pair_direction_bias trades_df in
  let best_pairs := PatternAnalyzer.best_pairs_of direction_analysis in
  exists size_analysis rr_analysis best_size best_rr,
    PatternAnalyzer.analyze_position_size_impact trades_df = Ok size_analysis
    /\ PatternAnalyzer.analyze_risk_reward_patterns trades_df = Ok rr_analysis
    /\ In best_size (Py.keys size_analysis)
    /\ (forall k, In k (Py.keys size_analysis) ->
                  X.gtb (PatternAnalyzer.size_win_rate size_analysis k)
                        (PatternAnalyzer.size_win_rate size_analysis best_size)
                  = false)
    /\ In best_rr (Py.keys rr_analysis)
    /\ (forall k, In k (Py.keys rr_analysis) ->
                  X.gtb (PatternAnalyzer.rr_win_rate rr_analysis k)
                        (PatternAnalyzer.rr_win_rate rr_analysis best_rr)
                  = false)
    /\ (best_pairs = [] <->
        forall pair directions direction m,
          In (pair, directions) direction_analysis ->
          In direction ["long"; "short"] ->
          Py.get directions direction = Some m ->
          X.eqb (DirectionBias.win_rate m) (Fin 1) = false)
    /\ lines
       = match best_pairs with
         | [] => []
         | _ => [PatternAnalyzer.pair_direction_line best_pairs]
         end
         ++ [ PatternAnalyzer.position_size_line best_size
                (PatternAnalyzer.size_win_rate size_analysis best_size);
              PatternAnalyzer.risk_reward_line best_rr
                (PatternAnalyzer.rr_win_rate rr_analysis best_rr) ]
    /\ List.length lines
       = match best_pairs with [] => 2%nat | _ => 3%nat end.
Proof.
  unfold PatternAnalyzer.get_key_trading_insights. cbv zeta.
  destruct (PatternAnalyzer.analyze_position_size_impact trades_df)
    as [size_analysis|e]; [|discriminate].
  cbn [bind].
  destruct (Py.max _ (Py.sorted String.ltb (Py.keys size_analysis)))
    as [best_size|e] eqn:Esize; [|discriminate].
  cbn [bind].
  destruct (PatternAnalyzer.analyze_risk_reward_patterns trades_df)
    as [rr_analysis|e]; [|discriminate].
  cbn [bind].
  destruct (PatternAnalyzer.sorted_by_left_edge (Py.keys rr_analysis))
    as [rr_categories|e] eqn:Esort; [|discriminate].
  cbn [bind].
  destruct (Py.max _ rr_categories) as [best_rr|e] eqn:Err; [|discriminate].
  cbn [bind]. intros [= <-].
  apply max_spec in Esize. destruct Esize as [Hsin Hsmax].
  apply max_spec in Err. destruct Err as [Hrin Hrmax].
  exists size_analysis, rr_analysis, best_size, best_rr.
  split; [reflexivity|]. split; [reflexivity|].
  split; [now apply sorted_In in Hsin|].
  split; [intros k Hk; apply Hsmax; now apply sorted_In|].
  split; [now apply (sorted_by_left_edge_In _ _ _ Esort)|].
  split; [intros k Hk; apply Hrmax; now apply (sorted_by_left_edge_In _ _ _ Esort)|].
  split.
  - split.
    + intros Hnil pair directions direction m Hin Hdir G.
      destruct (X.eqb (DirectionBias.win_rate m) (Fin 1)) eqn:E; [|reflexivity].
      assert (H : In (pair ++ " " ++ direction)%string
                     (PatternAnalyzer.best_pairs_of
                        (PatternAnalyzer.analyze_pair_direction_bias trades_df))).
      { apply best_pairs_of_In. exists pair, directions, direction, m. auto. }
      rewrite Hnil in H. destruct H.
    + intros Hnone.
      destruct (PatternAnalyzer.best_pairs_of _) as [|s l] eqn:Eb; [reflexivity|].
      assert (H : In s (PatternAnalyzer.best_pairs_of
                          (PatternAnalyzer.analyze_pair_direction_bias trades_df)))
        by (rewrite Eb; now left).
      apply best_pairs_of_In in H.
      destruct H as (pair & directions & direction & m & Hin & Hdir & G & E & _).
      rewrite (Hnone _ _ _ _ Hin Hdir G) in E. discriminate.
  - destruct (PatternAnalyzer.best_pairs_of _); split; reflexivity.
Qed.

Lemma key_trading_insights_digest_witness :
  exists lines,
    PatternAnalyzer.get_key_trading_insights [Helpers.derive one_win] = Ok lines
    /\ List.length lines = 3%nat.
Proof.
  exists [ "Pair Direction: EUR/USD long show 100% win rates.";
           "Position Size: Small positions have higher win rates (100.00%) and profitability.";
           "Risk-Reward: Higher R:R ratios (2.00-2.00) yield better win rates (100.00%) and profitability." ].
  assert (H : PatternAnalyzer.get_key_trading_insights [Helpers.derive one_win]
              = Ok [ "Pair Direction: EUR/USD long show 100% win rates.";
                     "Position Size: Small positions have higher win rates (100.00%) and profitability.";
                     "Risk-Reward: Higher R:R ratios (2.00-2.00) yield better win rates (100.00%) and profitability." ])
    by (vm_compute; reflexivity).
  split; [exact H|].
  destruct (key_trading_insights_digest _ _ H)
    as (sa & ra & bs & br & _ & _ & _ & _ & _ & _ & _ & _ & Hlen).
  reflexivity.
Defined.

(** C9 as stated fails: for a single losing trade no combination has a
    100% win rate, and the digest has two lines. *)
Lemma key_trading_insights_two_lines :
  exists df,
    PatternAnalyzer.init (PatternAnalyzer.One one_loss) = Ok df
    /\ PatternAnalyzer.get_key_trading_insights df
       = Ok [ "Position Size: Small positions have higher win rates (0.00%) and profitability.";
              "Risk-Reward: Higher R:R ratios (2.00-2.00) yield better win rates (0.00%) and profitability." ].
Proof.
  eexists. split; [reflexivity|]. vm_compute. reflexivity.
Qed.

(* ===================================================================== *)
(** * Pattern analyzer: win rates of non-empty groups *)
(* ===================================================================== *)

Lemma get_set {V} (d : Py.dict V) (k k' : string) (v : V) :
  Py.get (Py.set d k v) k'
  = if String.eqb k' k then Some v else Py.get d k'.
Proof.
  induction d as [|[k0 v0] d IH]; cbn.
  - reflexivity.
  - destruct (String.eqb_spec k k0) as [->|Hne]; cbn.
    + destruct (String.eqb_spec k' k0); reflexivity.
    + rewrite IH. destruct (String.eqb_spec k' k0) as [->|Hne'].
      * destruct (String.eqb_spec k0 k); [congruence|reflexivity].
      * reflexivity.
Qed.

Lemma length_set {V} (d : Py.dict V) (k : string) (v : V) :
  (List.length (Py.set d k v) <= S (List.length d))%nat.
Proof.
  induction d as [|[k0 v0] d IH]; cbn; [lia|].
  destruct (String.eqb k k0); cbn; lia.
Qed.

Lemma Qsum_of_bool_bounds (bs : list bool) :
  0 <= Qsum (map Qof_bool bs)
  /\ Qsum (map Qof_bool bs) <= inject_Z (Z.of_nat (List.length bs)).
Proof.
  unfold Qsum.
  induction bs as [|b bs [IH0 IH1]]; cbn [map fold_right List.length].
  - split; apply Qle_refl.
  - rewrite Nat2Z.inj_succ. unfold Z.succ. rewrite inject_Z_plus.
    change (inject_Z 1) with 1. destruct b; cbn [Qof_bool]; split; lra.
Qed.

(** The win rate of a non-empty group is a fraction between 0 and 1. *)
Lemma win_mean_unit (rows : DataFrame) :
  rows <> [] -> exists q, win_mean rows = Fin q /\ 0 <= q <= 1.
Proof.
  intros Hne. unfold win_mean. rewrite mean_bool_finite.
  destruct rows as [|r rows]; [congruence|].
  cbn [map].
  set (bs := String.eqb (status r) "win"
             :: map (fun r0 : Row => String.eqb (status r0) "win") rows).
  destruct (Qsum_of_bool_bounds bs) as [H0 H1].
  assert (Hn : 0 < inject_Z (Z.of_nat (List.length bs)))
    by (unfold bs; cbn [List.length]; apply inject_nat_pos).
  eexists. split; [reflexivity|]. split.
  - apply Qle_shift_div_l; [exact Hn|]. now rewrite Qmult_0_l.
  - apply Qle_shift_div_r; [exact Hn|]. now rewrite Qmult_1_l.
Qed.

Lemma rint_bounds (q : Q) (n : Z) :
  0 <= q -> q <= inject_Z n -> (0 <= Py.rint q <= n)%Z.
Proof.
  intros H0 Hn. unfold Py.rint.
  assert (Hf0 : (0 <= Qfloor q)%Z).
  { change 0%Z with (Qfloor 0). now apply Qfloor_resp_le. }
  assert (Hfn : (Qfloor q <= n)%Z).
  { rewrite <- (Qfloor_Z n). now apply Qfloor_resp_le. }
  assert (Hlt : (Qfloor q < n)%Z \/ q == inject_Z n).
  { destruct (Z.eq_dec (Qfloor q) n) as [E|NE]; [right|left; lia].
    apply Qle_antisym; [exact Hn|]. rewrite <- E. apply Qfloor_le. }
  assert (Hfrac : q == inject_Z n -> q - inject_Z (Qfloor q) == 0).
  { intros Hq. rewrite (Qfloor_comp _ _ Hq), Qfloor_Z, Hq. ring. }
  destruct (Qcompare_spec (q - inject_Z (Qfloor q)) (1 # 2)) as [E|L|G].
  - destruct Hlt as [Hlt|Hq].
    + destruct (Z.even (Qfloor q)); lia.
    + exfalso. rewrite (Hfrac Hq) in E. discriminate.
  - lia.
  - destruct Hlt as [Hlt|Hq]; [lia|].
    exfalso. rewrite (Hfrac Hq) in G. discriminate.
Qed.

(** Rounding to four decimals keeps a fraction between 0 and 1. *)
Lemma round4_unit (q : Q) :
  0 <= q <= 1 -> exists q', Pd.round 4 (Fin q) = Fin q' /\ 0 <= q' <= 1.
Proof.
  intros [H0 H1]. cbn [Pd.round]. eexists. split; [reflexivity|].
  change (inject_Z (Py.pow10 4)) with (inject_Z 10000).
  destruct (rint_bounds (q * inject_Z 10000) 10000) as [R0 R1].
  - apply Qmult_le_0_compat; [exact H0|discriminate].
  - setoid_replace (inject_Z 10000) with (1 * inject_Z 10000) at 2 by ring.
    apply Qmult_le_compat_r; [exact H1|discriminate].
  - set (z := Py.rint (q * inject_Z 10000)) in *.
    assert (Hz0 : 0 <= inject_Z z)
      by (change 0 with (inject_Z 0); now rewrite <- Zle_Qle).
    assert (Hz1 : inject_Z z <= inject_Z 10000) by now rewrite <- Zle_Qle.
    split.
    + apply Qle_shift_div_l; [reflexivity|]. now rewrite Qmult_0_l.
    + apply Qle_shift_div_r; [reflexivity|]. now rewrite Qmult_1_l.
Qed.

Lemma rounded_win_mean_unit (rows : DataFrame) :
  rows <> [] -> unit_win_rate (Pd.round 4 (win_mean rows)).
Proof.
  intros Hne. destruct (win_mean_unit rows Hne) as (q & -> & Hq).
  now apply round4_unit.
Qed.

Section GroupByKeys.

Context {K A : Type} (eqb ltb : K -> K -> bool) (key : A -> K).
Hypothesis eqb_refl : forall k, eqb k k = true.

Lemma dedupe_subset (ks acc : list K) (k : K) :
  In k (fold_left (fun acc x => if existsb (eqb x) acc then acc else acc ++ [x])
                  ks acc) ->
  In k acc \/ In k ks.
Proof.
  revert acc. induction ks as [|x ks IH]; intros acc; cbn; [tauto|].
  intros H. apply IH in H. destruct H as [H|H]; [|tauto].
  destruct (existsb (eqb x) acc); [tauto|].
  apply in_app_or in H. cbn in H. tauto.
Qed.

(** Every group of [groupby_keys] holds at least one row. *)
Lemma groupby_keys_nonempty (rows : list A) (k : K) (g : list A) :
  In (k, g) (Pd.groupby_keys eqb ltb key rows) -> g <> [].
Proof.
  unfold Pd.groupby_keys. intros H.
  apply in_map_iff in H. destruct H as (k' & [= <- <-] & Hk).
  apply sorted_In in Hk. apply dedupe_subset in Hk.
  destruct Hk as [[]|Hk].
  apply in_map_iff in Hk. destruct Hk as (r & <- & Hr).
  intros E.
  assert (Hin : In r (filter (fun r0 => eqb (key r0) (key r)) rows))
    by (apply filter_In; split; [exact Hr|apply eqb_refl]).
  rewrite E in Hin. exact Hin.
Qed.

End GroupByKeys.

Lemma key2_eqb_refl (k : string * string) : PatternAnalyzer.key2_eqb k k = true.
Proof.
  unfold PatternAnalyzer.key2_eqb. now rewrite !String.eqb_refl.
Qed.

Lemma direction_fill_ok
    (groups : list ((string * string) * DirectionBias.t))
    (d : Py.dict (Py.dict DirectionBias.t)) :
  (forall g, In g groups -> unit_win_rate (DirectionBias.win_rate (snd g))) ->
  direction_rates_ok d ->
  direction_rates_ok
    (fold_left
       (fun result g =>
          let '((pair, direction), row) := g in
          let result :=
            if Py.contains result pair then result else Py.set result pair [] in
          match Py.get result pair with
          | Some inner => Py.set result pair (Py.set inner direction row)
          | None => result
          end)
       groups d).
Proof.
  revert d. induction groups as [|[[p dir] row] groups IH]; intros d Hg Hd;
    cbn [fold_left]; [exact Hd|].
  apply IH; [intros g Hin; apply Hg; now right|].
  assert (Hrow : unit_win_rate (DirectionBias.win_rate row))
    by (apply (Hg ((p, dir), row)); now left).
  cbv beta iota zeta.
  match goal with
  | |- direction_rates_ok (match Py.get ?x _ with _ => _ end) => set (d1 := x)
  end.
  assert (Hd1 : direction_rates_ok d1).
  { unfold d1.
    match goal with |- context [if ?c then _ else _] => destruct c end;
      [exact Hd|].
    intros pair directions direction m H1 H2. rewrite get_set in H1.
    destruct (String.eqb pair p).
    - injection H1 as <-. discriminate.
    - eapply Hd; eassumption. }
  destruct (Py.get d1 p) as [inner|] eqn:Einner; [|exact Hd1].
  intros pair directions direction m H1 H2. rewrite get_set in H1.
  destruct (String.eqb_spec pair p) as [->|Hne].
  - injection H1 as <-. rewrite get_set in H2.
    destruct (String.eqb direction dir).
    + now injection H2 as <-.
    + eapply Hd1; eassumption.
  - eapply Hd1; eassumption.
Qed.

(** X2.  Every win rate [analyze_pair_direction_bias] reports lies in
    [0, 1]: each (pair, direction) group has a member. *)
Theorem pair_direction_win_rates_in_unit_interval (trades_df : DataFrame)
    (pair direction : string) (directions : Py.dict DirectionBias.t)
    (m : DirectionBias.t) :
  Py.get (PatternAnalyzer.analyze_pair_direction_bias trades_df) pair
  = Some directions ->
  Py.get directions direction = Some m ->
  exists q, DirectionBias.win_rate m = Fin q /\ 0 <= q <= 1.
Proof.
  intros H1 H2.
  refine (direction_fill_ok _ [] _ _ pair directions direction m H1 H2).
  - intros [k row] Hin. apply in_map_iff in Hin.
    destruct Hin as ([k' g] & [= <- <-] & Hin). cbn.
    apply rounded_win_mean_unit.
    eapply (groupby_keys_nonempty PatternAnalyzer.key2_eqb); [|exact Hin].
    apply key2_eqb_refl.
  - intros ? ? ? ? H. discriminate.
Qed.

Lemma pair_direction_win_rates_in_unit_interval_witness :
  exists q, Fin 1.0000 = Fin q /\ 0 <= q <= 1.
Proof.
  apply (pair_direction_win_rates_in_unit_interval
           (Helpers.sort_values_date (map Helpers.derive sample_trades))
           "USD/JPY" "long"
           [("long", {| DirectionBias.win_rate := Fin 1.0000;
                        DirectionBias.avg_netPNL := Fin 75.0000;
                        DirectionBias.avg_accountChange := Fin 7.4900 |})]
           {| DirectionBias.win_rate := Fin 1.0000;
              DirectionBias.avg_netPNL := Fin 75.0000;
              DirectionBias.avg_accountChange := Fin 7.4900 |}).
  - vm_compute. reflexivity.
  - reflexivity.
Defined.

Lemma fold_set_values {V} (P : V -> Prop) (l : list (string * V))
    (d : Py.dict V) :
  (forall g, In g l -> P (snd g)) ->
  (forall k v, Py.get d k = Some v -> P v) ->
  forall k v,
    Py.get (fold_left (fun result g => Py.set result (fst g) (snd g)) l d) k
    = Some v ->
    P v.
Proof.
  revert d. induction l as [|g l IH]; intros d Hl Hd; cbn [fold_left];
    [exact Hd|].
  apply IH; [intros g' Hin; apply Hl; now right|].
  intros k v H. rewrite get_set in H. destruct (String.eqb k (fst g)).
  - injection H as <-. apply Hl. now left.
  - eapply Hd; eassumption.
Qed.

Lemma groupby_observed_nonempty {C A} (c : Pd.Categorical C) (rows : list A)
    (cat : C) (g : list A) :
  In (cat, g) (Pd.groupby_categorical true c rows) -> g <> [].
Proof.
  unfold Pd.groupby_categorical. intros H. apply filter_In in H.
  destruct H as [_ H]. cbn in H. now destruct g.
Qed.

(** X3.  Every win rate [analyze_position_size_impact] reports lies in
    [0, 1]: with [observed=True] only the buckets that hold a trade are
    reported. *)
Theorem position_size_win_rates_in_unit_interval (trades_df : DataFrame)
    (size_analysis : Py.dict SizeImpact.t) (bucket : string) (m : SizeImpact.t) :
  PatternAnalyzer.analyze_position_size_impact trades_df = Ok size_analysis ->
  Py.get size_analysis bucket = Some m ->
  exists q, SizeImpact.win_rate m = Fin q /\ 0 <= q <= 1.
Proof.
  unfold PatternAnalyzer.analyze_position_size_impact. cbv zeta.
  match goal with |- bind ?c _ = _ -> _ => destruct c as [size_groups|e] end;
    [|discriminate].
  cbn [bind]. intros [= <-] Hget.
  refine (fold_set_values
            (fun m => unit_win_rate (SizeImpact.win_rate m)) _ [] _ _
            bucket m Hget).
  - intros [k v] Hin. apply in_map_iff in Hin.
    destruct Hin as ([cat g] & [= <- <-] & Hin). cbn.
    apply rounded_win_mean_unit.
    now apply groupby_observed_nonempty in Hin.
  - intros ? ? H. discriminate.
Qed.

Lemma position_size_win_rates_in_unit_interval_witness :
  exists size_analysis m,
    PatternAnalyzer.analyze_position_size_impact
      (Helpers.sort_values_date (map Helpers.derive four_trades))
    = Ok size_analysis
    /\ Py.get size_analysis "Small" = Some m
    /\ exists q, SizeImpact.win_rate m = Fin q /\ 0 <= q <= 1.
Proof.
  destruct (PatternAnalyzer.analyze_position_size_impact
              (Helpers.sort_values_date (map Helpers.derive four_trades)))
    as [size_analysis|e] eqn:E; [|vm_compute in E; discriminate].
  destruct (Py.get size_analysis "Small") as [m|] eqn:G.
  - exists size_analysis, m. split; [reflexivity|]. split; [exact G|].
    exact (position_size_win_rates_in_unit_interval _ _ _ _ E G).
  - exfalso. vm_compute in E. injection E as <-. discriminate.
Defined.

(* ===================================================================== *)
(** * Pattern analyzer: number of buckets *)
(* ===================================================================== *)

Lemma length_fold_set {A V} (kf : A -> string) (vf : A -> V) (l : list A)
    (d : Py.dict V) :
  (List.length (fold_left (fun result g => Py.set result (kf g) (vf g)) l d)
   <= List.length d + List.length l)%nat.
Proof.
  revert d. induction l as [|g l IH]; intros d; cbn [fold_left List.length];
    [lia|].
  specialize (IH (Py.set d (kf g) (vf g))).
  pose proof (length_set d (kf g) (vf g)). lia.
Qed.

Lemma length_fold_set_nil {A V} (kf : A -> string) (vf : A -> V) (l : list A) :
  (List.length (fold_left (fun result g => Py.set result (kf g) (vf g)) l [])
   <= List.length l)%nat.
Proof.
  apply (length_fold_set kf vf l []).
Qed.

Lemma length_groupby_categorical {C A} (observed : bool)
    (c : Pd.Categorical C) (rows : list A) :
  (List.length (Pd.groupby_categorical observed c rows)
   <= List.length (Pd.categories c))%nat.
Proof.
  unfold Pd.groupby_categorical.
  assert (H : List.length
                (map (fun ic : nat * C =>
                        (snd ic, Pd.rows_with_code (Pd.codes c) rows (fst ic)))
                     (combine (seq 0 (List.length (Pd.categories c)))
                              (Pd.categories c)))
              = List.length (Pd.categories c)).
  { rewrite length_map, length_combine, length_seq. lia. }
  destruct observed; [|lia].
  etransitivity; [apply filter_length_le|]. lia.
Qed.

Lemma length_unique_from (seen l : list xnum) :
  (List.length (Pd.unique_from seen l) <= List.length l)%nat.
Proof.
  revert seen. induction l as [|x l IH]; intros seen; cbn; [lia|].
  destruct (existsb (X.same x) seen); cbn.
  - specialize (IH seen). lia.
  - specialize (IH (x :: seen)). lia.
Qed.

Lemma length_from_breaks (breaks : list xnum) (l : list Pd.Interval) :
  Pd.from_breaks breaks = Ok l ->
  List.length l = (List.length breaks - 1)%nat.
Proof.
  revert l. induction breaks as [|a breaks IH]; intros l; cbn.
  - now intros [= <-].
  - destruct breaks as [|b breaks]; [now intros [= <-]|].
    destruct (xorb _ _); [discriminate|].
    destruct (X.gtb a b); [discriminate|].
    destruct (Pd.from_breaks (b :: breaks)) as [tl|e]; [|discriminate].
    cbn [bind]. intros [= <-]. cbn [List.length].
    rewrite (IH tl eq_refl). cbn [List.length]. lia.
Qed.

Lemma length_format_labels (bins : list xnum) (l : list Pd.Interval) :
  Pd.format_labels bins = Ok l ->
  List.length l = (List.length bins - 1)%nat.
Proof.
  unfold Pd.format_labels. cbv zeta.
  destruct (Pd.from_breaks _) as [labels|e] eqn:H; [|discriminate].
  cbn [bind]. destruct (existsb _ labels); [discriminate|].
  intros E. apply Ok_inj in E. subst l.
  apply length_from_breaks in H. rewrite H.
  destruct bins as [|b bins]; cbn [map List.length]; [reflexivity|].
  now rewrite length_map.
Qed.

(** [qcut] into [q] quantiles never produces more than [q] categories. *)
Lemma qcut_categories {C} (x : list xnum) (q : nat)
    (labels : list xnum -> result (list C)) (dup : Pd.duplicates)
    (c : Pd.Categorical C) :
  (forall bins l, labels bins = Ok l ->
                  List.length l = (List.length bins - 1)%nat) ->
  Pd.qcut x q labels dup = Ok c ->
  (List.length (Pd.categories c) <= q)%nat.
Proof.
  intros Hlabels. unfold Pd.qcut, Pd.bins_to_cuts. cbv zeta.
  set (bins0 := Pd.quantile x (Pd.linspace01 q)).
  assert (H0 : List.length bins0 = (q + 1)%nat).
  { unfold bins0, Pd.quantile, Pd.linspace01.
    now rewrite !length_map, length_seq. }
  assert (Hu : (List.length (Pd.unique bins0) <= q + 1)%nat).
  { rewrite <- H0. apply length_unique_from. }
  match goal with |- bind ?m _ = _ -> _ => destruct m as [bins|e] eqn:Eb end;
    [|discriminate].
  cbn [bind].
  destruct (labels bins) as [l|e] eqn:El; [|discriminate].
  cbn [bind]. intros [= <-]. cbn [Pd.categories].
  rewrite (Hlabels _ _ El).
  assert (Hb : (List.length bins <= q + 1)%nat).
  { destruct (_ && _) in Eb.
    - destruct dup; [discriminate|]. injection Eb as <-. exact Hu.
    - injection Eb as <-. lia. }
  lia.
Qed.

Lemma length_use_labels (labels : list string) (bins : list xnum)
    (l : list string) :
  Pd.use_labels labels bins = Ok l ->
  List.length l = (List.length bins - 1)%nat.
Proof.
  unfold Pd.use_labels. destruct (Pd.has_duplicates labels); [discriminate|].
  destruct (Nat.eqb_spec (List.length labels) (List.length bins - 1)) as [E|NE];
    cbn; [|discriminate].
  now intros [= <-].
Qed.

(** X4.  Whenever the bucket analyses return, they report at most as many
    buckets as there are rows, and at most four. *)
Theorem bucket_count_bounded (trades_df : DataFrame) :
  (forall size_analysis,
      PatternAnalyzer.analyze_position_size_impact trades_df = Ok size_analysis ->
      (List.length size_analysis <= Nat.min (List.length trades_df) 4)%nat)
  /\ (forall rr_analysis,
         PatternAnalyzer.analyze_risk_reward_patterns trades_df = Ok rr_analysis ->
         (List.length rr_analysis <= Nat.min (List.length trades_df) 4)%nat).
Proof.
  split.
  - intros size_analysis.
    unfold PatternAnalyzer.analyze_position_size_impact. cbv zeta.
    destruct (Nat.ltb_spec (List.length trades_df) 4) as [Hlt|Hge].
    + destruct (Pd.qcut _ _ _ _) as [c|e] eqn:E; [|discriminate].
      unfold bind. cbv beta iota. intros H. apply Ok_inj in H. subst.
      apply qcut_categories in E; [|apply length_use_labels].
      etransitivity; [apply (length_fold_set_nil fst snd)|].
      rewrite length_map.
      etransitivity; [apply length_groupby_categorical|]. lia.
    + destruct (Pd.qcut _ _ _ _) as [c|e] eqn:E; [|discriminate].
      unfold bind. cbv beta iota. intros H. apply Ok_inj in H. subst.
      apply qcut_categories in E; [|apply length_use_labels].
      etransitivity; [apply (length_fold_set_nil fst snd)|].
      rewrite length_map.
      etransitivity; [apply length_groupby_categorical|]. lia.
  - intros rr_analysis.
    unfold PatternAnalyzer.analyze_risk_reward_patterns. cbv zeta.
    destruct (Nat.ltb_spec (List.length trades_df) 4) as [Hlt|Hge].
    + destruct (Pd.qcut _ _ _ _) as [c|e] eqn:E; [|discriminate].
      unfold bind. cbv beta iota. intros H. apply Ok_inj in H. subst.
      apply qcut_categories in E; [|apply length_format_labels].
      etransitivity;
        [apply (length_fold_set_nil
                  (fun g : Pd.Interval * RiskReward.t =>
                     (Py.format_f 2 (Pd.left (fst g)) ++ "-"
                      ++ Py.format_f 2 (Pd.right (fst g)))%string)
                  snd)|].
      rewrite length_map.
      etransitivity; [apply length_groupby_categorical|]. lia.
    + destruct (Pd.qcut _ _ _ _) as [c|e] eqn:E; [|discriminate].
      unfold bind. cbv beta iota. intros H. apply Ok_inj in H. subst.
      apply qcut_categories in E; [|apply length_format_labels].
      etransitivity;
        [apply (length_fold_set_nil
                  (fun g : Pd.Interval * RiskReward.t =>
                     (Py.format_f 2 (Pd.left (fst g)) ++ "-"
                      ++ Py.format_f 2 (Pd.right (fst g)))%string)
                  snd)|].
      rewrite length_map.
      etransitivity; [apply length_groupby_categorical|]. lia.
Qed.

(* ===================================================================== *)
(** * Behavior analyzer: further degenerate inputs *)
(* ===================================================================== *)

Lemma groupby_keys_subset {K A} (eqb ltb : K -> K -> bool) (key : A -> K)
    (rows : list A) (k : K) (g : list A) (x : A) :
  In (k, g) (Pd.groupby_keys eqb ltb key rows) -> In x g -> In x rows.
Proof.
  unfold Pd.groupby_keys. intros H Hx.
  apply in_map_iff in H. destruct H as (k' & [= <- <-] & _).
  apply filter_In in Hx. tauto.
Qed.

Lemma sum_zeros (l : list Z) :
  (forall x, In x l -> x = 0%Z) -> fold_right Z.add 0%Z l = 0%Z.
Proof.
  induction l as [|x l IH]; intros H; cbn; [reflexivity|].
  rewrite (H x (or_introl eq_refl)), IH; [reflexivity|].
  intros y Hy. apply H. now right.
Qed.

Lemma filter_positive_zeros (l : list Z) :
  (forall x, In x l -> x = 0%Z) -> filter (fun n => (0 <? n)%Z) l = [].
Proof.
  induction l as [|x l IH]; intros H; cbn; [reflexivity|].
  rewrite (H x (or_introl eq_refl)). cbn.
  apply IH. intros y Hy. apply H. now right.
Qed.

(** X5.  When every trade is a win there is no loss streak at all, and
    [calculate_loss_recovery_rate] returns NaN. *)
Theorem loss_recovery_rate_all_wins (trades_df : DataFrame) :
  (forall r : Row, In r trades_df -> status r = "win") ->
  BehaviorAnalyzer.calculate_loss_recovery_rate trades_df = NaN.
Proof.
  intros Hwin.
  unfold BehaviorAnalyzer.calculate_loss_recovery_rate,
    BehaviorAnalyzer.groupby_sum.
  rewrite filter_positive_zeros; [reflexivity|].
  intros n Hn. apply in_map_iff in Hn. destruct Hn as ([k g] & <- & Hg).
  cbn [snd]. apply sum_zeros.
  intros v Hv. apply in_map_iff in Hv. destruct Hv as ([k' v'] & <- & Hin).
  apply (groupby_keys_subset _ _ _ _ _ _ _ Hg) in Hin.
  apply in_combine_r in Hin. apply in_map_iff in Hin.
  destruct Hin as (r & <- & Hr). cbn [snd].
  now rewrite (Hwin r Hr).
Qed.

Lemma loss_recovery_rate_all_wins_witness :
  BehaviorAnalyzer.calculate_loss_recovery_rate [Helpers.derive one_win] = NaN.
Proof.
  apply (loss_recovery_rate_all_wins [Helpers.derive one_win]).
  intros r [<-|[]]. reflexivity.
Defined.

(** X6.  With fewer than two rows the standard deviation is missing and
    the Sharpe ratio is NaN. *)
Theorem sharpe_ratio_single_row (trades_df : DataFrame) :
  (List.length trades_df <= 1)%nat ->
  BehaviorAnalyzer.calculate_sharpe_ratio trades_df = NaN.
Proof.
  intros H. rewrite sharpe_closed_form. cbv zeta. rewrite length_map.
  now rewrite (proj2 (Nat.leb_le _ _) H).
Qed.

Lemma sharpe_ratio_single_row_witness :
  BehaviorAnalyzer.calculate_sharpe_ratio [Helpers.derive one_win] = NaN.
Proof.
  apply (sharpe_ratio_single_row [Helpers.derive one_win]).
  cbn. lia.
Defined.

Lemma bucket_count_bounded_witness :
  exists size_analysis rr_analysis,
    PatternAnalyzer.analyze_position_size_impact
      (Helpers.sort_values_date (map Helpers.derive four_trades))
    = Ok size_analysis
    /\ PatternAnalyzer.analyze_risk_reward_patterns
         (Helpers.sort_values_date (map Helpers.derive four_trades))
       = Ok rr_analysis
    /\ (List.length size_analysis <= 4)%nat
    /\ (List.length rr_analysis <= 4)%nat.
Proof.
  destruct (PatternAnalyzer.analyze_position_size_impact
              (Helpers.sort_values_date (map Helpers.derive four_trades)))
    as [size_analysis|e] eqn:E1; [|vm_compute in E1; discriminate].
  destruct (PatternAnalyzer.analyze_risk_reward_patterns
              (Helpers.sort_values_date (map Helpers.derive four_trades)))
    as [rr_analysis|e] eqn:E2; [|vm_compute in E2; discriminate].
  exists size_analysis, rr_analysis.
  split; [reflexivity|]. split; [reflexivity|].
  destruct (bucket_count_bounded
              (Helpers.sort_values_date (map Helpers.derive four_trades)))
    as [H1 H2].
  split; [exact (H1 _ E1)|exact (H2 _ E2)].
Defined.

(* ===================================================================== *)
(** * Pattern analyzer: the sample file *)
(* ===================================================================== *)

(** On the three trades of the sample file
    [analyze_pair_direction_bias] reports, with the pair names as they are
    in the input: AUD/USD short 0.0, EUR/AUD short 0.0, USD/JPY long 1.0. *)
Theorem pair_direction_bias_on_sample :
  exists df,
    PatternAnalyzer.init (PatternAnalyzer.Many sample_trades) = Ok df
    /\ map (fun pd : string * Py.dict DirectionBias.t =>
              (fst pd,
               map (fun dm : string * DirectionBias.t =>
                      (fst dm, DirectionBias.win_rate (snd dm)))
                   (snd pd)))
           (PatternAnalyzer.analyze_pair_direction_bias df)
       = [ ("AUD/USD", [("short", Fin 0.0000)]);
           ("EUR/AUD", [("short", Fin 0.0000)]);
           ("USD/JPY", [("long", Fin 1.0000)]) ].
Proof.
  eexists. split; [reflexivity|]. vm_compute. reflexivity.
Qed.

(* ===================================================================== *)
(** * Behavior analyzer: trades per day *)
(* ===================================================================== *)

Lemma insert_sorted_perm {A} (lt : A -> A -> bool) (x : A) (l : list A) :
  Permutation (x :: l) (Py.insert_sorted lt x l).
Proof.
  induction l as [|y l IH]; cbn; [apply Permutation_refl|].
  destruct (lt x y); [apply Permutation_refl|].
  eapply perm_trans; [apply perm_swap|]. now apply perm_skip.
Qed.

Lemma sorted_perm {A} (lt : A -> A -> bool) (l : list A) :
  Permutation l (Py.sorted lt l).
Proof.
  unfold Py.sorted.
  assert (H : forall acc,
             Permutation (acc ++ l)
               (fold_left (fun acc x => Py.insert_sorted lt x acc) l acc)).
  { induction l as [|x l IH]; intros acc; cbn.
    - rewrite app_nil_r. apply Permutation_refl.
    - eapply perm_trans; [|apply IH].
      eapply perm_trans; [apply Permutation_sym, Permutation_middle|].
      apply (Permutation_app_tail l (insert_sorted_perm lt x acc)). }
  apply (H []).
Qed.

Section Dedupe.

Context {K : Type} (eqb : K -> K -> bool).
Hypothesis eqb_eq : forall a b, eqb a b = true <-> a = b.

Lemma dedupe_spec (s acc : list K) :
  NoDup acc ->
  let d := fold_left (fun acc k => if existsb (eqb k) acc then acc
                                   else acc ++ [k]) s acc in
  NoDup d /\ forall k, In k d <-> In k acc \/ In k s.
Proof.
  revert acc. induction s as [|x s IH]; intros acc Hnd; cbn.
  - split; [exact Hnd|]. tauto.
  - destruct (existsb (eqb x) acc) eqn:E.
    + destruct (IH acc Hnd) as [H1 H2]. split; [exact H1|].
      intros k. rewrite H2.
      apply existsb_exists in E. destruct E as (y & Hy & Exy).
      apply eqb_eq in Exy. subst y. intuition congruence.
    + assert (Hx : ~ In x acc).
      { intros Hin. assert (H : existsb (eqb x) acc = true)
          by (apply existsb_exists; exists x; split; [exact Hin|now apply eqb_eq]).
        congruence. }
      assert (Hnd' : NoDup (acc ++ [x])).
      { apply NoDup_app; [exact Hnd|repeat constructor; tauto|].
        intros a Ha [<-|[]]. now apply Hx. }
      destruct (IH (acc ++ [x]) Hnd') as [H1 H2]. split; [exact H1|].
      intros k. rewrite H2, in_app_iff. cbn. tauto.
Qed.

End Dedupe.

Lemma distinct_spec (s : list Z) :
  NoDup (Pd.distinct s) /\ forall k, In k (Pd.distinct s) <-> In k s.
Proof.
  destruct (dedupe_spec Z.eqb Z.eqb_eq s [] (NoDup_nil Z)) as [H1 H2].
  split; [exact H1|]. intros k. rewrite (H2 k). cbn. tauto.
Qed.

Lemma Zsum_perm (l l' : list Z) : Permutation l l' -> Zsum l = Zsum l'.
Proof.
  unfold Zsum. induction 1; cbn; lia.
Qed.

(** The groups of a duplicate-free list of keys that covers the values
    split the values: their sizes add up to the number of values. *)
Lemma partition_sizes (ks s : list Z) :
  NoDup ks -> (forall x, In x s -> In x ks) ->
  Zsum (map (fun k => Z.of_nat (List.length (filter (fun r => Z.eqb r k) s))) ks)
  = Z.of_nat (List.length s).
Proof.
  intros Hnd. induction s as [|x s IH]; intros Hcov.
  - cbn [filter List.length]. unfold Zsum. clear.
    induction ks as [|k ks IHk]; cbn; [reflexivity|exact IHk].
  - assert (Hone :
              forall ks', NoDup ks' ->
                Zsum (map (fun k =>
                             Z.of_nat (List.length (filter (fun r => Z.eqb r k) (x :: s)))) ks')
                = (Zsum (map (fun k =>
                                Z.of_nat (List.length (filter (fun r => Z.eqb r k) s))) ks')
                   + (if in_dec Z.eq_dec x ks' then 1 else 0))%Z).
    { unfold Zsum. induction ks' as [|k ks' IHk]; intros Hnd'; [reflexivity|].
      inversion Hnd' as [|? ? Hk Hnd'']; subst.
      cbn [map fold_right]. rewrite (IHk Hnd''). cbn [filter].
      destruct (Z.eqb_spec x k) as [->|Hne].
      - cbn [List.length]. rewrite Nat2Z.inj_succ.
        destruct (in_dec Z.eq_dec k (k :: ks')) as [_|H]; [|elim H; now left].
        destruct (in_dec Z.eq_dec k ks'); [contradiction|lia].
      - destruct (in_dec Z.eq_dec x (k :: ks')) as [[E|H]|H];
          destruct (in_dec Z.eq_dec x ks') as [H'|H'];
          try congruence; try lia; try contradiction.
        elim H. now right. }
    rewrite (Hone ks Hnd), IH by (intros y Hy; apply Hcov; now right).
    destruct (in_dec Z.eq_dec x ks) as [_|H]; [|elim H; apply Hcov; now left].
    cbn [List.length]. lia.
Qed.

Lemma groupby_size_spec (keys : list Z) :
  Zsum (Pd.groupby_size keys) = Z.of_nat (List.length keys)
  /\ Forall (fun c => (1 <= c)%Z) (Pd.groupby_size keys)
  /\ (List.length (Pd.groupby_size keys) <= List.length keys)%nat.
Proof.
  unfold Pd.groupby_size, Pd.groupby_keys. rewrite map_id, map_map. cbn [snd].
  change (fold_left _ keys []) with (Pd.distinct keys).
  destruct (distinct_spec keys) as [Hnd Hin].
  pose proof (sorted_perm Z.ltb (Pd.distinct keys)) as HP.
  split; [|split].
  - rewrite <- (Zsum_perm _ _ (Permutation_map _ HP)).
    apply partition_sizes; [exact Hnd|]. intros x Hx. now apply Hin.
  - apply Forall_forall. intros c Hc. apply in_map_iff in Hc.
    destruct Hc as (k & <- & Hk).
    apply (Permutation_in _ (Permutation_sym HP)) in Hk. apply Hin in Hk.
    assert (H : In k (filter (fun r => Z.eqb r k) keys))
      by (apply filter_In; split; [exact Hk|apply Z.eqb_refl]).
    destruct (filter _ keys); [destruct H|]. cbn [List.length]. lia.
  - rewrite length_map, <- (Permutation_length HP).
    apply NoDup_incl_length; [exact Hnd|]. intros x Hx. now apply Hin.
Qed.

(** X8.  The per-day counts behind [detect_overtrading] are positive and
    add up to the number of trades, and there are no more days than
    trades. *)
Theorem trades_per_day_partition (trades_df : DataFrame) :
  let per_day := BehaviorAnalyzer.trades_per_day trades_df in
  Zsum per_day = Z.of_nat (List.length trades_df)
  /\ Forall (fun c => (1 <= c)%Z) per_day
  /\ (List.length per_day <= List.length trades_df)%nat.
Proof.
  cbv zeta. unfold BehaviorAnalyzer.trades_per_day.
  set (keys := map (fun r : Row => BehaviorAnalyzer.calendar_day (date r))
                   trades_df).
  destruct (groupby_size_spec keys) as (Hsum & Hpos & Hlen).
  assert (Hk : List.length keys = List.length trades_df)
    by (unfold keys; apply length_map).
  rewrite Hk in Hsum, Hlen.
  split; [exact Hsum|]. split; [exact Hpos|exact Hlen].
Qed.

(** X9.  When every trade of a non-empty table falls on the same calendar
    day, [detect_overtrading] reports that day's count n as the maximum
    and as the average, no day with excessive trading (the standard
    deviation of a single count is missing), and the distribution
    {n: 1}. *)
Theorem overtrading_single_day (trades_df : DataFrame) :
  trades_df <> [] ->
  (forall r r' : Row,
      In r trades_df -> In r' trades_df ->
      BehaviorAnalyzer.calendar_day (date r)
      = BehaviorAnalyzer.calendar_day (date r')) ->
  let o := BehaviorAnalyzer.detect_overtrading trades_df in
  let n := Z.of_nat (List.length trades_df) in
  (exists q, Overtrading.avg_trades_per_day o = Fin q /\ q == inject_Z n)
  /\ Overtrading.max_trades_per_day o = Fin (inject_Z n)
  /\ Overtrading.days_with_excessive_trading o = 0%nat
  /\ Overtrading.trading_frequency_distribution o = [(n, 1%Z)].
Proof.
  intros Hne Hday. cbv zeta.
  destruct trades_df as [|r0 df] eqn:Edf; [congruence|]. rewrite <- Edf in *.
  assert (Hper : BehaviorAnalyzer.trades_per_day trades_df
                 = [Z.of_nat (List.length trades_df)]).
  { unfold BehaviorAnalyzer.trades_per_day, Pd.groupby_size.
    rewrite (groupby_keys_constant Z.eqb Z.ltb (fun k => k)
               (BehaviorAnalyzer.calendar_day (date r0)) (Z.eqb_refl _)).
    - cbn [map snd]. now rewrite length_map.
    - rewrite Edf. discriminate.
    - intros k Hk. apply in_map_iff in Hk. destruct Hk as (r & <- & Hr).
      apply Hday; [exact Hr|]. rewrite Edf. now left. }
  unfold BehaviorAnalyzer.detect_overtrading. rewrite Hper.
  set (n := Z.of_nat (List.length trades_df)).
  cbn [Overtrading.avg_trades_per_day Overtrading.max_trades_per_day
       Overtrading.days_with_excessive_trading
       Overtrading.trading_frequency_distribution map].
  split; [|split; [|split]].
  - change [X.of_Z n] with (map (@Fin Q) [inject_Z n]). rewrite mean_finite.
    eexists. split; [reflexivity|]. cbn [Qsum fold_right List.length].
    change (inject_Z (Z.of_nat 1)) with 1. field.
  - reflexivity.
  - reflexivity.
  - unfold Pd.value_counts, Pd.distinct, Pd.occurrences.
    cbn [fold_left existsb app map filter]. rewrite Z.eqb_refl. reflexivity.
Qed.

Lemma overtrading_single_day_witness :
  Overtrading.trading_frequency_distribution
    (BehaviorAnalyzer.detect_overtrading
       (Helpers.sort_values_date (map Helpers.derive four_trades)))
  = [(4%Z, 1%Z)].
Proof.
  refine (proj2 (proj2 (proj2
            (overtrading_single_day
               (Helpers.sort_values_date (map Helpers.derive four_trades))
               _ _)))).
  - discriminate.
  - intros r r' Hr Hr'. cbn in Hr, Hr'.
    destruct Hr as [<-|[<-|[<-|[<-|[]]]]];
      destruct Hr' as [<-|[<-|[<-|[<-|[]]]]]; reflexivity.
Defined.

(* ===================================================================== *)
(** * Behavior analyzer: the insight lines *)
(* ===================================================================== *)

Lemma rint_proper (q q' : Q) : q == q' -> Py.rint q = Py.rint q'.
Proof.
  intros H. unfold Py.rint. rewrite (Qfloor_comp _ _ H).
  assert (Hc : Qcompare (q - inject_Z (Qfloor q')) (1 # 2)
               = Qcompare (q' - inject_Z (Qfloor q')) (1 # 2))
    by (now rewrite H).
  now rewrite Hc.
Qed.

Lemma format_f_proper (d : nat) (q q' : Q) :
  q == q' -> Py.format_f d (Fin q) = Py.format_f d (Fin q').
Proof.
  intros H. unfold Py.format_f.
  assert (Hr : Py.rint (Qabs q * inject_Z (Py.pow10 d))
               = Py.rint (Qabs q' * inject_Z (Py.pow10 d)))
    by (apply rint_proper; now rewrite H).
  rewrite Hr.
  destruct (Qlt_le_dec q 0) as [L|L], (Qlt_le_dec q' 0) as [L'|L'];
    try reflexivity; exfalso; rewrite H in L;
    [apply (Qlt_irrefl 0), (Qle_lt_trans _ q') | apply (Qlt_irrefl 0), (Qle_lt_trans _ q')];
    assumption.
Qed.

Lemma nanstd_single (x : xnum) : Pd.nanstd [x] = NaN.
Proof.
  unfold Pd.nanstd, Pd.nanvar, Pd.count, Pd.dropna. cbn [filter].
  destruct (negb (X.isna x)); reflexivity.
Qed.

Lemma trades_per_day_single (r : Row) :
  BehaviorAnalyzer.trades_per_day [r] = [1%Z].
Proof.
  unfold BehaviorAnalyzer.trades_per_day, Pd.groupby_size.
  cbn. rewrite Z.eqb_refl. reflexivity.
Qed.

Lemma revenge_single (r : Row) :
  RevengeTrading.quick_trades_after_losses
    (BehaviorAnalyzer.detect_revenge_trading [r]) = 0%nat.
Proof.
  cbn. unfold BehaviorAnalyzer.quick_after_loss. cbn [fst snd].
  rewrite Bool.andb_false_r. reflexivity.
Qed.

Lemma risk_consistency_single (r : Row) :
  BehaviorAnalyzer.analyze_risk_management_consistency [r]
  = {| RiskConsistency.position_size_consistency := NaN;
       RiskConsistency.stop_loss_consistency := NaN;
       RiskConsistency.risk_per_trade_consistency := NaN |}.
Proof.
  unfold BehaviorAnalyzer.analyze_risk_management_consistency, column.
  cbn [map]. now rewrite !nanstd_single.
Qed.

(** The lines of [get_behavior_insights], section by section. *)
Lemma behavior_insights_shape (trades_df : DataFrame) :
  let overtrading := BehaviorAnalyzer.detect_overtrading trades_df in
  let revenge := BehaviorAnalyzer.detect_revenge_trading trades_df in
  let risk := BehaviorAnalyzer.analyze_risk_management_consistency trades_df in
  BehaviorAnalyzer.get_behavior_insights trades_df
  = [("On average, you make "
      ++ Py.format_f 2 (Overtrading.avg_trades_per_day overtrading)
      ++ " trades per day, with a maximum of "
      ++ Py.str_count (Overtrading.max_trades_per_day overtrading)
      ++ " trades in a single day.")%string]
    ++ (if (0 <? Overtrading.days_with_excessive_trading overtrading)%nat
        then [("There were "
               ++ Py.str_int
                    (Z.of_nat (Overtrading.days_with_excessive_trading overtrading))
               ++ " days with excessive trading, which might indicate overtrading tendencies.")%string]
        else [])
    ++ (if (0 <? RevengeTrading.quick_trades_after_losses revenge)%nat
        then [("You made "
               ++ Py.str_int
                    (Z.of_nat (RevengeTrading.quick_trades_after_losses revenge))
               ++ " quick trades after losses, which could be signs of revenge trading.")%string;
              ("The success rate of these quick trades is "
               ++ Py.format_pct 2
                    (RevengeTrading.quick_trades_after_losses_success_rate revenge)
               ++ ", with an average PNL of "
               ++ Py.format_f 2 (RevengeTrading.avg_pnl_after_quick_trade revenge)
               ++ ".")%string]
        else [])
    ++ [if XR.gtb (RiskConsistency.position_size_consistency risk) (5 / 10)%R
        then "Your position sizes vary considerably, which might indicate inconsistent risk management."
        else "Your position sizes are relatively consistent, showing good risk management practices."]
    ++ (if XR.ltb (RiskConsistency.stop_loss_consistency risk) (1 / 100)%R
        then ["Your stop loss placements are very consistent, which is a positive risk management practice."]
        else if XR.gtb (RiskConsistency.stop_loss_consistency risk) (5 / 100)%R
        then ["Your stop loss placements vary significantly, which could lead to inconsistent risk exposure."]
        else [])
    ++ (if XR.ltb (RiskConsistency.risk_per_trade_consistency risk) (1 / 100)%R
        then ["Your risk per trade is very consistent, indicating disciplined risk management."]
        else if XR.gtb (RiskConsistency.risk_per_trade_consistency risk) (5 / 100)%R
        then ["Your risk per trade varies considerably, which might lead to inconsistent overall risk exposure."]
        else []).
Proof.
  unfold BehaviorAnalyzer.get_behavior_insights.
  generalize (BehaviorAnalyzer.detect_overtrading trades_df) as o.
  generalize (BehaviorAnalyzer.detect_revenge_trading trades_df) as rv.
  generalize (BehaviorAnalyzer.analyze_risk_management_consistency trades_df) as rk.
  intros rk rv o. cbv zeta.
  generalize (0 <? Overtrading.days_with_excessive_trading o)%nat,
    (0 <? RevengeTrading.quick_trades_after_losses rv)%nat,
    (XR.gtb (RiskConsistency.position_size_consistency rk) (5 / 10)),
    (XR.ltb (RiskConsistency.stop_loss_consistency rk) (1 / 100)),
    (XR.gtb (RiskConsistency.stop_loss_consistency rk) (5 / 100)),
    (XR.ltb (RiskConsistency.risk_per_trade_consistency rk) (1 / 100)),
    (XR.gtb (RiskConsistency.risk_per_trade_consistency rk) (5 / 100)).
  repeat match goal with
         | |- context [@cons string ?s _] =>
             lazymatch s with
             | _ => is_var s; fail 1
             | _ => generalize s; intro
             end
         end.
  intros [] [] [] [] [] [] []; reflexivity.
Qed.

(** When a trade is flagged, the success rate behind the revenge lines
    is a finite zero. *)
Lemma revenge_rate_when_flagged (trades_df : DataFrame) :
  (0 < RevengeTrading.quick_trades_after_losses
         (BehaviorAnalyzer.detect_revenge_trading trades_df))%nat ->
  exists q,
    RevengeTrading.quick_trades_after_losses_success_rate
      (BehaviorAnalyzer.detect_revenge_trading trades_df) = Fin q
    /\ q == 0.
Proof.
  cbn. rewrite mean_bool_finite.
  match goal with |- context [map ?f (Pd.shift_m1 ?l)] =>
    set (bs := map f (Pd.shift_m1 l));
    assert (Hbs : forall b, In b bs -> b = false)
  end.
  { intros b Hb. apply in_map_iff in Hb.
    destruct Hb as ([s|] & <- & Hs); [|reflexivity].
    apply shift_m1_In in Hs. apply in_map_iff in Hs. destruct Hs as (r & <- & Hr).
    now rewrite (quick_rows_are_losses _ _ Hr). }
  intros Hpos.
  destruct bs as [|b bs'] eqn:E.
  - exfalso. subst bs.
    match type of Hpos with
    | (0 < List.length (map fst ?l))%nat => destruct l as [|x l']
    end; [cbn in Hpos; lia|].
    cbn in E. destruct (map _ l'); discriminate.
  - eexists. split; [reflexivity|].
    rewrite (Qsum_all_false _ Hbs). reflexivity.
Qed.

(** X10.  For a table of one trade [get_behavior_insights] returns
    exactly two lines, whatever the trade: one trade a day on average and
    at most, and "relatively consistent" position sizes, because every
    standard deviation of a single value is missing and no comparison
    with a missing value holds. *)
Theorem behavior_insights_single_trade (r : Row) :
  BehaviorAnalyzer.get_behavior_insights [r]
  = ["On average, you make 1.00 trades per day, with a maximum of 1 trades in a single day.";
     "Your position sizes are relatively consistent, showing good risk management practices."].
Proof.
  rewrite behavior_insights_shape. cbv zeta.
  rewrite revenge_single, risk_consistency_single.
  unfold BehaviorAnalyzer.detect_overtrading.
  rewrite trades_per_day_single. reflexivity.
Qed.

(** X11.  Whenever [get_behavior_insights] reports quick trades after
    losses, the line that follows gives their success rate as 0.00%:
    the rows it looks at are all losses. *)
Theorem behavior_insights_revenge_success_is_zero (trades_df : DataFrame) :
  (0 < RevengeTrading.quick_trades_after_losses
         (BehaviorAnalyzer.detect_revenge_trading trades_df))%nat ->
  In ("The success rate of these quick trades is 0.00%, with an average PNL of "
      ++ Py.format_f 2
           (RevengeTrading.avg_pnl_after_quick_trade
              (BehaviorAnalyzer.detect_revenge_trading trades_df))
      ++ ".")%string
     (BehaviorAnalyzer.get_behavior_insights trades_df).
Proof.
  intros Hpos. rewrite behavior_insights_shape. cbv zeta.
  destruct (revenge_rate_when_flagged trades_df Hpos) as (q & Hq & Hz).
  apply Nat.ltb_lt in Hpos. rewrite Hpos, Hq.
  assert (Hpct : Py.format_pct 2 (Fin q) = "0.00%"%string).
  { unfold Py.format_pct. cbn [X.mul].
    rewrite (format_f_proper 2 _ 0); [reflexivity|].
    rewrite Hz. reflexivity. }
  rewrite Hpct.
  apply in_or_app. right. apply in_or_app. right. apply in_or_app. left.
  right. left. reflexivity.
Qed.

Lemma behavior_insights_revenge_success_is_zero_witness :
  In "The success rate of these quick trades is 0.00%, with an average PNL of nan."
     (BehaviorAnalyzer.get_behavior_insights
        (Helpers.sort_values_date (map Helpers.derive revenge_trades))).
Proof.
  apply (behavior_insights_revenge_success_is_zero
           (Helpers.sort_values_date (map Helpers.derive revenge_trades))).
  vm_compute. lia.
Defined.

(** X12.  For a table of one trade [get_key_insights] reads: 1 trades, a
    win rate of 100.00% or 0.00%, the trade's netPNL, a Sharpe ratio of
    nan and a high risk level. *)
Theorem key_insights_single_trade (r : Row) :
  BehaviorAnalyzer.get_key_insights [r]
  = ("Over 1 trades, you achieved a "
     ++ (if String.eqb (status r) "win" then "100.00%" else "0.00%")
     ++ " win rate with a total PNL of " ++ Py.format_f 2 (Fin (netPNL r))
     ++ ". Your trading strategy shows a Sharpe ratio of nan, indicating a high risk level.")%string.
Proof.
  unfold BehaviorAnalyzer.get_key_insights, BehaviorAnalyzer.determine_risk_level.
  cbv zeta.
  assert (Hs : BehaviorAnalyzer.calculate_sharpe_ratio [r] = NaN)
    by (rewrite sharpe_closed_form; reflexivity).
  rewrite Hs. cbn [XR.gtb andb XR.format_f BehaviorAnalyzer.risk_level_lower].
  assert (Hp : Py.format_f 2 (Pd.sum (column netPNL [r]))
               = Py.format_f 2 (Fin (netPNL r))).
  { unfold Pd.sum, column. cbn [map Pd.dropna filter X.isna negb fold_right X.add].
    apply format_f_proper. ring. }
  rewrite Hp.
  unfold win_mean. cbn [map].
  destruct (String.eqb (status r) "win"); reflexivity.
Qed.

(* ===================================================================== *)
(** * Pattern analyzer: a risk/reward ratio of zero *)
(* ===================================================================== *)

Lemma sort_leb_Fin (a b : Q) : X.sort_leb (Fin a) (Fin b) = true <-> a <= b.
Proof.
  unfold X.sort_leb, X.leb, X.cmp.
  destruct (Qcompare_spec a b) as [H|H|H]; split; intros H'; try reflexivity;
    try discriminate.
  - rewrite H. apply Qle_refl.
  - now apply Qlt_le_weak.
  - exfalso. apply (Qlt_not_le _ _ H H').
Qed.

Lemma insert_value_nonneg (x : xnum) (s : list xnum) :
  finite_nonneg x -> Forall finite_nonneg s ->
  Forall finite_nonneg (Pd.insert_value x s).
Proof.
  intros Hx. induction 1 as [|y s Hy Hs IH]; cbn; [now constructor|].
  destruct (X.sort_leb x y); repeat constructor; assumption.
Qed.

Lemma insert_value_head (x : xnum) (s : list xnum) :
  finite_nonneg x -> Forall finite_nonneg s ->
  finite_zero x \/ (exists h t, s = h :: t /\ finite_zero h) ->
  exists h t, Pd.insert_value x s = h :: t /\ finite_zero h.
Proof.
  intros Hx Hs Hz. destruct s as [|y s]; cbn.
  - destruct Hz as [Hz|(h & t & E & _)]; [|discriminate]. now exists x, [].
  - inversion Hs as [|? ? Hy _]; subst.
    destruct Hx as (qx & -> & Hqx), Hy as (qy & -> & Hqy).
    destruct (X.sort_leb (Fin qx) (Fin qy)) eqn:E.
    + exists (Fin qx), (Fin qy :: s). split; [reflexivity|].
      destruct Hz as [Hz|(h & t & [= <- <-] & (q & [= <-] & Hq))]; [exact Hz|].
      exists qx. split; [reflexivity|]. apply sort_leb_Fin in E.
      apply Qle_antisym; [now rewrite <- Hq|exact Hqx].
    + exists (Fin qy), (Pd.insert_value (Fin qx) s). split; [reflexivity|].
      destruct Hz as [(q & [= <-] & Hq)|(h & t & [= <- <-] & Hh)]; [|exact Hh].
      exfalso. assert (H : X.sort_leb (Fin qx) (Fin qy) = true); [|congruence].
      apply sort_leb_Fin. now rewrite Hq.
Qed.

Lemma sort_values_zero_min (l : list xnum) :
  Forall finite_nonneg l ->
  Forall finite_nonneg (Pd.sort_values l)
  /\ (Exists finite_zero l -> exists h t, Pd.sort_values l = h :: t /\ finite_zero h).
Proof.
  induction 1 as [|x l Hx Hl [IH1 IH2]]; cbn.
  - split; [constructor|]. intros H. inversion H.
  - split; [now apply insert_value_nonneg|].
    intros H. apply insert_value_head; try assumption.
    inversion H; subst; [now left|right; now apply IH2].
Qed.

Lemma dropna_nonneg (l : list xnum) : Forall finite_nonneg l -> Pd.dropna l = l.
Proof.
  unfold Pd.dropna. induction 1 as [|x l (q & -> & _) Hl IH]; cbn; [reflexivity|].
  now rewrite IH.
Qed.

Lemma percentile_zero_min (arr : list xnum) (h : xnum) (t : list xnum) (p : Q) :
  arr = h :: t -> finite_zero h -> Forall finite_nonneg arr -> p == 0 ->
  finite_zero (Pd.percentile arr p).
Proof.
  intros -> (qh & -> & Hqh) Hnn Hp. unfold Pd.percentile. cbv zeta.
  match goal with |- context [Z.of_nat ?L] => set (n := Z.of_nat L) end.
  assert (Hvi : p * inject_Z (n - 1) == 0) by (rewrite Hp; ring).
  destruct (Qle_bool (inject_Z (n - 1)) (p * inject_Z (n - 1))) eqn:E.
  - apply Qle_bool_iff in E. rewrite Hvi in E.
    assert (Hn : (n - 1 <= 0)%Z) by (now rewrite Zle_Qle).
    destruct t as [|b t]; [|exfalso; subst n; cbn [List.length] in Hn; lia].
    cbn [last]. unfold Pd.lerp.
    assert (E2 : Qle_bool (1 # 2) (p * inject_Z (n - 1) + 1) = true).
    { apply Qle_bool_iff. rewrite Hvi. discriminate. }
    rewrite E2. cbn [X.add X.mul X.sub X.opp]. eexists. split; [reflexivity|]. rewrite Hqh. ring.
  - assert (Hlt : ~ inject_Z (n - 1) <= p * inject_Z (n - 1))
      by (intros H; apply Qle_bool_iff in H; congruence).
    rewrite Hvi in Hlt.
    assert (Hfl : Qfloor (p * inject_Z (n - 1)) = 0%Z).
    { rewrite (Qfloor_comp _ _ Hvi). reflexivity. }
    rewrite Hfl. cbn [Z.to_nat Z.add nth Pos.to_nat Pos.iter_op Nat.add].
    destruct t as [|b t].
    { exfalso. apply Hlt. discriminate. }
    inversion Hnn as [|? ? _ Hnn']; subst. inversion Hnn' as [|? ? (qb & -> & _) _]; subst.
    change (nth (Z.to_nat (0 + 1)) (Fin qh :: Fin qb :: t) NaN) with (Fin qb).
    unfold Pd.lerp.
    assert (E2 : Qle_bool (1 # 2) (p * inject_Z (n - 1) - inject_Z 0) = false).
    { apply not_true_is_false. intros E3.
      apply Qle_bool_iff in E3. rewrite Hvi in E3. now apply E3. }
    rewrite E2. cbn [X.add X.mul X.sub X.opp]. eexists. split; [reflexivity|].
    rewrite Hqh, Hvi. change (inject_Z 0) with 0. ring.
Qed.

Lemma quantile_zero_min (s : list xnum) (q : nat) :
  Forall finite_nonneg s -> Exists finite_zero s ->
  exists b0 rest, Pd.quantile s (Pd.linspace01 q) = b0 :: rest /\ finite_zero b0.
Proof.
  intros Hnn Hz. unfold Pd.quantile, Pd.linspace01.
  rewrite (dropna_nonneg _ Hnn), Nat.add_1_r. cbn [seq map].
  destruct (sort_values_zero_min s Hnn) as [Hs Hh].
  destruct (Hh Hz) as (h & t & E & Hzh).
  eexists _, _. split; [reflexivity|].
  apply (percentile_zero_min _ h t); try assumption.
  change (inject_Z (Z.of_nat 0)) with 0. unfold Qdiv. ring.
Qed.

Lemma infer_precision_bounds (bins : list xnum) :
  (3 <= Pd.infer_precision 3 bins <= 19)%nat.
Proof.
  unfold Pd.infer_precision.
  destruct (find _ _) as [p|] eqn:E; [|lia].
  apply find_some in E. destruct E as [E _]. apply in_seq in E. lia.
Qed.

Lemma format_small_negative (p : nat) (z : Q) :
  (3 <= p <= 19)%nat -> z == 0 ->
  Py.format_f 2 (Fin (z + - (1 / inject_Z (Py.pow10 p)))) = "-0.00"%string.
Proof.
  intros Hp Hz.
  rewrite (format_f_proper 2 _ (0 + - (1 / inject_Z (Py.pow10 p))))
    by (rewrite Hz; reflexivity).
  assert (H : In p (seq 3 17)) by (apply in_seq; lia).
  cbn [seq In] in H.
  repeat (destruct H as [<-|H]; [vm_compute; reflexivity|]).
  destruct H.
Qed.

Lemma from_breaks_cons (l r : xnum) (rest : list xnum) :
  Pd.from_breaks (l :: r :: rest)
  = if xorb (X.isna l) (X.isna r) then
      Raise (ValueError "missing values must be missing in the same location both left and right sides")
    else if X.gtb l r then
      Raise (ValueError "left side of interval must be <= right side")
    else
      bind (Pd.from_breaks (r :: rest))
           (fun tl => Ok ({| Pd.left := l; Pd.right := r |} :: tl)).
Proof. reflexivity. Qed.

Lemma format_labels_first (z : Q) (rest : list xnum) :
  z == 0 ->
  match Pd.format_labels (Fin z :: rest) with
  | Ok (i :: _) => Py.format_f 2 (Pd.left i) = "-0.00"%string
  | _ => True
  end.
Proof.
  intros Hz0. unfold Pd.format_labels. cbv zeta.
  set (p := Pd.infer_precision 3 (Fin z :: rest)).
  pose proof (infer_precision_bounds (Fin z :: rest)) as Hp. fold p in Hp.
  cbn [map]. unfold Pd.round_frac at 1.
  assert (Hz0' : Qeq_bool z 0 = true) by now apply Qeq_bool_iff.
  rewrite Hz0'. cbn [X.sub X.add X.opp].
  destruct (map (Pd.round_frac p) rest) as [|r rs]; [exact I|].
  rewrite from_breaks_cons. destruct (xorb _ _); [exact I|].
  destruct (X.gtb _ _); [exact I|].
  destruct (Pd.from_breaks (r :: rs)) as [tl|e]; [|exact I].
  cbn [bind]. destruct (existsb _ _); [exact I|].
  cbn [Pd.left]. now apply format_small_negative.
Qed.

(** The first category of a [qcut] with interval labels when the smallest
    value is zero: its left edge lies just below zero. *)
Lemma qcut_first_interval (x : list xnum) (q : nat) (dup : Pd.duplicates)
    (c : Pd.Categorical Pd.Interval) :
  Forall finite_nonneg x -> Exists finite_zero x ->
  Pd.qcut x q Pd.format_labels dup = Ok c ->
  match Pd.categories c with
  | i :: _ => Py.format_f 2 (Pd.left i) = "-0.00"%string
  | [] => True
  end.
Proof.
  intros Hnn Hz. unfold Pd.qcut. cbv zeta.
  destruct (quantile_zero_min x q Hnn Hz) as (b0 & rest & -> & (z & -> & Hz0)).
  unfold Pd.bins_to_cuts. cbv zeta.
  assert (Hfin :
            forall rest',
              bind (Pd.format_labels (Fin z :: rest'))
                   (fun labels =>
                      Ok {| Pd.codes :=
                              map (fun vi : xnum * nat =>
                                     if X.isna (fst vi)
                                        || (snd vi =? List.length (Fin z :: rest'))%nat
                                        || (snd vi =? 0)%nat
                                     then None else Some (snd vi - 1)%nat)
                                  (combine x
                                     (map (fun v =>
                                             if X.eqb v (hd NaN (Fin z :: rest'))
                                             then 1%nat
                                             else Pd.searchsorted_left
                                                    (Fin z :: rest') v) x));
                            Pd.categories := labels |}) = Ok c ->
              match Pd.categories c with
              | i :: _ => Py.format_f 2 (Pd.left i) = "-0.00"%string
              | [] => True
              end).
  { intros rest'. pose proof (format_labels_first z rest' Hz0) as H.
    destruct (Pd.format_labels (Fin z :: rest')) as [[|i l]|e];
      cbn [bind]; intros E; try discriminate; apply Ok_inj in E; subst c;
      cbn [Pd.categories]; [exact I|exact H]. }
  destruct (_ && _).
  - destruct dup; [discriminate|].
    change (Pd.unique (Fin z :: rest)) with (Fin z :: Pd.unique_from [Fin z] rest).
    apply Hfin.
  - apply Hfin.
Qed.

Lemma fold_set_hd {G V} (kf : G -> string) (vf : G -> V) (gl : list G) :
  forall (k0 : string) (v0 : V) (d : Py.dict V),
  exists v' d',
    fold_left (fun r g => Py.set r (kf g) (vf g)) gl ((k0, v0) :: d)
    = (k0, v') :: d'.
Proof.
  induction gl as [|g gl IH]; intros k0 v0 d; cbn [fold_left]; [eauto|].
  cbn [Py.set]. destruct (String.eqb (kf g) k0) eqn:E.
  - apply String.eqb_eq in E. rewrite E. apply IH.
  - apply IH.
Qed.

Lemma rr_analysis_first_key (trades_df : DataFrame) (a : Py.dict RiskReward.t) :
  Forall finite_nonneg (map rr_ratio trades_df) ->
  Exists finite_zero (map rr_ratio trades_df) ->
  PatternAnalyzer.analyze_risk_reward_patterns trades_df = Ok a ->
  match Py.keys a with
  | [] => True
  | k :: _ => exists s, k = ("-0.00-" ++ s)%string
  end.
Proof.
  intros Hnn Hz. unfold PatternAnalyzer.analyze_risk_reward_patterns. cbv zeta.
  assert (Hq : forall q dup c,
             Pd.qcut (map rr_ratio trades_df) q Pd.format_labels dup = Ok c ->
             match Pd.categories c with
             | i :: _ => Py.format_f 2 (Pd.left i) = "-0.00"%string
             | [] => True
             end)
    by (intros q dup c; now apply qcut_first_interval).
  match goal with
  | |- bind ?m _ = _ -> _ =>
      assert (Hm : forall c, m = Ok c ->
                   match Pd.categories c with
                   | i :: _ => Py.format_f 2 (Pd.left i) = "-0.00"%string
                   | [] => True
                   end)
        by (intros c; destruct (_ <? _)%nat; apply Hq);
      destruct m as [c|e]; [specialize (Hm c eq_refl)|discriminate]
  end.
  cbn [bind]. intros E. apply Ok_inj in E. subst a.
  unfold Pd.groupby_categorical, Pd.observed_default.
  destruct (Pd.categories c) as [|i rest]; [exact I|].
  cbn [List.length seq combine map fold_left Py.set].
  match goal with
  | |- match Py.keys (fold_left ?f ?gl ((?k0, ?v0) :: ?d)) with _ => _ end =>
      destruct (fold_set_hd
                  (fun g : Pd.Interval * RiskReward.t =>
                     (Py.format_f 2 (Pd.left (fst g)) ++ "-"
                      ++ Py.format_f 2 (Pd.right (fst g)))%string)
                  snd gl k0 v0 d) as (v' & d' & ->)
  end.
  cbn [Py.keys map fst snd]. rewrite Hm. eexists. reflexivity.
Qed.

Lemma sorted_by_left_edge_leading_minus (s : string) (keys : list string) :
  PatternAnalyzer.sorted_by_left_edge (("-0.00-" ++ s)%string :: keys)
  = Raise (ValueError "could not convert string to float").
Proof. reflexivity. Qed.

(** With a smallest rr_ratio of zero the first key of the risk/reward
    analysis starts with a minus sign, and the methods that sort its keys
    by [float(x.split('-')[0])] raise. *)
Lemma rr_insights_fail (trades_df : DataFrame) :
  Forall finite_nonneg (map rr_ratio trades_df) ->
  Exists finite_zero (map rr_ratio trades_df) ->
  (exists e, PatternAnalyzer.get_risk_reward_insights trades_df = Failed e)
  /\ (exists e, PatternAnalyzer.get_key_trading_insights trades_df = Raise e).
Proof.
  intros Hnn Hz.
  pose proof (rr_analysis_first_key trades_df) as Hk.
  split.
  - unfold PatternAnalyzer.get_risk_reward_insights.
    destruct (PatternAnalyzer.analyze_risk_reward_patterns trades_df) as [a|e];
      [|cbn; eauto].
    specialize (Hk a Hnn Hz eq_refl). cbn [lift obind].
    destruct (Py.keys a) as [|k ks]; [cbn; eauto|].
    destruct Hk as (s & ->). rewrite sorted_by_left_edge_leading_minus.
    cbn. eauto.
  - unfold PatternAnalyzer.get_key_trading_insights. cbv zeta.
    destruct (PatternAnalyzer.analyze_position_size_impact trades_df) as [sa|e];
      [|cbn; eauto].
    cbn [bind]. destruct (Py.max _ _) as [best|e]; [|cbn; eauto].
    cbn [bind].
    destruct (PatternAnalyzer.analyze_risk_reward_patterns trades_df) as [a|e];
      [|cbn; eauto].
    specialize (Hk a Hnn Hz eq_refl). cbn [bind].
    destruct (Py.keys a) as [|k ks]; [cbn; eauto|].
    destruct Hk as (s & ->). rewrite sorted_by_left_edge_leading_minus.
    cbn. eauto.
Qed.

Lemma Qabs_zero (x : Q) : Qabs x == 0 -> x == 0.
Proof.
  intros H. apply Qle_antisym.
  - rewrite <- H. apply Qle_Qabs.
  - assert (H1 : - x <= 0) by (rewrite <- H, <- Qabs_opp; apply Qle_Qabs).
    apply Qopp_le_compat in H1. rewrite Qopp_involutive in H1. exact H1.
Qed.

Lemma derive_rr_ratio_finite (t : Trade) :
  ~ stopLoss t == entryPrice t ->
  finite_nonneg (rr_ratio (Helpers.derive t))
  /\ (target t == entryPrice t -> finite_zero (rr_ratio (Helpers.derive t))).
Proof.
  intros Hne. unfold Helpers.derive. cbn [rr_ratio X.sub X.add X.opp X.abs X.div].
  assert (Hb : ~ Qabs (entryPrice t + - stopLoss t) == 0).
  { intros H. apply Qabs_zero in H. apply Hne. 
    rewrite <- (Qplus_0_l (stopLoss t)), <- H. ring. }
  assert (Hpos : 0 < Qabs (entryPrice t + - stopLoss t)).
  { destruct (Qle_lt_or_eq _ _ (Qabs_nonneg (entryPrice t + - stopLoss t)))
      as [H|H]; [exact H|]. elim Hb. now symmetry. }
  destruct (Qeq_bool _ 0) eqn:E; [apply Qeq_bool_iff in E; contradiction|].
  split.
  - eexists. split; [reflexivity|].
    apply Qle_shift_div_l; [exact Hpos|]. rewrite Qmult_0_l. apply Qabs_nonneg.
  - intros Ht. eexists. split; [reflexivity|].
    assert (H0 : Qabs (target t + - entryPrice t) == 0).
    { assert (H1 : target t + - entryPrice t == 0) by (rewrite Ht; ring).
      rewrite H1. reflexivity. }
    rewrite H0. unfold Qdiv. ring.
Qed.

Lemma metrics_rr_ratio (trades : list Trade) (trades_df : DataFrame) :
  Helpers.calculate_trade_metrics trades = Ok trades_df ->
  (forall t, In t trades -> ~ stopLoss t == entryPrice t) ->
  (exists t, In t trades /\ target t == entryPrice t) ->
  Forall finite_nonneg (map rr_ratio trades_df)
  /\ Exists finite_zero (map rr_ratio trades_df).
Proof.
  intros Hdf Hstop (t0 & Hin0 & Ht0).
  apply calculate_trade_metrics_inv in Hdf. destruct Hdf as [_ ->].
  pose proof (sort_values_date_perm (map Helpers.derive trades)) as HP.
  split.
  - apply Forall_map, (Permutation_Forall HP), Forall_map, Forall_forall.
    intros t Ht. now apply derive_rr_ratio_finite, Hstop.
  - apply Exists_map, (Permutation_Exists HP), Exists_map, Exists_exists.
    exists t0. split; [exact Hin0|].
    now apply derive_rr_ratio_finite; [apply Hstop|].
Qed.

(** X13.  When no trade has its stop loss on the entry price and some
    trade has its target on the entry price (a rr_ratio of 0, the smallest
    there can be), [get_risk_reward_insights] raises, and so does
    [get_all_insights]: the first bucket starts just below zero, its key
    reads "-0.00-...", and [float(key.split('-')[0])] is [float('')]. *)
Theorem risk_reward_insights_raise_on_zero_ratio
    (trades : list Trade) (trades_df : DataFrame) :
  PatternAnalyzer.init (PatternAnalyzer.Many trades) = Ok trades_df ->
  (forall t, In t trades -> ~ stopLoss t == entryPrice t) ->
  (exists t, In t trades /\ target t == entryPrice t) ->
  (exists e, PatternAnalyzer.get_risk_reward_insights trades_df = Failed e)
  /\ (exists e, PatternAnalyzer.get_all_insights trades_df = Failed e).
Proof.
  intros Hdf Hstop Hzero.
  destruct (metrics_rr_ratio trades trades_df Hdf Hstop Hzero) as [Hnn Hz].
  destruct (rr_insights_fail trades_df Hnn Hz) as [(e & He) _].
  split; [now exists e|].
  unfold PatternAnalyzer.get_all_insights.
  destruct (PatternAnalyzer.get_position_size_insights trades_df) as [ps|e'];
    [|cbn; eauto].
  cbn [obind]. rewrite He. cbn. eauto.
Qed.

Lemma risk_reward_insights_raise_on_zero_ratio_witness :
  (exists e,
      PatternAnalyzer.get_risk_reward_insights
        (Helpers.sort_values_date
           (map Helpers.derive [trade_at T0 "win" 1 0 10; one_loss]))
      = Failed e)
  /\ (exists e,
        PatternAnalyzer.get_all_insights
          (Helpers.sort_values_date
             (map Helpers.derive [trade_at T0 "win" 1 0 10; one_loss]))
        = Failed e).
Proof.
  apply (risk_reward_insights_raise_on_zero_ratio
           [trade_at T0 "win" 1 0 10; one_loss]).
  - reflexivity.
  - intros t [<-|[<-|[]]]; vm_compute; discriminate.
  - exists (trade_at T0 "win" 1 0 10). split; [now left|reflexivity].
Defined.

(** X14.  Under the same conditions [get_key_trading_insights] raises as
    well: it sorts the risk/reward keys the same way. *)
Theorem key_trading_insights_raise_on_zero_ratio
    (trades : list Trade) (trades_df : DataFrame) :
  PatternAnalyzer.init (PatternAnalyzer.Many trades) = Ok trades_df ->
  (forall t, In t trades -> ~ stopLoss t == entryPrice t) ->
  (exists t, In t trades /\ target t == entryPrice t) ->
  exists e, PatternAnalyzer.get_key_trading_insights trades_df = Raise e.
Proof.
  intros Hdf Hstop Hzero.
  destruct (metrics_rr_ratio trades trades_df Hdf Hstop Hzero) as [Hnn Hz].
  exact (proj2 (rr_insights_fail trades_df Hnn Hz)).
Qed.

Lemma key_trading_insights_raise_on_zero_ratio_witness :
  exists e,
    PatternAnalyzer.get_key_trading_insights
      (Helpers.sort_values_date
         (map Helpers.derive [trade_at T0 "win" 1 0 10; one_loss]))
    = Raise e.
Proof.
  apply (key_trading_insights_raise_on_zero_ratio
           [trade_at T0 "win" 1 0 10; one_loss]).
  - reflexivity.
  - intros t [<-|[<-|[]]]; vm_compute; discriminate.
  - exists (trade_at T0 "win" 1 0 10). split; [now left|reflexivity].
Defined.

(* ===================================================================== *)
(** * Pattern analyzer: the pair/direction dictionary and its insights *)
(* ===================================================================== *)

Lemma key2_eqb_eq (a b : string * string) :
  PatternAnalyzer.key2_eqb a b = true <-> a = b.
Proof.
  destruct a as [a1 a2], b as [b1 b2]. unfold PatternAnalyzer.key2_eqb. cbn.
  rewrite Bool.andb_true_iff, !String.eqb_eq. split.
  - now intros [-> ->].
  - now intros [= -> ->].
Qed.

Lemma direction_fill_step (d : Py.dict (Py.dict DirectionBias.t))
    (p0 d0 : string) (row : DirectionBias.t) (p dir : string) :
  get2 (let result :=
          if Py.contains d p0 then d else Py.set d p0 [] in
        match Py.get result p0 with
        | Some inner => Py.set result p0 (Py.set inner d0 row)
        | None => result
        end) p dir
  = if PatternAnalyzer.key2_eqb (p, dir) (p0, d0) then Some row
    else get2 d p dir.
Proof.
  cbv zeta. unfold Py.contains, get2, PatternAnalyzer.key2_eqb. cbn [fst snd].
  destruct (Py.get d p0) as [inner|] eqn:E.
  - rewrite E, get_set.
    destruct (String.eqb_spec p p0) as [->|Hne]; cbn [andb].
    + rewrite get_set, E. reflexivity.
    + reflexivity.
  - rewrite get_set, String.eqb_refl, !get_set.
    destruct (String.eqb_spec p p0) as [->|Hne]; cbn [andb].
    + rewrite E. cbn [Py.get]. reflexivity.
    + reflexivity.
Qed.

Lemma direction_fill_lookup (agg : string * string -> DirectionBias.t)
    (ks : list (string * string)) (p dir : string) :
  forall d,
    get2 (fold_left
            (fun result g =>
               let '((pair, direction), row) := g in
               let result :=
                 if Py.contains result pair then result
                 else Py.set result pair [] in
               match Py.get result pair with
               | Some inner => Py.set result pair (Py.set inner direction row)
               | None => result
               end)
            (map (fun k => (k, agg k)) ks) d) p dir
    = if existsb (PatternAnalyzer.key2_eqb (p, dir)) ks
      then Some (agg (p, dir)) else get2 d p dir.
Proof.
  induction ks as [|[p0 d0] ks IH]; intros d; cbn [map fold_left existsb];
    [reflexivity|].
  rewrite IH, direction_fill_step.
  destruct (PatternAnalyzer.key2_eqb (p, dir) (p0, d0)) eqn:E; cbn [orb].
  - apply key2_eqb_eq in E. injection E as -> ->.
    destruct (existsb _ ks); reflexivity.
  - reflexivity.
Qed.

(** What [analyze_pair_direction_bias] stores under a pair and a
    direction. *)
Lemma pair_direction_lookup_eq (trades_df : DataFrame) (p dir : string) :
  let rows := filter (fun r : Row => String.eqb (pair r) p
                                     && String.eqb (direction r) dir)
                     trades_df in
  get2 (PatternAnalyzer.analyze_pair_direction_bias trades_df) p dir
  = match rows with
    | [] => None
    | _ => Some (direction_row rows)
    end.
Proof.
  cbv zeta. unfold PatternAnalyzer.analyze_pair_direction_bias, Pd.groupby_keys.
  cbv zeta. rewrite map_map. cbn [fst snd].
  match goal with
  | |- context [Py.sorted ?lt ?ks] => set (keys := Py.sorted lt ks)
  end.
  rewrite (direction_fill_lookup
             (fun k => direction_row
                         (filter (fun r : Row =>
                                    PatternAnalyzer.key2_eqb (pair r, direction r) k)
                                 trades_df))).
  change (get2 [] p dir) with (@None DirectionBias.t).
  change (fun r : Row => PatternAnalyzer.key2_eqb (pair r, direction r) (p, dir))
    with (fun r : Row => String.eqb (pair r) p && String.eqb (direction r) dir).
  set (rows := filter _ trades_df).
  assert (Hiff : In (p, dir) keys <-> rows <> []).
  { unfold keys.
    match goal with
    | |- In _ (Py.sorted ?lt ?ks) <-> _ =>
        pose proof (sorted_perm lt ks) as HP;
        pose proof (dedupe_spec PatternAnalyzer.key2_eqb key2_eqb_eq
                      (map (fun r : Row => (pair r, direction r)) trades_df) []
                      (NoDup_nil _)) as [_ Hd]
    end.
    split.
    - intros H. apply (Permutation_in _ (Permutation_sym HP)) in H.
      apply Hd in H. destruct H as [[]|H].
      apply in_map_iff in H. destruct H as (r & [= Hp Hdir] & Hr).
      assert (Hin : In r rows).
      { apply filter_In. split; [exact Hr|].
        rewrite Hp, Hdir, !String.eqb_refl. reflexivity. }
      intros E. rewrite E in Hin. destruct Hin.
    - intros H. apply (Permutation_in _ HP). apply Hd. right.
      destruct rows as [|r rs] eqn:E; [congruence|].
      assert (Hin : In r (filter (fun r : Row => String.eqb (pair r) p
                                      && String.eqb (direction r) dir) trades_df))
        by (fold rows; rewrite E; now left).
      apply filter_In in Hin. destruct Hin as [Hr Hb].
      apply Bool.andb_true_iff in Hb. destruct Hb as [Hp Hdir].
      apply String.eqb_eq in Hp, Hdir. subst p dir.
      apply in_map_iff. now exists r. }
  destruct (existsb (PatternAnalyzer.key2_eqb (p, dir)) keys) eqn:E.
  - apply existsb_exists in E. destruct E as (k & Hk & Ek).
    apply key2_eqb_eq in Ek. subst k. apply Hiff in Hk.
    destruct rows; [congruence|reflexivity].
  - destruct rows as [|r rs] eqn:Er; [reflexivity|].
    assert (Hk : In (p, dir) keys) by (apply Hiff; discriminate).
    assert (H : existsb (PatternAnalyzer.key2_eqb (p, dir)) keys = true).
    { apply existsb_exists. exists (p, dir). split; [exact Hk|].
      now apply key2_eqb_eq. }
    congruence.
Qed.

Lemma get_In {V} (d : Py.dict V) (k : string) (v : V) :
  Py.get d k = Some v -> In (k, v) d.
Proof.
  induction d as [|[k0 v0] d IH]; cbn; [discriminate|].
  destruct (String.eqb_spec k k0) as [->|Hne].
  - intros [= ->]. now left.
  - intros H. right. now apply IH.
Qed.

(** X15.  [analyze_pair_direction_bias] files every trade under its pair
    and direction: [result[pair][direction]] is present exactly when some
    trade has that pair and direction, and then holds the win rate, the
    mean netPNL and the mean accountChange of those trades, rounded to 4
    places. *)
Theorem pair_direction_bias_lookup (trades_df : DataFrame) (p dir : string) :
  let rows := filter (fun r : Row => String.eqb (pair r) p
                                     && String.eqb (direction r) dir)
                     trades_df in
  get2 (PatternAnalyzer.analyze_pair_direction_bias trades_df) p dir
  = match rows with
    | [] => None
    | _ => Some (direction_row rows)
    end.
Proof.
  exact (pair_direction_lookup_eq trades_df p dir).
Qed.

(** X16.  A pair traded in one direction only gets its own line in
    [get_pair_direction_insights]: when [dir] trades of the pair exist and
    no trade of the pair goes the other way, the insights contain "For
    <pair>, only <dir> trades were found with a win rate of <rate>.",
    the rate being that of the pair's [dir] trades rounded to 4 places. *)
Theorem pair_direction_insights_one_sided
    (trades_df : DataFrame) (p dir other : string) :
  (dir = "long" /\ other = "short") \/ (dir = "short" /\ other = "long") ->
  let rows := filter (fun r : Row => String.eqb (pair r) p
                                     && String.eqb (direction r) dir)
                     trades_df in
  rows <> [] ->
  (forall r : Row, In r trades_df -> pair r = p -> direction r <> other) ->
  In ("For " ++ p ++ ", only " ++ dir
      ++ " trades were found with a win rate of "
      ++ Py.format_pct 2 (Pd.round 4 (win_mean rows)) ++ ".")%string
     (PatternAnalyzer.get_pair_direction_insights trades_df).
Proof.
  intros Hdir rows Hrows Hother.
  pose proof (pair_direction_lookup_eq trades_df p dir) as Hl.
  pose proof (pair_direction_lookup_eq trades_df p other) as Ho.
  cbv zeta in Hl, Ho. fold rows in Hl.
  assert (Hnone : filter (fun r : Row => String.eqb (pair r) p
                                         && String.eqb (direction r) other)
                         trades_df = []).
  { destruct (filter (fun r : Row => String.eqb (pair r) p
                                  && String.eqb (direction r) other) trades_df)
      as [|r rs] eqn:E; [reflexivity|].
    assert (Hin : In r (filter (fun r : Row => String.eqb (pair r) p
                                    && String.eqb (direction r) other) trades_df))
      by (rewrite E; now left).
    apply filter_In in Hin. destruct Hin as [Hr Hb].
    apply Bool.andb_true_iff in Hb. destruct Hb as [Hp Hd].
    apply String.eqb_eq in Hp, Hd. now elim (Hother r Hr Hp). }
  rewrite Hnone in Ho.
  destruct rows as [|r0 rs0] eqn:Er; [congruence|]. rewrite <- Er in *.
  unfold get2 in Hl, Ho.
  destruct (Py.get (PatternAnalyzer.analyze_pair_direction_bias trades_df) p)
    as [inner|] eqn:Ein; [|discriminate].
  apply get_In in Ein.
  unfold PatternAnalyzer.get_pair_direction_insights. cbv zeta.
  match goal with
  | |- In ?line (match ?l with [] => _ | _ => _ end) =>
      assert (Hin : In line l); [|destruct l; [destruct Hin|exact Hin]]
  end.
  apply in_flat_map. exists (p, inner). split; [exact Ein|].
  cbn [fst snd]. unfold PatternAnalyzer.pair_direction_insight.
  destruct Hdir as [[-> ->]|[-> ->]]; rewrite Hl, Ho; cbn [direction_row DirectionBias.win_rate]; now left.
Qed.

Lemma pair_direction_insights_one_sided_witness :
  In "For EUR/USD, only long trades were found with a win rate of 50.00%."
     (PatternAnalyzer.get_pair_direction_insights
        (Helpers.sort_values_date (map Helpers.derive four_trades))).
Proof.
  refine (pair_direction_insights_one_sided
            (Helpers.sort_values_date (map Helpers.derive four_trades))
            "EUR/USD" "long" "short" _ _ _).
  - left. split; reflexivity.
  - vm_compute. discriminate.
  - intros r Hr _. cbn in Hr.
    destruct Hr as [<-|[<-|[<-|[<-|[]]]]]; discriminate.
Defined.

(* ===================================================================== *)
(** * Pattern analyzer: the position-size insights *)
(* ===================================================================== *)

(** X17.  When all four size buckets are populated,
    [get_position_size_insights] sorts their names alphabetically (Large,
    Medium, Small, Very Large) and therefore compares the 'Very Large'
    bucket with the 'Large' one: the line about larger positions is
    written when Very Large beats Large, the line about smaller positions
    when Large beats Very Large, and the Small and Medium buckets play no
    part. *)
Theorem position_size_insights_compare_large
    (trades_df : DataFrame) (analysis : Py.dict SizeImpact.t) :
  PatternAnalyzer.analyze_position_size_impact trades_df = Ok analysis ->
  Py.keys analysis = PatternAnalyzer.size_labels ->
  let wr := PatternAnalyzer.size_win_rate analysis in
  let pnl := PatternAnalyzer.size_mean_pnl analysis in
  PatternAnalyzer.get_position_size_insights trades_df
  = Done
      (PatternAnalyzer.compare_ends (wr "Very Large") (wr "Large")
         ("Larger position sizes tend to have higher win rates, with Very Large positions having a "
          ++ Py.format_pct 2 (wr "Very Large") ++ " win rate compared to "
          ++ Py.format_pct 2 (wr "Large") ++ " for Large positions.")%string
         ("Smaller position sizes tend to have higher win rates, with Large positions having a "
          ++ Py.format_pct 2 (wr "Large") ++ " win rate compared to "
          ++ Py.format_pct 2 (wr "Very Large") ++ " for Very Large positions.")%string
       ++ PatternAnalyzer.compare_ends (pnl "Very Large") (pnl "Large")
            ("Larger positions tend to be more profitable, with an average PNL of "
             ++ Py.format_f 2 (pnl "Very Large")
             ++ " for Very Large positions compared to "
             ++ Py.format_f 2 (pnl "Large") ++ " for Large positions.")%string
            ("Smaller positions tend to be more profitable, with an average PNL of "
             ++ Py.format_f 2 (pnl "Large")
             ++ " for Large positions compared to "
             ++ Py.format_f 2 (pnl "Very Large") ++ " for Very Large positions.")%string).
Proof.
  intros Ha Hk. cbv zeta. unfold PatternAnalyzer.get_position_size_insights.
  rewrite Ha. cbn [lift obind]. rewrite Hk.
  change (Py.sorted String.ltb PatternAnalyzer.size_labels)
    with ["Large"; "Medium"; "Small"; "Very Large"]%string.
  reflexivity.
Qed.

Lemma position_size_insights_compare_large_witness :
  exists analysis,
    PatternAnalyzer.analyze_position_size_impact
      (Helpers.sort_values_date (map Helpers.derive four_trades)) = Ok analysis
    /\ PatternAnalyzer.get_position_size_insights
         (Helpers.sort_values_date (map Helpers.derive four_trades))
       = Done
           (PatternAnalyzer.compare_ends
              (PatternAnalyzer.size_win_rate analysis "Very Large")
              (PatternAnalyzer.size_win_rate analysis "Large")
              ("Larger position sizes tend to have higher win rates, with Very Large positions having a "
               ++ Py.format_pct 2 (PatternAnalyzer.size_win_rate analysis "Very Large")
               ++ " win rate compared to "
               ++ Py.format_pct 2 (PatternAnalyzer.size_win_rate analysis "Large")
               ++ " for Large positions.")%string
              ("Smaller position sizes tend to have higher win rates, with Large positions having a "
               ++ Py.format_pct 2 (PatternAnalyzer.size_win_rate analysis "Large")
               ++ " win rate compared to "
               ++ Py.format_pct 2 (PatternAnalyzer.size_win_rate analysis "Very Large")
               ++ " for Very Large positions.")%string
            ++ PatternAnalyzer.compare_ends
                 (PatternAnalyzer.size_mean_pnl analysis "Very Large")
                 (PatternAnalyzer.size_mean_pnl analysis "Large")
                 ("Larger positions tend to be more profitable, with an average PNL of "
                  ++ Py.format_f 2 (PatternAnalyzer.size_mean_pnl analysis "Very Large")
                  ++ " for Very Large positions compared to "
                  ++ Py.format_f 2 (PatternAnalyzer.size_mean_pnl analysis "Large")
                  ++ " for Large positions.")%string
                 ("Smaller positions tend to be more profitable, with an average PNL of "
                  ++ Py.format_f 2 (PatternAnalyzer.size_mean_pnl analysis "Large")
                  ++ " for Large positions compared to "
                  ++ Py.format_f 2 (PatternAnalyzer.size_mean_pnl analysis "Very Large")
                  ++ " for Very Large positions.")%string).
Proof.
  eexists. split; [vm_compute; reflexivity|].
  apply position_size_insights_compare_large; vm_compute; reflexivity.
Defined.

(* ===================================================================== *)
(** * Behavior analyzer: the drawdown of the risk level *)
(* ===================================================================== *)

Lemma drawdown_gaps_nonneg (bs : list Q) :
  forall m : xnum, (m = NaN \/ exists mq, m = Fin mq) ->
  Forall finite_nonneg (drawdown_gaps m bs).
Proof.
  unfold drawdown_gaps.
  induction bs as [|x bs IH]; intros m Hm; cbn [map Pd.cummax_from combine];
    [constructor|].
  cbn [X.isna]. cbv zeta. cbn [map combine fst snd].
  match goal with
  | |- Forall _ (X.sub ?c _ :: _) =>
      assert (Hstep : exists mq, c = Fin mq /\ x <= mq)
  end.
  { destruct Hm as [->|(mq & ->)]; cbn [X.isna orb].
    - exists x. split; [reflexivity|apply Qle_refl].
    - destruct (X.gtb (Fin x) (Fin mq)) eqn:E.
      + exists x. split; [reflexivity|apply Qle_refl].
      + exists mq. split; [reflexivity|].
        apply Qnot_lt_le. intros H. apply gtb_Fin in H. congruence. }
  destruct Hstep as (mq & -> & Hle).
  constructor.
  - exists (mq + - x). split; [reflexivity|].
    rewrite <- (Qplus_opp_r x). apply Qplus_le_l. exact Hle.
  - apply IH. right. now exists mq.
Qed.

Lemma drawdown_gaps_zero (bs : list Q) :
  Sorted Qle bs ->
  forall m : xnum, (m = NaN \/ exists mq, m = Fin mq /\ HdRel Qle mq bs) ->
  Forall finite_zero (drawdown_gaps m bs).
Proof.
  unfold drawdown_gaps.
  induction 1 as [|x bs Hs IH Hhd]; intros m Hm;
    cbn [map Pd.cummax_from combine]; [constructor|].
  cbn [X.isna]. cbv zeta. cbn [map combine fst snd].
  match goal with
  | |- Forall _ (X.sub ?c _ :: _) =>
      assert (Hstep : exists mq, c = Fin mq /\ mq == x)
  end.
  { destruct Hm as [->|(mq & -> & Hmq)]; cbn [X.isna orb].
    - exists x. split; reflexivity.
    - destruct (X.gtb (Fin x) (Fin mq)) eqn:E.
      + exists x. split; reflexivity.
      + exists mq. split; [reflexivity|].
        apply Qle_antisym; [now inversion Hmq|].
        apply Qnot_lt_le. intros H. apply gtb_Fin in H. congruence. }
  destruct Hstep as (mq & -> & Heq).
  constructor.
  - exists (mq + - x). split; [reflexivity|]. rewrite Heq. ring.
  - apply IH. right. exists mq. split; [reflexivity|].
    destruct Hhd as [|y bs' Hy]; constructor. now rewrite Heq.
Qed.

Lemma max_pick (l : list xnum) :
  forall x, In (fold_left (fun m y => if X.gtb y m then y else m) l x) (x :: l).
Proof.
  induction l as [|y l IH]; intros x; cbn [fold_left]; [now left|].
  destruct (IH (if X.gtb y x then y else x)) as [H|H].
  - rewrite <- H. destruct (X.gtb y x); [right; now left|now left].
  - right. now right.
Qed.

(** The drawdown is one of the gaps over the first balance. *)
Lemma max_drawdown_value (trades_df : DataFrame) :
  0 < hd 0 (map (fun r : Row => accountBalance r) trades_df) ->
  exists g b,
    In (Fin g) (drawdown_gaps NaN (map (fun r : Row => accountBalance r) trades_df))
    /\ 0 < b
    /\ BehaviorAnalyzer.max_drawdown trades_df = Fin (g / b).
Proof.
  intros Hpos. unfold BehaviorAnalyzer.max_drawdown, column, Pd.cummax.
  cbv zeta. rewrite <- (map_map (fun r : Row => accountBalance r) Fin).
  match goal with
  | |- context [Pd.max ?g] =>
      change g
        with (drawdown_gaps NaN (map (fun r : Row => accountBalance r) trades_df))
  end.
  pose proof (drawdown_gaps_nonneg
                (map (fun r : Row => accountBalance r) trades_df) NaN
                (or_introl eq_refl)) as Hnn.
  destruct (map (fun r : Row => accountBalance r) trades_df) as [|b bs] eqn:E.
  { exfalso. cbn in Hpos. now apply Qlt_irrefl in Hpos. }
  cbn [hd map] in *. unfold Pd.max. rewrite (dropna_nonneg _ Hnn).
  destruct (drawdown_gaps NaN (b :: bs)) as [|x l] eqn:Eg.
  { unfold drawdown_gaps in Eg. cbn in Eg. discriminate. }
  pose proof (max_pick l x) as Hin.
  assert (Hx : finite_nonneg (fold_left (fun m y => if X.gtb y m then y else m) l x))
    by (eapply Forall_forall; [exact Hnn|exact Hin]).
  destruct Hx as (g & Hg & _). rewrite Hg in *.
  exists g, b. split; [exact Hin|]. split; [exact Hpos|].
  cbn [X.div].
  assert (Hb : Qeq_bool b 0 = false).
  { apply not_true_is_false. intros H. apply Qeq_bool_iff in H.
    rewrite H in Hpos. now apply Qlt_irrefl in Hpos. }
  now rewrite Hb.
Qed.

(** X18.  When the first accountBalance is positive, the drawdown that
    [determine_risk_level] computes is a finite number that is never
    negative: the running maximum is never below the balance. *)
Theorem max_drawdown_nonneg (trades_df : DataFrame) :
  0 < hd 0 (map (fun r : Row => accountBalance r) trades_df) ->
  exists q, BehaviorAnalyzer.max_drawdown trades_df = Fin q /\ 0 <= q.
Proof.
  intros Hpos.
  destruct (max_drawdown_value trades_df Hpos) as (g & b & Hin & Hb & ->).
  eexists. split; [reflexivity|].
  pose proof (drawdown_gaps_nonneg
                (map (fun r : Row => accountBalance r) trades_df) NaN
                (or_introl eq_refl)) as Hnn.
  rewrite Forall_forall in Hnn. destruct (Hnn _ Hin) as (g' & [= <-] & Hg).
  apply Qle_shift_div_l; [exact Hb|]. now rewrite Qmult_0_l.
Qed.

Lemma max_drawdown_nonneg_witness :
  exists q,
    BehaviorAnalyzer.max_drawdown
      (Helpers.sort_values_date (map Helpers.derive four_trades)) = Fin q
    /\ 0 <= q.
Proof.
  apply (max_drawdown_nonneg
           (Helpers.sort_values_date (map Helpers.derive four_trades))).
  vm_compute. reflexivity.
Defined.

(** X19.  When the first accountBalance is positive and the balance
    never falls from one trade to the next, the drawdown is zero and
    [determine_risk_level] depends on the Sharpe ratio alone: Low above
    1.5, Moderate above 0.5, High otherwise. *)
Theorem risk_level_without_drawdown (trades_df : DataFrame) :
  0 < hd 0 (map (fun r : Row => accountBalance r) trades_df) ->
  Sorted Qle (map (fun r : Row => accountBalance r) trades_df) ->
  (exists q, BehaviorAnalyzer.max_drawdown trades_df = Fin q /\ q == 0)
  /\ BehaviorAnalyzer.determine_risk_level trades_df
     = if XR.gtb (BehaviorAnalyzer.calculate_sharpe_ratio trades_df) (15 / 10)%R
       then Low
       else if XR.gtb (BehaviorAnalyzer.calculate_sharpe_ratio trades_df)
                      (5 / 10)%R
       then Moderate else High.
Proof.
  intros Hpos Hsorted.
  destruct (max_drawdown_value trades_df Hpos) as (g & b & Hin & Hb & Hd).
  pose proof (drawdown_gaps_zero _ Hsorted NaN (or_introl eq_refl)) as Hz.
  rewrite Forall_forall in Hz. destruct (Hz _ Hin) as (g' & [= <-] & Hg).
  assert (Hq : g / b == 0) by (rewrite Hg; unfold Qdiv; ring).
  split; [exists (g / b); now split|].
  unfold BehaviorAnalyzer.determine_risk_level. cbv zeta. rewrite Hd.
  assert (H1 : X.ltb (Fin (g / b)) (Fin (1 # 10)) = true)
    by (apply X_ltb_spec; cbn; now rewrite Hq).
  assert (H2 : X.ltb (Fin (g / b)) (Fin (2 # 10)) = true)
    by (apply X_ltb_spec; cbn; now rewrite Hq).
  rewrite H1, H2, !Bool.andb_true_r. reflexivity.
Qed.

Lemma risk_level_without_drawdown_witness :
  exists q,
    BehaviorAnalyzer.max_drawdown
      (Helpers.sort_values_date (map Helpers.derive four_trades)) = Fin q
    /\ q == 0.
Proof.
  refine (proj1 (risk_level_without_drawdown
                   (Helpers.sort_values_date (map Helpers.derive four_trades))
                   _ _)).
  - vm_compute. reflexivity.
  - cbn. repeat constructor; apply Qle_refl.
Defined.

(* ===================================================================== *)
(** * Behavior analyzer: what the revenge average and the distribution hold *)
(* ===================================================================== *)

Lemma mean_app_nan (l : list xnum) : Pd.mean (l ++ [NaN]) = Pd.mean l.
Proof.
  unfold Pd.mean, Pd.count, Pd.sum, Pd.dropna.
  rewrite filter_app. cbn [filter X.isna negb]. now rewrite app_nil_r.
Qed.

(** X20.  [detect_revenge_trading] shifts inside the flagged rows, so the
    "average PNL after a quick trade" is the mean netPNL of the flagged
    losing trades themselves, the first one left out; with exactly one
    flagged trade it is NaN. *)
Theorem revenge_avg_pnl_skips_first_flagged (trades_df : DataFrame) :
  let flagged :=
    map fst (filter BehaviorAnalyzer.quick_after_loss
                    (combine trades_df
                             (BehaviorAnalyzer.time_to_next_trade trades_df))) in
  let revenge := BehaviorAnalyzer.detect_revenge_trading trades_df in
  RevengeTrading.quick_trades_after_losses revenge = List.length flagged
  /\ RevengeTrading.avg_pnl_after_quick_trade revenge
     = Pd.mean (column netPNL (tl flagged))
  /\ (RevengeTrading.quick_trades_after_losses revenge = 1%nat ->
      RevengeTrading.avg_pnl_after_quick_trade revenge = NaN).
Proof.
  cbv zeta. unfold BehaviorAnalyzer.detect_revenge_trading. cbv zeta.
  cbn [RevengeTrading.quick_trades_after_losses
       RevengeTrading.avg_pnl_after_quick_trade].
  set (flagged := map fst (filter _ _)).
  split; [reflexivity|].
  assert (H : Pd.mean
                (map (fun v : option Q =>
                        match v with Some q => Fin q | None => NaN end)
                     (Pd.shift_m1 (map (fun r : Row => netPNL r) flagged)))
              = Pd.mean (column netPNL (tl flagged))).
  { destruct flagged as [|r rest]; [reflexivity|].
    cbn [map Pd.shift_m1 tl]. rewrite map_app, !map_map. cbn [map].
    unfold column. apply mean_app_nan. }
  split; [exact H|].
  intros H1. rewrite H.
  destruct flagged as [|r [|r' rest]]; try discriminate. reflexivity.
Qed.

Lemma partition_weighted (w : Z -> Z) (ks s : list Z) :
  NoDup ks -> (forall x, In x s -> In x ks) ->
  Zsum (map (fun k => (w k * Z.of_nat (List.length (filter (Z.eqb k) s)))%Z) ks)
  = Zsum (map w s).
Proof.
  intros Hnd. induction s as [|x s IH]; intros Hcov.
  - cbn [filter List.length map]. unfold Zsum. clear.
    induction ks as [|k ks IHk]; cbn [map fold_right]; [reflexivity|].
    rewrite IHk. cbn [fold_right]. lia.
  - assert (Hone :
              forall ks', NoDup ks' ->
                Zsum (map (fun k =>
                             (w k * Z.of_nat (List.length (filter (Z.eqb k) (x :: s))))%Z)
                          ks')
                = (Zsum (map (fun k =>
                                (w k * Z.of_nat (List.length (filter (Z.eqb k) s)))%Z)
                             ks')
                   + (if in_dec Z.eq_dec x ks' then w x else 0))%Z).
    { unfold Zsum. induction ks' as [|k ks' IHk]; intros Hnd'; [reflexivity|].
      inversion Hnd' as [|? ? Hk Hnd'']; subst.
      cbn [map fold_right]. rewrite (IHk Hnd''). cbn [filter].
      destruct (Z.eqb_spec k x) as [->|Hne].
      - cbn [List.length]. rewrite Nat2Z.inj_succ.
        destruct (in_dec Z.eq_dec x (x :: ks')) as [_|H]; [|elim H; now left].
        destruct (in_dec Z.eq_dec x ks'); [contradiction|lia].
      - destruct (in_dec Z.eq_dec x (k :: ks')) as [[E|H]|H];
          destruct (in_dec Z.eq_dec x ks') as [H'|H'];
          try congruence; try lia; try contradiction.
        elim H. now right. }
    rewrite (Hone ks Hnd), IH by (intros y Hy; apply Hcov; now right).
    destruct (in_dec Z.eq_dec x ks) as [_|H]; [|elim H; apply Hcov; now left].
    unfold Zsum. cbn [map fold_right]. lia.
Qed.

(** X21.  The trading-frequency distribution of [detect_overtrading]
    (trades per day -> number of such days) has one entry per count, its
    day numbers add up to the number of trading days, and count times days
    adds up to the number of trades. *)
Theorem overtrading_distribution_totals (trades_df : DataFrame) :
  let distribution :=
    Overtrading.trading_frequency_distribution
      (BehaviorAnalyzer.detect_overtrading trades_df) in
  NoDup (map fst distribution)
  /\ Zsum (map snd distribution)
     = Z.of_nat (List.length (BehaviorAnalyzer.trades_per_day trades_df))
  /\ Zsum (map (fun cd : Z * Z => (fst cd * snd cd)%Z) distribution)
     = Z.of_nat (List.length trades_df).
Proof.
  cbv zeta. unfold BehaviorAnalyzer.detect_overtrading. cbv zeta.
  cbn [Overtrading.trading_frequency_distribution].
  set (s := BehaviorAnalyzer.trades_per_day trades_df).
  unfold Pd.value_counts.
  match goal with
  | |- context [Py.sorted ?lt ?l] => pose proof (sorted_perm lt l) as HP
  end.
  destruct (distinct_spec s) as [Hnd Hin].
  split; [|split].
  - apply (Permutation_NoDup (Permutation_map fst HP)).
    rewrite map_map. cbn [fst]. now rewrite map_id.
  - rewrite <- (Zsum_perm _ _ (Permutation_map snd HP)), map_map. cbn [snd].
    unfold Pd.occurrences.
    rewrite <- (map_ext (fun k => (1 * Z.of_nat (List.length (filter (Z.eqb k) s)))%Z))
      by (intros k; lia).
    rewrite (partition_weighted (fun _ => 1%Z)) by (try assumption; apply Hin).
    clear. unfold Zsum. induction s as [|x s IH]; cbn [map fold_right List.length];
      [reflexivity|]. rewrite IH. lia.
  - rewrite <- (Zsum_perm _ _ (Permutation_map _ HP)), map_map. cbn [fst snd].
    unfold Pd.occurrences.
    rewrite (partition_weighted (fun k => k)) by (try assumption; apply Hin).
    rewrite map_id. unfold s.
    unfold BehaviorAnalyzer.trades_per_day.
    rewrite (proj1 (groupby_size_spec _)). now rewrite length_map.
Qed.

(* ===================================================================== *)
(** * Pattern analyzer: trades of one size *)
(* ===================================================================== *)

Lemma insert_value_Forall (P : xnum -> Prop) (x : xnum) (s : list xnum) :
  P x -> Forall P s -> Forall P (Pd.insert_value x s).
Proof.
  intros Hx. induction 1 as [|y s Hy Hs IH]; cbn; [now constructor|].
  destruct (X.sort_leb x y); repeat constructor; assumption.
Qed.

Lemma sort_values_Forall (P : xnum -> Prop) (l : list xnum) :
  Forall P l -> Forall P (Pd.sort_values l).
Proof.
  induction 1 as [|x l Hx Hl IH]; [constructor|].
  change (Pd.sort_values (x :: l)) with (Pd.insert_value x (Pd.sort_values l)).
  now apply insert_value_Forall.
Qed.

Lemma length_insert_value (x : xnum) (s : list xnum) :
  List.length (Pd.insert_value x s) = S (List.length s).
Proof.
  induction s as [|y s IH]; cbn; [reflexivity|].
  destruct (X.sort_leb x y); cbn; [reflexivity|now rewrite IH].
Qed.

Lemma length_sort_values (l : list xnum) :
  List.length (Pd.sort_values l) = List.length l.
Proof.
  induction l as [|x l IH]; [reflexivity|].
  change (Pd.sort_values (x :: l)) with (Pd.insert_value x (Pd.sort_values l)).
  now rewrite length_insert_value, IH.
Qed.

Lemma lerp_constant (c : Q) (a b : xnum) (t : Q) :
  finite_eq c a -> finite_eq c b -> finite_eq c (Pd.lerp a b t).
Proof.
  intros (qa & -> & Ha) (qb & -> & Hb). unfold Pd.lerp.
  destruct (Qle_bool (1 # 2) t); cbn [X.sub X.add X.mul X.opp];
    eexists; (split; [reflexivity|]); rewrite Ha, Hb; ring.
Qed.

Lemma percentile_constant (c : Q) (arr : list xnum) (p : Q) :
  arr <> [] -> Forall (finite_eq c) arr -> 0 <= p ->
  finite_eq c (Pd.percentile arr p).
Proof.
  intros Hne Harr Hp. rewrite Forall_forall in Harr.
  assert (Hlast : In (last arr NaN) arr).
  { destruct (exists_last Hne) as (l' & a & ->). rewrite last_last.
    apply in_or_app. right. now left. }
  unfold Pd.percentile. destruct arr as [|x arr'] eqn:E; [congruence|].
  rewrite <- E in *. cbv zeta.
  set (n := Z.of_nat (List.length arr)).
  assert (Hn : (1 <= n)%Z) by (unfold n; rewrite E; cbn [List.length]; lia).
  destruct (Qle_bool (inject_Z (n - 1)) (p * inject_Z (n - 1))) eqn:Ele.
  - apply lerp_constant; apply Harr, Hlast.
  - assert (Hlt : p * inject_Z (n - 1) < inject_Z (n - 1)).
    { apply Qnot_le_lt. intros H. apply Qle_bool_iff in H. congruence. }
    assert (H0 : 0 <= p * inject_Z (n - 1)).
    { apply Qmult_le_0_compat; [exact Hp|].
      change 0 with (inject_Z 0). rewrite <- Zle_Qle. lia. }
    set (previous := Qfloor (p * inject_Z (n - 1))).
    assert (Hp0 : (0 <= previous)%Z).
    { change 0%Z with (Qfloor 0). now apply Qfloor_resp_le. }
    assert (Hp1 : (previous < n - 1)%Z).
    { rewrite Zlt_Qlt. eapply Qle_lt_trans; [apply Qfloor_le|exact Hlt]. }
    apply lerp_constant; apply Harr, nth_In; unfold n in *; lia.
Qed.

Lemma linspace01_nonneg (q : nat) : Forall (fun p => 0 <= p) (Pd.linspace01 q).
Proof.
  unfold Pd.linspace01. apply Forall_forall. intros p Hp.
  apply in_map_iff in Hp. destruct Hp as (i & <- & _).
  apply Qmult_le_0_compat.
  - change 0 with (inject_Z 0). rewrite <- Zle_Qle. lia.
  - apply Qinv_le_0_compat. change 0 with (inject_Z 0). rewrite <- Zle_Qle. lia.
Qed.

Lemma quantile_constant (c : Q) (s : list xnum) (q : nat) :
  s <> [] -> Forall (finite_eq c) s ->
  Forall (finite_eq c) (Pd.quantile s (Pd.linspace01 q))
  /\ List.length (Pd.quantile s (Pd.linspace01 q)) = S q.
Proof.
  intros Hne Hs. unfold Pd.quantile.
  assert (Hd : Pd.dropna s = s).
  { unfold Pd.dropna. clear Hne. induction Hs as [|x l (qx & -> & _) Hl IH];
      cbn; [reflexivity|]. now rewrite IH. }
  rewrite Hd. split.
  - apply Forall_forall. intros x Hx. apply in_map_iff in Hx.
    destruct Hx as (p & <- & Hp).
    apply percentile_constant.
    + intros E. apply (f_equal (@List.length _)) in E.
      rewrite length_sort_values in E. destruct s; [congruence|discriminate].
    + now apply sort_values_Forall.
    + pose proof (linspace01_nonneg q) as H. rewrite Forall_forall in H.
      now apply H.
  - rewrite length_map. unfold Pd.linspace01.
    rewrite length_map, length_seq. lia.
Qed.

Lemma same_Fin (a b : Q) : a == b -> X.same (Fin a) (Fin b) = true.
Proof.
  intros H. unfold X.same, X.eqb, X.cmp.
  now rewrite (proj1 (Qeq_alt a b) H).
Qed.

Lemma unique_from_constant (c : Q) (l seen : list xnum) :
  Forall (finite_eq c) l -> Exists (finite_eq c) seen ->
  Pd.unique_from seen l = [].
Proof.
  intros Hl Hseen. induction Hl as [|x l (qx & -> & Hx) Hl IH]; cbn;
    [reflexivity|].
  assert (H : existsb (X.same (Fin qx)) seen = true).
  { apply Exists_exists in Hseen. destruct Hseen as (y & Hy & (qy & -> & Hqy)).
    apply existsb_exists. exists (Fin qy). split; [exact Hy|].
    apply same_Fin. now rewrite Hx, Hqy. }
  now rewrite H.
Qed.

Lemma unique_constant (c : Q) (l : list xnum) :
  l <> [] -> Forall (finite_eq c) l -> List.length (Pd.unique l) = 1%nat.
Proof.
  intros Hne Hl. destruct l as [|x l]; [congruence|].
  inversion Hl as [|? ? Hx Hl']; subst.
  unfold Pd.unique. cbn [Pd.unique_from existsb].
  rewrite (unique_from_constant c l [x] Hl'); [reflexivity|now constructor].
Qed.

(** When every value is the same, every quantile edge is that value:
    [qcut] cannot keep more than one edge. *)
Lemma qcut_constant_raises (c : Q) (x : list xnum) (q : nat)
    (labels : list string) (dup : Pd.duplicates) :
  x <> [] -> Forall (finite_eq c) x -> (2 <= q)%nat ->
  List.length labels = q ->
  exists e, Pd.qcut x q (Pd.use_labels labels) dup = Raise e.
Proof.
  intros Hne Hx Hq Hlen. unfold Pd.qcut. cbv zeta.
  destruct (quantile_constant c x q Hne Hx) as [Hb Hbl].
  set (bins := Pd.quantile x (Pd.linspace01 q)) in *.
  assert (Hbne : bins <> []) by (destruct bins; [discriminate|congruence]).
  pose proof (unique_constant c bins Hbne Hb) as Hu.
  unfold Pd.bins_to_cuts. cbv zeta. rewrite Hu, Hbl.
  assert (H1 : (1 <? S q)%nat = true) by (apply Nat.ltb_lt; lia).
  assert (H2 : (S q =? 2)%nat = false) by (apply Nat.eqb_neq; lia).
  rewrite H1, H2. cbn [negb andb].
  destruct dup; [cbn; eauto|].
  cbn [bind]. unfold Pd.use_labels.
  destruct (Pd.has_duplicates labels); [cbn; eauto|].
  rewrite Hu, Hlen.
  assert (H3 : (q =? 1 - 1)%nat = false) by (apply Nat.eqb_neq; lia).
  rewrite H3. cbn. eauto.
Qed.

(** X22.  When two or more trades all have the same size,
    [analyze_position_size_impact] raises: every quantile edge is that
    size, so with four or more trades [pd.qcut] rejects the duplicate
    edges, and with two or three it drops them and then has too many
    labels.  [get_position_size_insights], [get_all_insights] and
    [get_key_trading_insights] raise with it. *)
Theorem position_size_analysis_raises_on_equal_sizes
    (trades_df : DataFrame) (c : Q) :
  (2 <= List.length trades_df)%nat ->
  (forall r : Row, In r trades_df -> size r == c) ->
  (exists e, PatternAnalyzer.analyze_position_size_impact trades_df = Raise e)
  /\ (exists e, PatternAnalyzer.get_position_size_insights trades_df = Failed e)
  /\ (exists e, PatternAnalyzer.get_all_insights trades_df = Failed e)
  /\ (exists e, PatternAnalyzer.get_key_trading_insights trades_df = Raise e).
Proof.
  intros Hlen Hsize.
  assert (Ha : exists e,
             PatternAnalyzer.analyze_position_size_impact trades_df = Raise e).
  { unfold PatternAnalyzer.analyze_position_size_impact. cbv zeta.
    assert (Hne : column size trades_df <> []).
    { unfold column. destruct trades_df; [cbn in Hlen; lia|discriminate]. }
    assert (Hc : Forall (finite_eq c) (column size trades_df)).
    { unfold column. apply Forall_map, Forall_forall. intros r Hr.
      exists (size r). split; [reflexivity|now apply Hsize]. }
    destruct (List.length trades_df <? 4)%nat eqn:E.
    - apply Nat.ltb_lt in E.
      destruct (qcut_constant_raises c (column size trades_df)
                  (Nat.min (List.length trades_df) 4)
                  (firstn (List.length trades_df) PatternAnalyzer.size_labels)
                  Pd.dup_drop Hne Hc) as (e & ->);
        [lia|rewrite length_firstn; reflexivity|].
      cbn. eauto.
    - destruct (qcut_constant_raises c (column size trades_df) 4
                  PatternAnalyzer.size_labels Pd.dup_raise Hne Hc)
        as (e & ->); [lia|reflexivity|].
      cbn. eauto. }
  destruct Ha as (e & He).
  split; [eauto|]. split; [|split].
  - unfold PatternAnalyzer.get_position_size_insights. rewrite He. cbn. eauto.
  - unfold PatternAnalyzer.get_all_insights,
      PatternAnalyzer.get_position_size_insights. rewrite He. cbn. eauto.
  - unfold PatternAnalyzer.get_key_trading_insights. cbv zeta.
    rewrite He. cbn. eauto.
Qed.

Lemma position_size_analysis_raises_on_equal_sizes_witness :
  exists e,
    PatternAnalyzer.analyze_position_size_impact
      (Helpers.sort_values_date (map Helpers.derive same_size_trades))
    = Raise e.
Proof.
  refine (proj1 (position_size_analysis_raises_on_equal_sizes
                   (Helpers.sort_values_date
                      (map Helpers.derive same_size_trades)) 1 _ _)).
  - cbn. lia.
  - intros r Hr. cbn in Hr.
    destruct Hr as [<-|[<-|[<-|[<-|[]]]]]; reflexivity.
Defined.

(* ===================================================================== *)
(** * Routes: conversion to native Python values *)
(* ===================================================================== *)

Lemma ndarray_nested_ind (P : Routes.ndarray -> Prop) :
  (forall s, P (Routes.nd_scalar s)) ->
  (forall rows, Forall P rows -> P (Routes.nd_array rows)) ->
  forall a, P a.
Proof.
  intros Hs Ha. fix IH 1. intros [s|rows].
  - apply Hs.
  - apply Ha. induction rows as [|r rows IHr]; constructor;
      [apply IH|exact IHr].
Qed.

Lemma tolist_native (a : Routes.ndarray) :
  Routes.has_numpy (Routes.tolist a) = false
  /\ Routes.convert_to_native (Routes.tolist a) = Routes.tolist a.
Proof.
  induction a as [s|rows IH] using ndarray_nested_ind.
  - destruct s; split; reflexivity.
  - cbn [Routes.tolist Routes.has_numpy Routes.convert_to_native]. split.
    + apply not_true_is_false. intros E. apply existsb_exists in E.
      destruct E as (o & Hin & Ho). apply in_map_iff in Hin.
      destruct Hin as (r & <- & Hr). rewrite Forall_forall in IH.
      rewrite (proj1 (IH r Hr)) in Ho. discriminate.
    + f_equal. rewrite map_map. apply map_ext_Forall.
      eapply Forall_impl; [|exact IH]. now intros r [_ Hr].
Qed.

Lemma pyobj_nested_ind (P : Routes.pyobj -> Prop) :
  (forall s, P (Routes.np_generic s)) ->
  (forall a, P (Routes.np_ndarray a)) ->
  (forall n, P (Routes.py_int n)) ->
  (forall x, P (Routes.py_float x)) ->
  (forall b, P (Routes.py_bool b)) ->
  (forall s, P (Routes.py_str s)) ->
  P Routes.py_none ->
  (forall repr, P (Routes.py_other repr)) ->
  (forall items, Forall (fun kv => P (fst kv) /\ P (snd kv)) items ->
                 P (Routes.py_dict items)) ->
  (forall items, Forall P items -> P (Routes.py_list items)) ->
  (forall items, Forall P items -> P (Routes.py_tuple items)) ->
  forall obj, P obj.
Proof.
  intros H1 H2 H3 H4 H5 H6 H7 H8 Hd Hl Ht.
  fix IH 1. intros [s|a|n|x|b|s| |repr|items|items|items].
  - apply H1.
  - apply H2.
  - apply H3.
  - apply H4.
  - apply H5.
  - apply H6.
  - apply H7.
  - apply H8.
  - apply Hd. induction items as [|[k v] items IHi]; constructor;
      [split; apply IH|exact IHi].
  - apply Hl. induction items as [|o items IHi]; constructor;
      [apply IH|exact IHi].
  - apply Ht. induction items as [|o items IHi]; constructor;
      [apply IH|exact IHi].
Qed.

(** X23.  [convert_to_native] is idempotent: converting a converted
    object changes nothing. *)
Theorem convert_to_native_idempotent (obj : Routes.pyobj) :
  Routes.convert_to_native (Routes.convert_to_native obj) = Routes.convert_to_native obj.
Proof.
  induction obj using pyobj_nested_ind; cbn [Routes.convert_to_native];
    try reflexivity.
  - destruct s; reflexivity.
  - apply tolist_native.
  - f_equal. rewrite map_map. apply map_ext_Forall.
    eapply Forall_impl; [|exact H]. intros [k v] [_ Hv]. cbn in Hv.
    now rewrite Hv.
  - f_equal. rewrite map_map. now apply map_ext_Forall.
Qed.

Lemma existsb_map_ext {A B} (f : B -> bool) (g : A -> B) (h : A -> bool)
    (l : list A) :
  Forall (fun x => f (g x) = h x) l -> existsb f (map g l) = existsb h l.
Proof.
  induction 1 as [|x l Hx Hl IH]; cbn; [reflexivity|]. now rewrite Hx, IH.
Qed.

(** X24.  [convert_to_native] converts [np.integer] and [np.floating]
    scalars and arrays, and descends into dict values and list items
    only.  Its result still holds a numpy value exactly when the object
    holds, at a place it reaches, a numpy scalar of another kind
    ([np.bool_], [np.str_], ...), or holds any numpy value in a dict key
    or inside a tuple. *)
Theorem convert_to_native_leaves_what_it_passes_over (obj : Routes.pyobj) :
  Routes.has_numpy (Routes.convert_to_native obj) = Routes.passed_over obj.
Proof.
  induction obj using pyobj_nested_ind;
    cbn [Routes.convert_to_native Routes.has_numpy Routes.passed_over];
    try reflexivity.
  - destruct s; reflexivity.
  - apply tolist_native.
  - apply existsb_map_ext. eapply Forall_impl; [|exact H].
    intros [k v] [_ Hv]. cbn in Hv. now rewrite Hv.
  - now apply existsb_map_ext.
Qed.

(* ===================================================================== *)
(** * Helpers: the derived columns *)
(* ===================================================================== *)

(** X7.  [calculate_trade_metrics] keeps every trade, once, and gives each
    row risk = |entryPrice - stopLoss| and reward = |target - entryPrice|;
    rr_ratio is reward / risk when the stop loss is off the entry price,
    +inf when the stop loss is on it and the target is not, and NaN when
    both are on it. *)
Theorem trade_metrics_columns (trades : list Trade) (trades_df : DataFrame) :
  Helpers.calculate_trade_metrics trades = Ok trades_df ->
  Permutation (map Helpers.derive trades) trades_df
  /\ forall r : Row,
       In r trades_df ->
       risk r = Fin (Qabs (entryPrice r - stopLoss r))
       /\ reward r = Fin (Qabs (target r - entryPrice r))
       /\ (~ stopLoss r == entryPrice r ->
           rr_ratio r
           = Fin (Qabs (target r - entryPrice r)
                  / Qabs (entryPrice r - stopLoss r)))
       /\ (stopLoss r == entryPrice r -> ~ target r == entryPrice r ->
           rr_ratio r = PInf)
       /\ (stopLoss r == entryPrice r -> target r == entryPrice r ->
           rr_ratio r = NaN).
Proof.
  intros Hdf. apply calculate_trade_metrics_inv in Hdf.
  destruct Hdf as [_ ->].
  pose proof (sort_values_date_perm (map Helpers.derive trades)) as HP.
  split; [exact HP|].
  intros r Hr. apply (Permutation_in _ (Permutation_sym HP)) in Hr.
  apply in_map_iff in Hr. destruct Hr as (t & <- & _).
  unfold Helpers.derive.
  cbn [risk reward rr_ratio trade X.sub X.add X.opp X.abs X.div
       entryPrice stopLoss target].
  assert (Hrisk : Qabs (entryPrice t + - stopLoss t) == 0
                  <-> stopLoss t == entryPrice t).
  { split; intros H.
    - apply Qabs_zero in H. rewrite <- (Qplus_0_l (stopLoss t)), <- H. ring.
    - rewrite H. assert (E : entryPrice t + - entryPrice t == 0) by ring.
      rewrite E. reflexivity. }
  assert (Hreward : Qabs (target t + - entryPrice t) == 0
                    <-> target t == entryPrice t).
  { split; intros H.
    - apply Qabs_zero in H. rewrite <- (Qplus_0_l (entryPrice t)), <- H. ring.
    - rewrite H. assert (E : entryPrice t + - entryPrice t == 0) by ring.
      rewrite E. reflexivity. }
  split; [reflexivity|]. split; [reflexivity|].
  destruct (Qeq_bool (Qabs (entryPrice t + - stopLoss t)) 0) eqn:E.
  - apply Qeq_bool_iff, Hrisk in E.
    split; [intros H; contradiction|].
    pose proof (Qabs_nonneg (target t + - entryPrice t)) as Hnn.
    destruct (Qcompare_spec (Qabs (target t + - entryPrice t)) 0) as [H0|Hl|Hg].
    + split; intros _ H; [|reflexivity]. elim H. now apply Hreward.
    + exfalso. apply (Qlt_not_le _ _ Hl Hnn).
    + split; intros _ H; [reflexivity|].
      exfalso. apply Hreward in H. rewrite H in Hg. now apply Qlt_irrefl in Hg.
  - assert (Hne : ~ stopLoss t == entryPrice t).
    { intros H. apply Hrisk, Qeq_bool_iff in H. congruence. }
    split; [reflexivity|]. split; intros H; contradiction.
Qed.

Lemma trade_metrics_columns_witness :
  Permutation
    (map Helpers.derive [zero_risk_trade; one_loss])
    (Helpers.sort_values_date (map Helpers.derive [zero_risk_trade; one_loss])).
Proof.
  exact (proj1 (trade_metrics_columns [zero_risk_trade; one_loss] _ eq_refl)).
Defined.

(* ===================================================================== *)
(** * Behavior analyzer: bounds of the loss recovery rate *)
(* ===================================================================== *)

(** The sums of the groups of a duplicate-free list of keys that covers
    the rows add up to the sum over all rows. *)
Lemma partition_sums (ks : list Z) (rows : list (Z * Z)) :
  NoDup ks -> (forall r, In r rows -> In (fst r) ks) ->
  Zsum (map (fun k => Zsum (map snd (filter (fun r => Z.eqb (fst r) k) rows))) ks)
  = Zsum (map snd rows).
Proof.
  intros Hnd. induction rows as [|[x v] rows IH]; intros Hcov.
  - unfold Zsum. clear.
    induction ks as [|k ks IHk]; cbn in *; [reflexivity|exact IHk].
  - assert (Hone :
              forall ks', NoDup ks' ->
                Zsum (map (fun k =>
                             Zsum (map snd (filter (fun r => Z.eqb (fst r) k)
                                                   ((x, v) :: rows)))) ks')
                = (Zsum (map (fun k =>
                                Zsum (map snd (filter (fun r => Z.eqb (fst r) k)
                                                      rows))) ks')
                   + (if in_dec Z.eq_dec x ks' then v else 0))%Z).
    { unfold Zsum. induction ks' as [|k ks' IHk]; intros Hnd'; [reflexivity|].
      inversion Hnd' as [|? ? Hk Hnd'']; subst.
      cbn [map fold_right]. rewrite (IHk Hnd''). cbn [filter fst].
      destruct (Z.eqb_spec x k) as [->|Hne].
      - cbn [map fold_right snd].
        destruct (in_dec Z.eq_dec k (k :: ks')) as [_|H]; [|elim H; now left].
        destruct (in_dec Z.eq_dec k ks'); [contradiction|lia].
      - destruct (in_dec Z.eq_dec x (k :: ks')) as [[E|H]|H];
          destruct (in_dec Z.eq_dec x ks') as [H'|H'];
          try congruence; try lia; try contradiction.
        elim H. now right. }
    rewrite (Hone ks Hnd), IH by (intros y Hy; apply Hcov; now right).
    destruct (in_dec Z.eq_dec x ks) as [_|H];
      [|elim H; apply (Hcov (x, v)); now left].
    unfold Zsum. cbn [map fold_right snd]. lia.
Qed.

Lemma Zsum_nonneg (l : list Z) :
  (forall x, In x l -> (0 <= x)%Z) -> (0 <= Zsum l)%Z.
Proof.
  unfold Zsum. induction l as [|x l IH]; intros H; cbn [fold_right]; [lia|].
  assert (0 <= x)%Z by (apply H; now left).
  assert (0 <= fold_right Z.add 0 l)%Z by (apply IH; intros y Hy; apply H; now right).
  lia.
Qed.

Lemma groupby_sum_spec (keys values : list Z) :
  (forall v, In v values -> (0 <= v)%Z) ->
  Zsum (BehaviorAnalyzer.groupby_sum keys values)
  = Zsum (map snd (combine keys values))
  /\ forall s, In s (BehaviorAnalyzer.groupby_sum keys values) -> (0 <= s)%Z.
Proof.
  intros Hv. unfold BehaviorAnalyzer.groupby_sum, Pd.groupby_keys.
  rewrite map_map. cbn [snd].
  match goal with
  | |- context [Py.sorted ?lt ?ks] =>
      pose proof (sorted_perm lt ks) as HP;
      pose proof (dedupe_spec Z.eqb Z.eqb_eq (map fst (combine keys values)) []
                    (NoDup_nil Z)) as [Hnd Hin]
  end.
  split.
  - change (fun x : Z =>
              fold_right Z.add 0%Z
                (map snd (filter (fun r : Z * Z => Z.eqb (fst r) x)
                                 (combine keys values))))
      with (fun x : Z =>
              Zsum (map snd (filter (fun r : Z * Z => Z.eqb (fst r) x)
                                    (combine keys values)))).
    rewrite <- (Zsum_perm _ _ (Permutation_map _ HP)).
    apply partition_sums; [exact Hnd|].
    intros r Hr. apply Hin. right. now apply in_map.
  - intros s Hs. apply in_map_iff in Hs. destruct Hs as (k & <- & _).
    apply Zsum_nonneg. intros x Hx. apply in_map_iff in Hx.
    destruct Hx as ([k' v] & <- & Hkv). apply filter_In in Hkv.
    destruct Hkv as [Hkv _]. apply in_combine_r in Hkv. now apply Hv.
Qed.

Lemma positive_part (l : list Z) :
  (forall x, In x l -> (0 <= x)%Z) ->
  Zsum (filter (fun n => (0 <? n)%Z) l) = Zsum l
  /\ (Z.of_nat (List.length (filter (fun n => (0 <? n)%Z) l))
      <= Zsum (filter (fun n => (0 <? n)%Z) l))%Z.
Proof.
  unfold Zsum. induction l as [|x l IH]; intros H; cbn [filter fold_right];
    [cbn; lia|].
  assert (Hx : (0 <= x)%Z) by (apply H; now left).
  destruct IH as [IH1 IH2]; [intros y Hy; apply H; now right|].
  destruct (Z.ltb_spec 0 x).
  - cbn [fold_right List.length]. rewrite Nat2Z.inj_succ. lia.
  - lia.
Qed.

Lemma map_snd_combine {A B} (a : list A) (b : list B) :
  List.length a = List.length b -> map snd (combine a b) = b.
Proof.
  revert b. induction a as [|x a IH]; intros [|y b] Hlen; try discriminate;
    [reflexivity|]. cbn. f_equal. apply IH. now injection Hlen.
Qed.

(** X25.  [calculate_loss_recovery_rate] is NaN exactly when no trade is
    a non-win; otherwise it is a finite mean of positive streak lengths:
    at least 1 and at most the number of non-winning trades. *)
Theorem loss_recovery_rate_bounds (trades_df : DataFrame) :
  let losses :=
    List.length (filter (fun r : Row => negb (String.eqb (status r) "win"))
                        trades_df) in
  let rate := BehaviorAnalyzer.calculate_loss_recovery_rate trades_df in
  (losses = 0%nat -> rate = NaN)
  /\ ((0 < losses)%nat ->
      exists q, rate = Fin q /\ 1 <= q /\ q <= inject_Z (Z.of_nat losses)).
Proof.
  cbv zeta. unfold BehaviorAnalyzer.calculate_loss_recovery_rate. cbv zeta.
  set (wins := Pd.cumsum _).
  set (values := map (fun r : Row => if negb (String.eqb (status r) "win")
                                     then 1%Z else 0%Z) trades_df).
  set (losses := List.length (filter _ trades_df)).
  assert (Hv : forall v, In v values -> (0 <= v)%Z).
  { intros v Hin. apply in_map_iff in Hin. destruct Hin as (r & <- & _).
    destruct (negb _); lia. }
  assert (Hlen : List.length wins = List.length values).
  { unfold wins, values, Pd.cumsum. now rewrite cumsum_from_length, !length_map. }
  assert (Hvals : Zsum values = Z.of_nat losses).
  { unfold values, losses, Zsum. clear. induction trades_df as [|r df IH];
      cbn [map filter fold_right]; [reflexivity|].
    destruct (negb (String.eqb (status r) "win")); cbn [List.length];
      rewrite IH; lia. }
  destruct (groupby_sum_spec wins values Hv) as [Hsum Hnn].
  pose proof (map_snd_combine wins values Hlen) as Hcomb.
  rewrite Hcomb, Hvals in Hsum.
  destruct (positive_part _ Hnn) as [Hp1 Hp2].
  set (ls := filter (fun n => (0 <? n)%Z)
                    (BehaviorAnalyzer.groupby_sum wins values)) in *.
  rewrite Hsum in Hp1.
  unfold X.of_Z. rewrite <- (map_map inject_Z Fin), mean_finite.
  assert (HQ : Qsum (map inject_Z ls) == inject_Z (Zsum ls)).
  { clear. unfold Qsum, Zsum. induction ls as [|x l IH]; cbn [map fold_right];
      [reflexivity|]. rewrite inject_Z_plus, IH. reflexivity. }
  split.
  - intros H0. rewrite H0 in Hp1. 
    destruct ls as [|x l]; [reflexivity|].
    exfalso. cbn [List.length] in Hp2. lia.
  - intros Hpos. destruct ls as [|x l] eqn:E.
    + exfalso. cbn in Hp1. lia.
    + cbn [map]. eexists. split; [reflexivity|].
      change (inject_Z x :: map inject_Z l) with (map inject_Z (x :: l)).
      rewrite length_map, HQ, Hp1.
      cbn [List.length] in *.
      pose proof (inject_nat_pos (List.length l)) as Hn.
      split.
      * apply Qle_shift_div_l; [exact Hn|]. rewrite Qmult_1_l.
        rewrite <- Zle_Qle. lia.
      * apply Qle_shift_div_r; [exact Hn|].
        rewrite <- inject_Z_mult, <- Zle_Qle. nia.
Qed.
